(** * StudentCareerPlanner: weakness analysis and targeted exam generation

    A shallow embedding of
      - [database/db_manager.py]   (the read queries the generator uses, and
        the two inserts that feed them),
      - [services/weakness_analysis_service.py],
      - [services/intelligent_exam_generator.py],
    followed by the properties established about them.

    Conventions of the embedding.
      - Python [int] is [Z]; [len] returns a [Z].
      - Python [float] is an exact rational [Q]; equalities between floats are
        stated with [==].  The literals 0.1, 0.15, 0.2, ... are the decimal
        rationals of the same name.
      - A Python [dict] is an association list in insertion order (the order
        CPython iterates in), a [set] is a duplicate-free list.
      - An exception is a value [Raise e] of the type [result]; a function that
        can raise returns a [result].
      - [random] is a tape of raw draws with a cursor; every sequence of
        outcomes of the generator is the image of some tape.
      - The calls of [DatabaseManager.search_questions] are recorded, in
        order, in the [queries] trace of the [World]. *)

From Stdlib Require Import List ZArith QArith Qround Qminmax String Bool.
From Stdlib Require Import Lia Lqa Sorting.Sorted Permutation DecimalString.
Import ListNotations.

Set Implicit Arguments.

Open Scope string_scope.
Open Scope list_scope.
Open Scope Z_scope.

(* ================================================================== *)
(** ** Python primitives *)

Module Py.

Inductive exn : Type :=
| KeyError
| ZeroDivisionError
| IndexError.

Inductive result (A : Type) : Type :=
| Ok (a : A)
| Raise (e : exn).
Arguments Ok {A} a.
Arguments Raise {A} e.

Definition bind {A B} (r : result A) (k : A -> result B) : result B :=
  match r with
  | Ok a => k a
  | Raise e => Raise e
  end.

(** [len(l)] *)
Definition len {A} (l : list A) : Z := Z.of_nat (List.length l).

(** [range(n)]: empty when [n <= 0]. *)
Definition range (n : Z) : list Z := map Z.of_nat (seq 0 (Z.to_nat n)).

(** [a < b] on floats, as a boolean. *)
Definition Qlt_bool (a b : Q) : bool := negb (Qle_bool b a).

(** [a / b]: true division, [ZeroDivisionError] on a zero divisor. *)
Definition truediv (a b : Q) : result Q :=
  if Qeq_bool b 0 then Raise ZeroDivisionError else Ok (a / b)%Q.

(** [sum(l)] on floats (the start value is the integer 0). *)
Definition sum (l : list Q) : Q := fold_left Qplus l 0%Q.

(** [round(x, 2)]: nearest multiple of 1/100, a tie going to the even
    neighbour. *)
Definition round2 (x : Q) : Q :=
  let y := (x * 100)%Q in
  let f := Qfloor y in
  let r := (y - inject_Z f)%Q in
  let up := (inject_Z (f + 1) / 100)%Q in
  let down := (inject_Z f / 100)%Q in
  if Qlt_bool r 0.5 then down
  else if Qlt_bool 0.5 r then up
  else if Z.even f then down else up.

(** [str(n)] for an integer. *)
Definition str (n : Z) : string := NilZero.string_of_int (Z.to_int n).

(** [d[k]] on a dict with string keys: [KeyError] when [k] is absent. *)
Fixpoint getitem {V} (d : list (string * V)) (k : string) : result V :=
  match d with
  | [] => Raise KeyError
  | (k', v) :: d' => if String.eqb k' k then Ok v else getitem d' k
  end.

(** [k in d] for a dict with integer keys. *)
Definition contains {V} (d : list (Z * V)) (k : Z) : bool :=
  existsb (fun e => fst e =? k) d.

(** In-place update of the value stored under an existing key [k]
    ([d[k][field] += 1]); the position of the key is kept. *)
Definition update {V} (d : list (Z * V)) (k : Z) (f : V -> V) : list (Z * V) :=
  map (fun e => if fst e =? k then (fst e, f (snd e)) else e) d.

(** [d[k] = v]: a new key is appended last, an existing key keeps its
    position. *)
Definition setitem {V} (d : list (Z * V)) (k : Z) (v : V) : list (Z * V) :=
  if contains d k then update d k (fun _ => v) else d ++ [(k, v)].

(** [d.values()] *)
Definition values {V} (d : list (Z * V)) : list V := map snd d.

(** A [for] loop whose body can raise. *)
Fixpoint foldM {A B} (f : A -> B -> result A) (l : list B) (a : A)
  : result A :=
  match l with
  | [] => Ok a
  | x :: l' => bind (f a x) (foldM f l')
  end.

(** [x in l] for integers. *)
Definition in_list (x : Z) (l : list Z) : bool := existsb (Z.eqb x) l.

(** [s.add(x)] on a set of integers. *)
Definition set_add (s : list Z) (x : Z) : list Z :=
  if in_list x s then s else s ++ [x].

(** [l.sort(key=...)]: a stable sort, written as the insertion sort that
    puts an element before the first one that is not smaller.  [leb a b]
    is [key(a) <= key(b)]. *)
Section Sort.
Variable A : Type.
Variable leb : A -> A -> bool.

Fixpoint insert (x : A) (l : list A) : list A :=
  match l with
  | [] => [x]
  | y :: l' => if leb x y then x :: l else y :: insert x l'
  end.

Fixpoint sort (l : list A) : list A :=
  match l with
  | [] => []
  | x :: l' => insert x (sort l')
  end.
End Sort.

(** [l[:n]]: the first [n] elements, and for a negative [n] all but the
    last [-n]. *)
Definition slice_to {A} (l : list A) (n : Z) : list A :=
  if 0 <=? n then firstn (Z.to_nat n) l
  else firstn (Z.to_nat (len l + n)) l.

(** [enumerate(l, start)] *)
Fixpoint enumerate {A} (l : list A) (start : Z) : list (Z * A) :=
  match l with
  | [] => []
  | x :: l' => (start, x) :: enumerate l' (start + 1)
  end.

(** The integer nearest to [y], a tie going to the even neighbour. *)
Definition nearest (y : Q) : Z :=
  let f := Qfloor y in
  let r := (y - inject_Z f)%Q in
  if Qlt_bool r 0.5 then f
  else if Qlt_bool 0.5 r then f + 1
  else if Z.even f then f else f + 1.

(** [f"{x:.1f}"]: one digit after the point. *)
Definition format_1f (x : Q) : string :=
  let tenths := nearest ((if Qlt_bool x 0 then - x else x) * 10) in
  ((if Qlt_bool x 0 then "-" else "")
   ++ str (tenths / 10) ++ "." ++ str (tenths mod 10))%string.

End Py.

Import Py.

Declare Scope result_scope.
Delimit Scope result_scope with result.
Notation "x <- c ;; k" := (Py.bind c (fun x => k))
  (at level 61, c at next level, right associativity) : result_scope.

(* ================================================================== *)
(** ** database/models.py *)

Module Subject.
Record t := mk { id : Z; name : string; category : string; is_core : bool }.
End Subject.

Module KnowledgePoint.
Record t := mk {
  id : Z;
  subject_id : Z;
  name : string;
  parent_id : option Z;
  level : Z;
  description : string
}.
End KnowledgePoint.

Module Question.
Record t := mk {
  id : Z;
  subject_id : Z;
  content : string;
  answer : string;
  analysis : string;
  question_type : string;
  difficulty : Q;
  score : Q
}.

(** Equality of two result rows, as [SELECT DISTINCT] compares them. *)
Definition eqb (a b : t) : bool :=
  (id a =? id b) && (subject_id a =? subject_id b)
  && String.eqb (content a) (content b)
  && String.eqb (answer a) (answer b)
  && String.eqb (analysis a) (analysis b)
  && String.eqb (question_type a) (question_type b)
  && Qeq_bool (difficulty a) (difficulty b)
  && Qeq_bool (score a) (score b).
End Question.

Module QuestionKnowledge.
Record t := mk { question_id : Z; knowledge_point_id : Z; weight : Q }.
End QuestionKnowledge.

Module StudentAnswer.
Record t := mk {
  id : Z;
  student_id : Z;
  exam_id : Z;
  question_id : Z;
  student_answer : string;
  score_obtained : Q;
  is_correct : bool
}.
End StudentAnswer.

(* ================================================================== *)
(** ** database/db_manager.py *)

(** The [filters] dict of [search_questions]; an absent key is [None]. *)
Module Filters.
Record t := mk {
  subject_id : option Z;
  knowledge_point_ids : option (list Z);
  question_type : option string;
  min_difficulty : option Q;
  max_difficulty : option Q;
  exclude_ids : option (list Z)
}.
End Filters.

Module DatabaseManager.

(** The tables the modelled queries read.  A query without [ORDER BY]
    returns its rows in table order. *)
Record t := mk {
  subjects : list Subject.t;
  knowledge_points : list KnowledgePoint.t;
  questions : list Question.t;
  question_knowledge : list QuestionKnowledge.t;
  student_answers : list StudentAnswer.t
}.

(** [SELECT * FROM subjects ORDER BY id] *)
Definition get_all_subjects (db : t) : list Subject.t :=
  Py.sort (fun a b => Subject.id a <=? Subject.id b) (subjects db).

(** [SELECT ... FROM student_answers WHERE student_id = ?] *)
Definition get_student_all_answers (db : t) (student_id : Z)
  : list StudentAnswer.t :=
  filter (fun a => StudentAnswer.student_id a =? student_id)
         (student_answers db).

(** [SELECT kp.* FROM knowledge_points kp JOIN question_knowledge qk
     ON kp.id = qk.knowledge_point_id WHERE qk.question_id = ?] *)
Definition get_question_knowledge_points (db : t) (question_id : Z)
  : list KnowledgePoint.t :=
  flat_map
    (fun kp =>
       flat_map
         (fun qk =>
            if (KnowledgePoint.id kp =? QuestionKnowledge.knowledge_point_id qk)
               && (QuestionKnowledge.question_id qk =? question_id)
            then [kp] else [])
         (question_knowledge db))
    (knowledge_points db).

(** [SELECT DISTINCT]: the first copy of every row is kept. *)
Fixpoint distinct (rows : list Question.t) : list Question.t :=
  match rows with
  | [] => []
  | q :: rows' =>
      q :: filter (fun q' => negb (Question.eqb q q')) (distinct rows')
  end.

(** The conditions of the [WHERE] clause that bear on the question row. *)
Definition where_question (f : Filters.t) (q : Question.t) : bool :=
  (match Filters.subject_id f with
   | Some s => if s =? 0 then true else Question.subject_id q =? s
   | None => true
   end)
  && (match Filters.question_type f with
      | Some ty =>
          if String.eqb ty "" then true
          else String.eqb (Question.question_type q) ty
      | None => true
      end)
  && (match Filters.min_difficulty f with
      | Some lo => Qle_bool lo (Question.difficulty q)
      | None => true
      end)
  && (match Filters.max_difficulty f with
      | Some hi => Qle_bool (Question.difficulty q) hi
      | None => true
      end)
  && (match Filters.exclude_ids f with
      | Some (x :: xs) => negb (in_list (Question.id q) (x :: xs))
      | _ => true
      end).

(** The rows of [questions q], joined with [question_knowledge qk ON
    q.id = qk.question_id] and restricted to [qk.knowledge_point_id IN ids]
    when the filter names knowledge points. *)
Definition from_rows (db : t) (f : Filters.t) : list Question.t :=
  match Filters.knowledge_point_ids f with
  | Some (k :: ks) =>
      flat_map
        (fun q =>
           flat_map
             (fun qk =>
                if (Question.id q =? QuestionKnowledge.question_id qk)
                   && in_list (QuestionKnowledge.knowledge_point_id qk)
                              (k :: ks)
                then [q] else [])
             (question_knowledge db))
        (questions db)
  | _ => questions db
  end.

Definition search_questions (db : t) (f : Filters.t) : list Question.t :=
  distinct (filter (where_question f) (from_rows db f)).

(** [SELECT DISTINCT q.* FROM questions q JOIN question_knowledge qk
     ON q.id = qk.question_id WHERE qk.knowledge_point_id = ?] *)
Definition get_questions_by_knowledge_point (db : t)
           (kp_id : Z) : list Question.t :=
  distinct
    (flat_map
       (fun q =>
          flat_map
            (fun qk =>
               if (Question.id q =? QuestionKnowledge.question_id qk)
                  && (QuestionKnowledge.knowledge_point_id qk =? kp_id)
               then [q] else [])
            (question_knowledge db))
       (questions db)).

(** [INSERT OR REPLACE INTO question_knowledge (question_id,
     knowledge_point_id, weight) VALUES (?, ?, ?)]: the row that holds the
    same primary key [(question_id, knowledge_point_id)] is deleted, and
    the new row is added last.  Foreign keys are not enforced by the
    connection. *)
Definition link_question_to_knowledge (db : t)
           (question_id knowledge_point_id : Z) (weight : Q) : t :=
  mk (subjects db) (knowledge_points db) (questions db)
     (filter
        (fun qk =>
           negb ((QuestionKnowledge.question_id qk =? question_id)
                 && (QuestionKnowledge.knowledge_point_id qk
                     =? knowledge_point_id)))
        (question_knowledge db)
      ++ [QuestionKnowledge.mk question_id knowledge_point_id weight])
     (student_answers db).

(** [INSERT INTO student_answers (student_id, exam_id, question_id,
     student_answer, score_obtained, is_correct) VALUES (...)]: the row is
    added last under the key [rowid] that SQLite assigns to it, and the
    method returns this key ([cursor.lastrowid]).  The field [id] of the
    argument is not read. *)
Definition add_student_answer (db : t) (answer : StudentAnswer.t)
           (rowid : Z) : Z * t :=
  (rowid,
   mk (subjects db) (knowledge_points db) (questions db)
      (question_knowledge db)
      (student_answers db
       ++ [StudentAnswer.mk rowid (StudentAnswer.student_id answer)
             (StudentAnswer.exam_id answer)
             (StudentAnswer.question_id answer)
             (StudentAnswer.student_answer answer)
             (StudentAnswer.score_obtained answer)
             (StudentAnswer.is_correct answer)])).

End DatabaseManager.

(* ================================================================== *)
(** ** services/weakness_analysis_service.py *)

Module WeaknessAnalysisService.

(** The dict stored in [kp_performance] under a knowledge point. *)
Module KpData.
Record t := mk {
  knowledge_point_id : Z;
  knowledge_point_name : string;
  subject_id : Z;
  level : Z;
  total_attempts : Z;
  correct_attempts : Z
}.
End KpData.

(** The same dict once [mastery_rate] and [subject_name] have been added:
    an element of the list [analyze_student_weaknesses] returns. *)
Module Weakness.
Record t := mk {
  knowledge_point_id : Z;
  knowledge_point_name : string;
  subject_id : Z;
  level : Z;
  total_attempts : Z;
  correct_attempts : Z;
  mastery_rate : Q;
  subject_name : string
}.
End Weakness.

(** Truth value of the optional argument [subject_id]. *)
Definition given (subject_id : option Z) : bool :=
  match subject_id with
  | Some s => negb (s =? 0)
  | None => false
  end.

Definition other_subject (subject_id : option Z) (kp : KnowledgePoint.t)
  : bool :=
  match subject_id with
  | Some s => negb (KnowledgePoint.subject_id kp =? s)
  | None => true
  end.

Definition add_attempt (d : KpData.t) : KpData.t :=
  KpData.mk (KpData.knowledge_point_id d) (KpData.knowledge_point_name d)
            (KpData.subject_id d) (KpData.level d)
            (KpData.total_attempts d + 1) (KpData.correct_attempts d).

Definition add_correct (d : KpData.t) : KpData.t :=
  KpData.mk (KpData.knowledge_point_id d) (KpData.knowledge_point_name d)
            (KpData.subject_id d) (KpData.level d)
            (KpData.total_attempts d) (KpData.correct_attempts d + 1).

(** Body of [for kp in kps] in [analyze_student_weaknesses]. *)
Definition tally (subject_id : option Z) (answer : StudentAnswer.t)
           (kp_performance : list (Z * KpData.t)) (kp : KnowledgePoint.t)
  : list (Z * KpData.t) :=
  if given subject_id && other_subject subject_id kp then kp_performance
  else
    let k := KnowledgePoint.id kp in
    let p1 :=
      if negb (contains kp_performance k)
      then setitem kp_performance k
             (KpData.mk k (KnowledgePoint.name kp)
                        (KnowledgePoint.subject_id kp)
                        (KnowledgePoint.level kp) 0 0)
      else kp_performance in
    let p2 := update p1 k add_attempt in
    if StudentAnswer.is_correct answer then update p2 k add_correct else p2.

(** The dict [kp_performance] after the loop over [answers]. *)
Definition performance (db : DatabaseManager.t) (subject_id : option Z)
           (answers : list StudentAnswer.t) : list (Z * KpData.t) :=
  fold_left
    (fun perf answer =>
       fold_left (tally subject_id answer)
         (DatabaseManager.get_question_knowledge_points db
            (StudentAnswer.question_id answer))
         perf)
    answers [].

(** [next((s.name for s in subject if s.id == id), '未知')] *)
Definition subject_name_of (db : DatabaseManager.t) (id : Z) : string :=
  match find (fun s => Subject.id s =? id)
             (DatabaseManager.get_all_subjects db) with
  | Some s => Subject.name s
  | None => "未知"
  end.

(** Body of [for kp_data in kp_performance.values()]. *)
Definition rank (db : DatabaseManager.t) (weaknesses : list Weakness.t)
           (kp_data : KpData.t) : result (list Weakness.t) :=
  if KpData.total_attempts kp_data =? 0 then Ok weaknesses
  else
    (mastery_rate <- truediv (inject_Z (KpData.correct_attempts kp_data))
                             (inject_Z (KpData.total_attempts kp_data));;
     if Qlt_bool mastery_rate 0.65
     then Ok (weaknesses ++
              [Weakness.mk (KpData.knowledge_point_id kp_data)
                           (KpData.knowledge_point_name kp_data)
                           (KpData.subject_id kp_data)
                           (KpData.level kp_data)
                           (KpData.total_attempts kp_data)
                           (KpData.correct_attempts kp_data)
                           mastery_rate
                           (subject_name_of db (KpData.subject_id kp_data))])
     else Ok weaknesses)%result.

(** [key=lambda x: x['mastery_rate']] *)
Definition by_mastery (a b : Weakness.t) : bool :=
  Qle_bool (Weakness.mastery_rate a) (Weakness.mastery_rate b).

Definition analyze_student_weaknesses (db : DatabaseManager.t)
           (student_id : Z) (subject_id : option Z)
  : result (list Weakness.t) :=
  let answers := DatabaseManager.get_student_all_answers db student_id in
  match answers with
  | [] => Ok []
  | _ =>
      (weaknesses <- foldM (rank db)
                       (values (performance db subject_id answers)) [];;
       Ok (Py.sort by_mastery weaknesses))%result
  end.

(** The dict stored in [kp_stats] under a knowledge point. *)
Module Stats.
Record t := mk { correct : Z; total : Z }.
End Stats.

(** Body of [for kp in kps] in [get_knowledge_point_mastery]. *)
Definition count_attempt (answer : StudentAnswer.t)
           (kp_stats : list (Z * Stats.t)) (kp : KnowledgePoint.t)
  : list (Z * Stats.t) :=
  let k := KnowledgePoint.id kp in
  let s1 :=
    if negb (contains kp_stats k) then setitem kp_stats k (Stats.mk 0 0)
    else kp_stats in
  let s2 :=
    update s1 k (fun s => Stats.mk (Stats.correct s) (Stats.total s + 1)) in
  if StudentAnswer.is_correct answer
  then update s2 k (fun s => Stats.mk (Stats.correct s + 1) (Stats.total s))
  else s2.

(** Body of [for kp_id, stats in kp_stats.items()]. *)
Definition ratio (mastery : list (Z * Q)) (item : Z * Stats.t)
  : result (list (Z * Q)) :=
  let (kp_id, stats) := item in
  if 0 <? Stats.total stats
  then (r <- truediv (inject_Z (Stats.correct stats))
                     (inject_Z (Stats.total stats));;
        Ok (setitem mastery kp_id r))%result
  else Ok (setitem mastery kp_id 0.5%Q).

Definition get_knowledge_point_mastery (db : DatabaseManager.t)
           (student_id : Z) : result (list (Z * Q)) :=
  let answers := DatabaseManager.get_student_all_answers db student_id in
  let kp_stats :=
    fold_left
      (fun stats answer =>
         fold_left (count_attempt answer)
           (DatabaseManager.get_question_knowledge_points db
              (StudentAnswer.question_id answer))
           stats)
      answers [] in
  foldM ratio kp_stats [].

(** Body of [for i, weak in enumerate(weaknesses[:top_n], 1)]. *)
Definition suggestion (i : Z) (weak : Weakness.t) : string :=
  let mastery_pct := (Weakness.mastery_rate weak * 100)%Q in
  (str i ++ ". 加强【" ++ Weakness.subject_name weak ++ "-"
   ++ Weakness.knowledge_point_name weak ++ "】的练习 "
   ++ "(当前掌握率: " ++ format_1f mastery_pct ++ "%, 已练习"
   ++ str (Weakness.total_attempts weak) ++ "题)")%string.

Definition get_improvement_suggestions (db : DatabaseManager.t)
           (student_id top_n : Z) : result (list string) :=
  (weaknesses <- analyze_student_weaknesses db student_id None;;
   Ok (fold_left
         (fun suggestions item =>
            suggestions ++ [suggestion (fst item) (snd item)])
         (enumerate (slice_to weaknesses top_n) 1) []))%result.

End WeaknessAnalysisService.

Module KnowledgePointCoverageAnalyzer.

(** The dict [calculate_coverage] returns.  The two lists come from
    [list(set)], whose order is that of the hash table: the order of the
    lists of the model carries no meaning. *)
Module Report.
Record t := mk {
  covered_count : Z;
  total_count : Z;
  coverage_rate : Q;
  covered_kps : list Z;
  uncovered_kps : list Z
}.
End Report.

(** [db] is the database at [config.DATABASE_PATH], which the method
    opens itself. *)
Definition calculate_coverage (db : DatabaseManager.t)
           (questions : list Question.t) (all_kps : list KnowledgePoint.t)
  : result Report.t :=
  let covered_kp_ids :=
    fold_left
      (fun covered q =>
         fold_left
           (fun covered kp => set_add covered (KnowledgePoint.id kp))
           (DatabaseManager.get_question_knowledge_points db (Question.id q))
           covered)
      questions [] in
  let all_kp_ids := fold_left set_add (map KnowledgePoint.id all_kps) [] in
  let uncovered_kp_ids :=
    filter (fun k => negb (in_list k covered_kp_ids)) all_kp_ids in
  (coverage_rate <-
     match all_kp_ids with
     | _ :: _ => truediv (inject_Z (len covered_kp_ids))
                         (inject_Z (len all_kp_ids))
     | [] => Ok 0%Q
     end;;
   Ok (Report.mk (len covered_kp_ids) (len all_kp_ids) coverage_rate
                 covered_kp_ids uncovered_kp_ids))%result.

End KnowledgePointCoverageAnalyzer.

(* ================================================================== *)
(** ** The effects of the generator: [random] and the query trace *)

Module World.

Record t := mk {
  tape : nat -> N;          (* the raw draws of the random source *)
  cursor : nat;             (* how many draws have been consumed *)
  queries : list Filters.t  (* the searches issued so far, oldest first *)
}.

Definition M (A : Type) : Type := t -> result (A * t).

Definition ret {A} (a : A) : M A := fun w => Ok (a, w).

Definition bind {A B} (m : M A) (k : A -> M B) : M B :=
  fun w =>
    match m w with
    | Ok (a, w') => k a w'
    | Raise e => Raise e
    end.

Definition lift {A} (r : result A) : M A :=
  fun w =>
    match r with
    | Ok a => Ok (a, w)
    | Raise e => Raise e
    end.

Fixpoint foldM {A B} (f : A -> B -> M A) (l : list B) (a : A) : M A :=
  match l with
  | [] => ret a
  | x :: l' => bind (f a x) (foldM f l')
  end.

Definition draw (w : t) : N := tape w (cursor w).

Definition advance (w : t) : t := mk (tape w) (S (cursor w)) (queries w).

(** [random.random()]: a multiple of 2^-53 in [0, 1). *)
Definition random : M Q :=
  fun w =>
    Ok ((inject_Z (Z.of_N (draw w mod 2 ^ 53)) / inject_Z (2 ^ 53))%Q,
        advance w).

(** [random.choice(seq)]: [seq[randbelow(len(seq))]], [IndexError] on an
    empty sequence. *)
Definition choice {A} (seq : list A) : M A :=
  fun w =>
    match seq with
    | [] => Raise IndexError
    | x :: _ =>
        Ok (nth (N.to_nat (draw w mod N.of_nat (List.length seq))) seq x,
            advance w)
    end.

(** [self.db.search_questions(filters)], recorded in the trace. *)
Definition search_questions (db : DatabaseManager.t) (f : Filters.t)
  : M (list Question.t) :=
  fun w =>
    Ok (DatabaseManager.search_questions db f,
        mk (tape w) (cursor w) (queries w ++ [f])).

End World.

Declare Scope world_scope.
Delimit Scope world_scope with world.
Notation "x <- c ;; k" := (World.bind c (fun x => k))
  (at level 61, c at next level, right associativity) : world_scope.

(* ================================================================== *)
(** ** services/intelligent_exam_generator.py *)

Module IntelligentExamGenerator.

Import WeaknessAnalysisService.

Module TypeConfig.
Record t := mk { count : Z; score_each : Z }.
End TypeConfig.

Module DifficultyStats.
Record t := mk { average : Q; distribution : list (string * Z) }.
End DifficultyStats.

Module Coverage.
Record t := mk { covered_count : Z; total_count : Z; coverage_rate : Q }.
End Coverage.

Module GeneratedExam.
Record t := mk {
  questions : list Question.t;
  total_score : Q;
  actual_count : Z;
  difficulty_stats : DifficultyStats.t;
  weakness_coverage : Coverage.t;
  recommendations : list string;
  weaknesses_analyzed : list Weakness.t
}.
End GeneratedExam.

Definition _get_default_distribution (db : DatabaseManager.t)
           (subject_id total_score : Z) : list (string * TypeConfig.t) :=
  let subjects := DatabaseManager.get_all_subjects db in
  let subject_name :=
    match find (fun s => Subject.id s =? subject_id) subjects with
    | Some s => Subject.name s
    | None => ""
    end in
  if total_score =? 150 then
    [("选择题", TypeConfig.mk 12 4);
     ("填空题", TypeConfig.mk 4 5);
     ("解答题", TypeConfig.mk 6 15)]
  else if total_score =? 100 then
    [("选择题", TypeConfig.mk 10 4);
     ("解答题", TypeConfig.mk 5 12)]
  else
    [("选择题", TypeConfig.mk 10 4);
     ("填空题", TypeConfig.mk 5 5);
     ("解答题", TypeConfig.mk 5 10)].

(** [levels.get(level, 0.5)] *)
Definition _get_difficulty_target (level : string) : Q :=
  if String.eqb level "easy" then 0.3%Q
  else if String.eqb level "medium" then 0.5%Q
  else if String.eqb level "hard" then 0.7%Q
  else 0.5%Q.

Definition _get_question_difficulty_target (index total : Z)
           (base_difficulty : Q) : result Q :=
  (progress <- (if 0 <? total
                then truediv (inject_Z index) (inject_Z total)
                else Ok 0%Q);;
   let min_diff := Qmax 0.1 (base_difficulty - 0.2) in
   let max_diff := Qmin 0.9 (base_difficulty + 0.2) in
   Ok (min_diff + (max_diff - min_diff) * progress)%Q)%result.

(** Truth value of an optional list argument. *)
Definition nonempty {A} (o : option (list A)) : bool :=
  match o with
  | Some (_ :: _) => true
  | _ => false
  end.

Definition _select_question (db : DatabaseManager.t) (subject_id : Z)
           (question_type : string) (target_kp_ids : option (list Z))
           (difficulty_range : Q * Q) (exclude_ids : option (list Z))
  : World.M (option Question.t) :=
  let filters :=
    Filters.mk (Some subject_id) None (Some question_type)
               (Some (fst difficulty_range)) (Some (snd difficulty_range))
               (Some (match exclude_ids with
                      | Some (x :: xs) => x :: xs
                      | _ => []
                      end)) in
  let unrestricted :=
    (questions <- World.search_questions db filters;;
     match questions with
     | _ :: _ => (q <- World.choice questions;; World.ret (Some q))
     | [] => World.ret None
     end)%world in
  if nonempty target_kp_ids then
    (questions <- World.search_questions db
                    (Filters.mk (Filters.subject_id filters)
                                target_kp_ids
                                (Filters.question_type filters)
                                (Filters.min_difficulty filters)
                                (Filters.max_difficulty filters)
                                (Filters.exclude_ids filters));;
     match questions with
     | _ :: _ => (q <- World.choice questions;; World.ret (Some q))
     | [] => unrestricted
     end)%world
  else unrestricted.

Definition count_if (p : Q -> bool) (l : list Q) : Z :=
  len (filter p l).

Definition _calculate_difficulty_stats (questions : list Question.t)
  : result DifficultyStats.t :=
  match questions with
  | [] => Ok (DifficultyStats.mk 0 [])
  | _ =>
      let difficulties := map Question.difficulty questions in
      (avg_difficulty <- truediv (Py.sum difficulties)
                                 (inject_Z (len difficulties));;
       let easy_count := count_if (fun d => Qlt_bool d 0.4) difficulties in
       let medium_count :=
         count_if (fun d => Qle_bool 0.4 d && Qlt_bool d 0.7) difficulties in
       let hard_count := count_if (fun d => Qle_bool 0.7 d) difficulties in
       Ok (DifficultyStats.mk (round2 avg_difficulty)
             [("简单", easy_count);
              ("中等", medium_count);
              ("困难", hard_count)]))%result
  end.

(** The set [covered_weak_kps] after the loops over the questions and
    their knowledge points. *)
Definition covered_weak_kps (db : DatabaseManager.t)
           (questions : list Question.t) (weak_kp_ids : list Z) : list Z :=
  fold_left
    (fun covered q =>
       fold_left
         (fun covered kp =>
            if in_list (KnowledgePoint.id kp) weak_kp_ids
            then set_add covered (KnowledgePoint.id kp)
            else covered)
         (DatabaseManager.get_question_knowledge_points db (Question.id q))
         covered)
    questions [].

Definition _calculate_weakness_coverage (db : DatabaseManager.t)
           (questions : list Question.t) (weak_kp_ids : list Z)
  : result Coverage.t :=
  match weak_kp_ids with
  | [] => Ok (Coverage.mk 0 0 0)
  | _ =>
      let covered := covered_weak_kps db questions weak_kp_ids in
      (coverage_rate <-
         match weak_kp_ids with
         | _ :: _ => truediv (inject_Z (len covered))
                             (inject_Z (len weak_kp_ids))
         | [] => Ok 0%Q
         end;;
       Ok (Coverage.mk (len covered) (len weak_kp_ids)
                       (round2 coverage_rate)))%result
  end.

Definition insufficient : string :=
  "⚠️ 未能成功组卷，题库可能不足，请补充题目。".

Definition _generate_recommendations (questions : list Question.t)
           (weaknesses : list Weakness.t) (coverage : Coverage.t)
  : result (list string) :=
  if len questions =? 0 then Ok [insufficient]
  else
    let r1 :=
      if Qlt_bool (Coverage.coverage_rate coverage) 0.5
         && (match weaknesses with [] => false | _ => true end)
      then [("💡 试卷仅覆盖了" ++ str (Coverage.covered_count coverage)
             ++ "/" ++ str (Coverage.total_count coverage)
             ++ "个薄弱知识点，建议补充相关题目。")%string]
      else if Qle_bool 0.7 (Coverage.coverage_rate coverage)
      then [("✅ 试卷已覆盖" ++ str (Coverage.covered_count coverage)
             ++ "个薄弱知识点，针对性强。")%string]
      else [] in
    (diff_stats <- _calculate_difficulty_stats questions;;
     let half := (inject_Z (len questions) * 0.5)%Q in
     easy <- getitem (DifficultyStats.distribution diff_stats) "简单";;
     if Qlt_bool half (inject_Z easy)
     then Ok (r1 ++ ["💡 试卷整体偏简单，可适当增加难度。"])
     else
       hard <- getitem (DifficultyStats.distribution diff_stats) "困难";;
       if Qlt_bool half (inject_Z hard)
       then Ok (r1 ++ ["💡 试卷整体偏难，建议增加简单题增强信心。"])
       else Ok r1)%result.

(** The two lists the selection loop appends to. *)
Definition Selection : Type := (list Question.t * list Z)%type.

(** Body of [for i in range(count)]. *)
Definition fill_slot (db : DatabaseManager.t) (subject_id : Z)
           (focus_on_weaknesses : bool) (weak_kp_ids : list Z)
           (difficulty_target : Q) (q_type : string) (count : Z)
           (sel : Selection) (i : Z) : World.M Selection :=
  let (selected_questions, used_q_ids) := sel in
  (q_difficulty <- World.lift
       (_get_question_difficulty_target i count difficulty_target);;
   use_weakness <-
     (if focus_on_weaknesses && (0 <? len weak_kp_ids)
      then (r <- World.random;; World.ret (Qlt_bool r 0.7))
      else World.ret false);;
   question <- _select_question db subject_id q_type
                 (if use_weakness then Some weak_kp_ids else None)
                 (q_difficulty - 0.15, q_difficulty + 0.15)%Q
                 (Some used_q_ids);;
   match question with
   | Some q =>
       World.ret (selected_questions ++ [q], used_q_ids ++ [Question.id q])
   | None => World.ret (selected_questions, used_q_ids)
   end)%world.

(** Body of [for q_type, config in question_distribution.items()]. *)
Definition fill_type (db : DatabaseManager.t) (subject_id : Z)
           (focus_on_weaknesses : bool) (weak_kp_ids : list Z)
           (difficulty_target : Q) (sel : Selection)
           (item : string * TypeConfig.t) : World.M Selection :=
  let (q_type, config) := item in
  let count := TypeConfig.count config in
  let score_each := TypeConfig.score_each config in
  World.foldM
    (fill_slot db subject_id focus_on_weaknesses weak_kp_ids
               difficulty_target q_type count)
    (range count) sel.

Definition generate_targeted_exam (db : DatabaseManager.t)
           (student_id subject_id total_score : Z)
           (focus_on_weaknesses : bool) (difficulty_level : string)
           (question_distribution : option (list (string * TypeConfig.t)))
  : World.M GeneratedExam.t :=
  (weaknesses <- World.lift
       (analyze_student_weaknesses db student_id (Some subject_id));;
   let weak_kp_ids :=
     map Weakness.knowledge_point_id (firstn 15 weaknesses) in
   let question_distribution :=
     match question_distribution with
     | None => _get_default_distribution db subject_id total_score
     | Some d => d
     end in
   let difficulty_target := _get_difficulty_target difficulty_level in
   sel <- World.foldM
            (fill_type db subject_id focus_on_weaknesses weak_kp_ids
                       difficulty_target)
            question_distribution ([], []);;
   let selected_questions := fst sel in
   let actual_total := Py.sum (map Question.score selected_questions) in
   difficulty_stats <- World.lift
       (_calculate_difficulty_stats selected_questions);;
   weakness_coverage <- World.lift
       (_calculate_weakness_coverage db selected_questions weak_kp_ids);;
   recommendations <- World.lift
       (_generate_recommendations selected_questions weaknesses
                                  weakness_coverage);;
   World.ret
     (GeneratedExam.mk selected_questions actual_total
                       (len selected_questions) difficulty_stats
                       weakness_coverage recommendations
                       (firstn 10 weaknesses)))%world.

End IntelligentExamGenerator.

(* ================================================================== *)
(** ** Vocabulary of the statements *)

(** [a] stands in [l] at a position that some occurrence of [b] follows. *)
Definition occurs_before {A} (a b : A) (l : list A) : Prop :=
  exists l1 l2, l = l1 ++ a :: l2 /\ In b l2.

(** When [l] is read from the left, [a] is met while neither [a] nor [b]
    has been met yet. *)
Definition first_met_before {A} (a b : A) (l : list A) : Prop :=
  exists l1 l2, l = l1 ++ a :: l2 /\ ~ In a l1 /\ ~ In b l1.

Module WeaknessFacts.
Import WeaknessAnalysisService.

(** The knowledge points [analyze_student_weaknesses] tallies, in the order
    its two loops read them (one entry per answer and linked knowledge
    point that passes the subject test). *)
Definition encounters (db : DatabaseManager.t) (student_id : Z)
           (subject_id : option Z) : list Z :=
  flat_map
    (fun answer =>
       map KnowledgePoint.id
         (filter
            (fun kp => negb (given subject_id && other_subject subject_id kp))
            (DatabaseManager.get_question_knowledge_points db
               (StudentAnswer.question_id answer))))
    (DatabaseManager.get_student_all_answers db student_id).

(** What one entry of [kp_performance] contributes to [weaknesses]. *)
Definition weak_of (db : DatabaseManager.t) (d : KpData.t)
  : list Weakness.t :=
  if KpData.total_attempts d =? 0 then []
  else
    let r := (inject_Z (KpData.correct_attempts d)
              / inject_Z (KpData.total_attempts d))%Q in
    if Qlt_bool r 0.65
    then [Weakness.mk (KpData.knowledge_point_id d)
                      (KpData.knowledge_point_name d)
                      (KpData.subject_id d) (KpData.level d)
                      (KpData.total_attempts d) (KpData.correct_attempts d)
                      r (subject_name_of db (KpData.subject_id d))]
    else [].

(** An entry of [kp_performance] records the key it is stored under. *)
Definition keyed (e : Z * KpData.t) : Prop :=
  KpData.knowledge_point_id (snd e) = fst e.

Definition rate_le (a b : Weakness.t) : Prop :=
  (Weakness.mastery_rate a <= Weakness.mastery_rate b)%Q.

End WeaknessFacts.

Module TallyFacts.
Import WeaknessAnalysisService.

(** The tallied knowledge points of [answers], each with the correctness of
    the answer, in the order the two loops of the service read them. *)
Definition attempts_of (db : DatabaseManager.t) (subject_id : option Z)
           (answers : list StudentAnswer.t) : list (Z * bool) :=
  flat_map
    (fun answer =>
       map (fun kp => (KnowledgePoint.id kp, StudentAnswer.is_correct answer))
         (filter
            (fun kp => negb (given subject_id && other_subject subject_id kp))
            (DatabaseManager.get_question_knowledge_points db
               (StudentAnswer.question_id answer))))
    answers.

Definition attempts (db : DatabaseManager.t) (student_id : Z)
           (subject_id : option Z) : list (Z * bool) :=
  attempts_of db subject_id
    (DatabaseManager.get_student_all_answers db student_id).

(** How many times the knowledge point [k] was tallied. *)
Definition attempted (k : Z) (l : list (Z * bool)) : Z :=
  len (filter (fun e => fst e =? k) l).

(** How many times it was tallied with a correct answer. *)
Definition succeeded (k : Z) (l : list (Z * bool)) : Z :=
  len (filter (fun e => (fst e =? k) && snd e) l).

(** The counters of the entries of [kp_performance] agree with the
    attempts [seen] so far. *)
Definition counted (perf : list (Z * KpData.t)) (seen : list (Z * bool))
  : Prop :=
  (forall k d, In (k, d) perf ->
               KpData.total_attempts d = attempted k seen
               /\ KpData.correct_attempts d = succeeded k seen)
  /\ (forall k, In k (map fst perf) <-> In k (map fst seen)).

(** The entry of [kp_stats] that corresponds to an entry of
    [kp_performance]. *)
Definition stats_of (e : Z * KpData.t) : Z * Stats.t :=
  (fst e, Stats.mk (KpData.correct_attempts (snd e))
                   (KpData.total_attempts (snd e))).

(** The entry of [mastery] that corresponds to an entry of
    [kp_performance]. *)
Definition mastery_of (e : Z * KpData.t) : Z * Q :=
  (fst e, (inject_Z (KpData.correct_attempts (snd e))
           / inject_Z (KpData.total_attempts (snd e)))%Q).

End TallyFacts.

Module GeneratorFacts.
Import WeaknessAnalysisService IntelligentExamGenerator.

(** The dict [filters] that [_select_question] builds first. *)
Definition base_filters (subject_id : Z) (question_type : string)
           (difficulty_range : Q * Q) (exclude_ids : option (list Z))
  : Filters.t :=
  Filters.mk (Some subject_id) None (Some question_type)
             (Some (fst difficulty_range)) (Some (snd difficulty_range))
             (Some (match exclude_ids with
                    | Some (x :: xs) => x :: xs
                    | _ => []
                    end)).

(** [filters] once [filters['knowledge_point_ids'] = ids] has been set. *)
Definition with_kps (f : Filters.t) (ids : list Z) : Filters.t :=
  Filters.mk (Filters.subject_id f) (Some ids) (Filters.question_type f)
             (Filters.min_difficulty f) (Filters.max_difficulty f)
             (Filters.exclude_ids f).

(** The world after the searches [fs] have been issued, in this order. *)
Definition logged (w : World.t) (fs : list Filters.t) : World.t :=
  World.mk (World.tape w) (World.cursor w) (World.queries w ++ fs).

(** The question [q] is linked to one of the knowledge points [ids]. *)
Definition linked (db : DatabaseManager.t) (q : Question.t) (ids : list Z)
  : Prop :=
  exists qk,
    In qk (DatabaseManager.question_knowledge db)
    /\ QuestionKnowledge.question_id qk = Question.id q
    /\ In (QuestionKnowledge.knowledge_point_id qk) ids.

(** What the selection loop maintains: [used_q_ids] lists the identifiers
    of [selected_questions], none of them twice. *)
Definition consistent (sel : Selection) : Prop :=
  snd sel = map Question.id (fst sel) /\ NoDup (snd sel).

(** [exam] is what the generator assembles from the ranking [ws] and the
    two lists [sel] the selection loop ends with. *)
Record assembled (ws : list Weakness.t) (sel : Selection)
       (exam : GeneratedExam.t) : Prop := {
  assembled_questions : GeneratedExam.questions exam = fst sel;
  assembled_total :
    GeneratedExam.total_score exam = Py.sum (map Question.score (fst sel));
  assembled_count : GeneratedExam.actual_count exam = len (fst sel);
  assembled_rate_lower :
    (0 <= Coverage.coverage_rate (GeneratedExam.weakness_coverage exam))%Q;
  assembled_rate_upper :
    (Coverage.coverage_rate (GeneratedExam.weakness_coverage exam) <= 1)%Q;
  assembled_rate_none :
    map Weakness.knowledge_point_id (firstn 15 ws) = [] ->
    Coverage.coverage_rate (GeneratedExam.weakness_coverage exam) = 0%Q;
  assembled_insufficient :
    fst sel = [] -> GeneratedExam.recommendations exam = [insufficient]
}.

(** The questions of the bank that belong to a subject and have a type. *)
Definition questions_of (db : DatabaseManager.t) (subject_id : Z)
           (q_type : string) : list Question.t :=
  filter (fun q => (Question.subject_id q =? subject_id)
                   && String.eqb (Question.question_type q) q_type)
         (DatabaseManager.questions db).

(** Those of them whose identifier is not in [used]. *)
Definition pool (db : DatabaseManager.t) (subject_id : Z) (q_type : string)
           (used : list Z) : list Question.t :=
  filter (fun q => negb (in_list (Question.id q) used))
         (questions_of db subject_id q_type).

(** The window of slot [i] in a group of [count] slots contains the
    difficulty [d]. *)
Definition in_window (base : Q) (count : Z) (d : Q) (i : Z) : bool :=
  match _get_question_difficulty_target i count base with
  | Ok t => Qle_bool (t - 0.15) d && Qle_bool d (t + 0.15)
  | Raise _ => false
  end.

(** No integer occurs twice in [l]. *)
Fixpoint distinct_ids (l : list Z) : bool :=
  match l with
  | [] => true
  | x :: l' => negb (in_list x l') && distinct_ids l'
  end.

(** The row [q] meets every condition the filter dict [f] states. *)
Definition meets (db : DatabaseManager.t) (f : Filters.t) (q : Question.t)
  : Prop :=
  (forall s, Filters.subject_id f = Some s -> s <> 0 ->
             Question.subject_id q = s)
  /\ (forall ty, Filters.question_type f = Some ty -> ty <> "" ->
                 Question.question_type q = ty)
  /\ (forall lo, Filters.min_difficulty f = Some lo ->
                 (lo <= Question.difficulty q)%Q)
  /\ (forall hi, Filters.max_difficulty f = Some hi ->
                 (Question.difficulty q <= hi)%Q)
  /\ (forall ids, Filters.exclude_ids f = Some ids ->
                  ~ In (Question.id q) ids)
  /\ (forall ids, Filters.knowledge_point_ids f = Some ids -> ids <> [] ->
                  linked db q ids).

End GeneratorFacts.

(* ================================================================== *)
(** ** The run of the generator, slot by slot *)

Module RunFacts.
Import WeaknessAnalysisService IntelligentExamGenerator GeneratorFacts.

(** What happened in one slot of the selection loop. *)
Module Slot.
Record t := mk {
  q_type : string;           (* the type of the group of the slot *)
  target : Q;                (* [q_difficulty] *)
  used : list Z;             (* [used_q_ids] when the slot starts *)
  use_weakness : bool;       (* the outcome of the preference test *)
  pick : option Question.t   (* the question the slot appends, if any *)
}.
End Slot.

Module Run.
Section Run.
Variable db : DatabaseManager.t.
Variable subject_id : Z.
Variable focus_on_weaknesses : bool.
Variable weak_kp_ids : list Z.

(** [random.random()] is called in every slot, or in none. *)
Definition drawn : bool := focus_on_weaknesses && (0 <? len weak_kp_ids).

Definition filters (s : Slot.t) : Filters.t :=
  base_filters subject_id (Slot.q_type s)
               ((Slot.target s - 0.15)%Q, (Slot.target s + 0.15)%Q)
               (Some (Slot.used s)).

(** The searches of the slot, in the order they are issued. *)
Definition queries (s : Slot.t) : list Filters.t :=
  if Slot.use_weakness s then
    match DatabaseManager.search_questions db
            (with_kps (filters s) weak_kp_ids) with
    | [] => [with_kps (filters s) weak_kp_ids; filters s]
    | _ :: _ => [with_kps (filters s) weak_kp_ids]
    end
  else [filters s].

(** The rows returned by the last search of the slot. *)
Definition candidates (s : Slot.t) : list Question.t :=
  if Slot.use_weakness s then
    match DatabaseManager.search_questions db
            (with_kps (filters s) weak_kp_ids) with
    | [] => DatabaseManager.search_questions db (filters s)
    | c :: cs => c :: cs
    end
  else DatabaseManager.search_questions db (filters s).

Definition valid (s : Slot.t) : Prop :=
  (Slot.use_weakness s = true -> drawn = true)
  /\ match Slot.pick s with
     | Some x => In x (candidates s)
     | None => candidates s = []
     end.

(** The two lists after the slot. *)
Definition after_sel (sel : Selection) (s : Slot.t) : Selection :=
  match Slot.pick s with
  | Some x => (fst sel ++ [x], snd sel ++ [Question.id x])
  | None => sel
  end.

(** The world after the slot. *)
Definition after_world (w : World.t) (s : Slot.t) : World.t :=
  World.mk (World.tape w)
           ((match Slot.pick s with Some _ => S | None => fun n => n end)
              ((if drawn then S else fun n => n) (World.cursor w)))
           (World.queries w ++ queries s).

(** Every slot starts from the identifiers used so far and is valid. *)
Fixpoint chained (sel : Selection) (ss : list Slot.t) : Prop :=
  match ss with
  | [] => True
  | s :: ss' =>
      Slot.used s = snd sel /\ valid s /\ chained (after_sel sel s) ss'
  end.

(** The two lists and the world after the slots [ss]. *)
Definition finish_sel (sel : Selection) (ss : list Slot.t) : Selection :=
  fold_left after_sel ss sel.

Definition finish_world (w : World.t) (ss : list Slot.t) : World.t :=
  fold_left after_world ss w.

(** The questions the slots append, in order. *)
Definition picks (ss : list Slot.t) : list Question.t :=
  flat_map (fun s => match Slot.pick s with Some x => [x] | None => [] end)
           ss.

End Run.
End Run.

(** The slot [s] is slot [i] of an entry of the template. *)
Definition of_template (template : list (string * TypeConfig.t)) (base : Q)
           (s : Slot.t) : Prop :=
  exists config i,
    In (Slot.q_type s, config) template
    /\ In i (range (TypeConfig.count config))
    /\ _get_question_difficulty_target i (TypeConfig.count config) base
       = Ok (Slot.target s).

(** The number of slots of a template. *)
Definition slot_count (template : list (string * TypeConfig.t)) : nat :=
  list_sum (map (fun e => List.length (range (TypeConfig.count (snd e))))
                template).

End RunFacts.

Module StatsFacts.
Import IntelligentExamGenerator.

(** The knowledge point [k] is linked to one of the questions. *)
Definition touched (db : DatabaseManager.t) (questions : list Question.t)
           (k : Z) : Prop :=
  exists q kp,
    In q questions
    /\ In kp (DatabaseManager.get_question_knowledge_points db
                (Question.id q))
    /\ KnowledgePoint.id kp = k.

(** The two remarks on the difficulty of the paper. *)
Definition too_easy : string := "💡 试卷整体偏简单，可适当增加难度。".

Definition too_hard : string := "💡 试卷整体偏难，建议增加简单题增强信心。".

End StatsFacts.

Module TemplateFacts.
Import IntelligentExamGenerator.

(** The score a template promises: every slot filled, every question
    worth [score_each]. *)
Definition nominal_score (template : list (string * TypeConfig.t)) : Z :=
  fold_right
    (fun e acc => TypeConfig.count (snd e) * TypeConfig.score_each (snd e)
                  + acc)
    0 template.

End TemplateFacts.

Module HistoryFacts.

(** The stored attempt history of a student: for every answer row, the
    question and whether the answer was correct. *)
Definition history (db : DatabaseManager.t) (student_id : Z)
  : list (Z * bool) :=
  map (fun a => (StudentAnswer.question_id a, StudentAnswer.is_correct a))
      (DatabaseManager.get_student_all_answers db student_id).

(** The identifiers of the knowledge points a question is linked to. *)
Definition linked_ids (db : DatabaseManager.t) (question_id : Z) : list Z :=
  map KnowledgePoint.id
      (DatabaseManager.get_question_knowledge_points db question_id).

End HistoryFacts.

(* ================================================================== *)
(** ** Sample databases *)

Module Scenarios.

Definition kp (id subject_id : Z) (name : string) : KnowledgePoint.t :=
  KnowledgePoint.mk id subject_id name None 1 "".

Definition question (id subject_id : Z) (question_type : string)
           (difficulty score : Q) : Question.t :=
  Question.mk id subject_id "" "" "" question_type difficulty score.

Definition answered (id student_id question_id : Z) (is_correct : bool)
  : StudentAnswer.t :=
  StudentAnswer.mk id student_id 1 question_id ""
                   (if is_correct then 1 else 0) is_correct.

Definition link (question_id knowledge_point_id : Z) : QuestionKnowledge.t :=
  QuestionKnowledge.mk question_id knowledge_point_id 1.

(** A small school: two subjects, four knowledge points, five questions,
    and the history of students 1 and 2. *)
Definition school : DatabaseManager.t :=
  DatabaseManager.mk
    [Subject.mk 1 "数学" "理" true; Subject.mk 2 "语文" "文" true]
    [kp 1 1 "函数"; kp 2 1 "数列"; kp 3 1 "几何"; kp 4 2 "古诗"]
    [question 1 1 "选择题" 0.3 4; question 2 1 "选择题" 0.5 4;
     question 3 1 "填空题" 0.5 5; question 4 1 "解答题" 0.6 15;
     question 5 2 "选择题" 0.5 4]
    [link 1 3; link 1 1; link 2 2; link 3 1; link 4 2; link 4 3; link 5 4]
    [answered 1 1 1 false; answered 2 1 2 false; answered 3 1 3 true;
     answered 4 1 4 true; answered 5 1 5 false; answered 6 2 1 true].

(** The school with its rows stored in another order and under other
    keys: the knowledge points and the links are reversed, the first two
    answers of student 1 are exchanged, and another exam is named. *)
Definition school_shuffled : DatabaseManager.t :=
  DatabaseManager.mk
    (DatabaseManager.subjects school)
    (rev (DatabaseManager.knowledge_points school))
    (DatabaseManager.questions school)
    (rev (DatabaseManager.question_knowledge school))
    [StudentAnswer.mk 12 1 7 2 "B" 0 false;
     StudentAnswer.mk 16 2 7 1 "A" 1 true;
     StudentAnswer.mk 11 1 7 1 "C" 0 false;
     StudentAnswer.mk 13 1 7 3 "x" 1 true;
     StudentAnswer.mk 14 1 7 4 "y" 1 true;
     StudentAnswer.mk 15 1 7 5 "D" 0 false].

(** A bank whose only question of subject 1 is a true/false question, a
    type no default template asks for; student 1 failed it. *)
Definition bank_true_false : DatabaseManager.t :=
  DatabaseManager.mk
    [Subject.mk 1 "数学" "理" true]
    [kp 1 1 "函数"]
    [question 1 1 "判断题" 0.5 2]
    [link 1 1]
    [answered 1 1 1 false].

(** The bank of scenario B: for subject 1, twelve choice questions, four
    fill-in questions and six short-answer questions, all of difficulty
    0.5, each carrying the score the 150-point template gives its type. *)
Definition bank_B : DatabaseManager.t :=
  DatabaseManager.mk
    [Subject.mk 1 "数学" "理" true]
    [kp 1 1 "函数"]
    (map (fun i => question (1 + i) 1 "选择题" 0.5 4) (range 12)
     ++ map (fun i => question (13 + i) 1 "填空题" 0.5 5) (range 4)
     ++ map (fun i => question (17 + i) 1 "解答题" 0.5 15) (range 6))
    []
    [].

(** A random source that always draws 0, with an empty trace. *)
Definition world0 : World.t := World.mk (fun _ => 0%N) 0 [].

End Scenarios.

(* ================================================================== *)
(** * Properties *)

Unset Implicit Arguments.

(** ** Facts about the Python primitives *)

Module PyFacts.

Lemma Qlt_bool_iff (a b : Q) : Qlt_bool a b = true <-> (a < b)%Q.
Proof.
  unfold Qlt_bool. rewrite negb_true_iff. split; intro H.
  - apply Qnot_le_lt. intro L. apply Qle_bool_iff in L. congruence.
  - destruct (Qle_bool b a) eqn:E; [|reflexivity].
    apply Qle_bool_iff in E. exfalso. exact (Qlt_not_le _ _ H E).
Qed.

Lemma Qlt_bool_false (a b : Q) : Qlt_bool a b = false <-> (b <= a)%Q.
Proof.
  unfold Qlt_bool. rewrite negb_false_iff. apply Qle_bool_iff.
Qed.

Lemma inject_Z_nonzero (z : Z) : z <> 0 -> Qeq_bool (inject_Z z) 0 = false.
Proof.
  intro H. destruct (Qeq_bool (inject_Z z) 0) eqn:E; [|reflexivity].
  apply Qeq_bool_iff in E. unfold Qeq in E. simpl in E. lia.
Qed.

Lemma truediv_int (a b : Z) :
  b <> 0 -> truediv (inject_Z a) (inject_Z b) = Ok (inject_Z a / inject_Z b)%Q.
Proof.
  intro H. unfold truediv. now rewrite inject_Z_nonzero.
Qed.

Lemma len_nil_iff {A} (l : list A) : len l = 0 <-> l = [].
Proof.
  unfold len. destruct l; simpl; split; intro H; try reflexivity;
    try discriminate; lia.
Qed.

Lemma len_pos {A} (x : A) (l : list A) : 0 < len (x :: l).
Proof. unfold len. simpl List.length. lia. Qed.

Lemma in_list_iff (x : Z) (l : list Z) : in_list x l = true <-> In x l.
Proof.
  unfold in_list. rewrite existsb_exists. split.
  - intros [y [Hy E]]. apply Z.eqb_eq in E. now subst.
  - intro H. exists x. split; [assumption | apply Z.eqb_refl].
Qed.

Lemma in_list_false (x : Z) (l : list Z) : in_list x l = false <-> ~ In x l.
Proof.
  rewrite <- in_list_iff. destruct (in_list x l); intuition congruence.
Qed.

Lemma In_set_add (s : list Z) (x y : Z) :
  In y (set_add s x) <-> In y s \/ y = x.
Proof.
  unfold set_add. destruct (in_list x s) eqn:E.
  - apply in_list_iff in E. split; [now left|]. intros [H|H]; now subst.
  - rewrite in_app_iff. simpl. intuition.
Qed.

Lemma NoDup_set_add (s : list Z) (x : Z) : NoDup s -> NoDup (set_add s x).
Proof.
  intro H. unfold set_add. destruct (in_list x s) eqn:E; [assumption|].
  apply in_list_false in E.
  apply NoDup_app; [assumption | repeat constructor; intros [] | ].
  intros a Ha [Hx|[]]. subst. contradiction.
Qed.

Lemma contains_keys {V} (d : list (Z * V)) (k : Z) :
  contains d k = in_list k (map fst d).
Proof.
  unfold contains, in_list. induction d as [|e d IH]; simpl; [reflexivity|].
  now rewrite IH, (Z.eqb_sym (fst e) k).
Qed.

Lemma keys_update {V} (d : list (Z * V)) (k : Z) (f : V -> V) :
  map fst (update d k f) = map fst d.
Proof.
  unfold update. rewrite map_map. apply map_ext.
  intro e. now destruct (fst e =? k).
Qed.

Lemma fold_left_flat_map {A B C} (f : A -> C -> A) (g : B -> list C)
      (l : list B) (a : A) :
  fold_left f (flat_map g l) a
  = fold_left (fun acc x => fold_left f (g x) acc) l a.
Proof.
  revert a. induction l as [|x l IH]; intro a; simpl; [reflexivity|].
  now rewrite fold_left_app, IH.
Qed.

(** *** Positions in a list *)

Lemma occurs_before_cons {A} (a b y : A) (l : list A) :
  occurs_before a b (y :: l) <-> (y = a /\ In b l) \/ occurs_before a b l.
Proof.
  split.
  - intros [l1 [l2 [E Hb]]]. destruct l1 as [|z l1]; simpl in E.
    + injection E as -> ->. now left.
    + injection E as -> ->. right. now exists l1, l2.
  - intros [[-> Hb] | [l1 [l2 [-> Hb]]]].
    + now exists [], l.
    + now exists (y :: l1), l2.
Qed.

Lemma occurs_before_nil {A} (a b : A) : ~ occurs_before a b [].
Proof. intros [l1 [l2 [E _]]]. now destruct l1. Qed.

Lemma occurs_before_app {A} (a b : A) (l m : list A) :
  occurs_before a b (l ++ m) <->
  occurs_before a b l \/ (In a l /\ In b m) \/ occurs_before a b m.
Proof.
  induction l as [|y l IH]; simpl.
  - split; [intro H; now right; right|].
    intros [H|[[[] _]|H]]; [now apply occurs_before_nil in H | assumption].
  - rewrite !occurs_before_cons, IH, in_app_iff. intuition.
Qed.

Lemma occurs_before_In {A} (a b : A) (l : list A) :
  occurs_before a b l -> In a l /\ In b l.
Proof.
  intros [l1 [l2 [-> Hb]]]. rewrite !in_app_iff. simpl. intuition.
Qed.

Lemma first_met_before_cons {A} (a b y : A) (l : list A) :
  y <> a -> y <> b -> first_met_before a b l -> first_met_before a b (y :: l).
Proof.
  intros Ha Hb [l1 [l2 [-> [Na Nb]]]]. exists (y :: l1), l2.
  simpl. intuition.
Qed.

Lemma first_met_before_head {A} (a b : A) (l : list A) :
  first_met_before a b (a :: l).
Proof. exists [], l. simpl. intuition. Qed.

(** The order in which [set_add] collects the elements of [l] is the order
    of their first occurrences. *)
Lemma set_add_order (a b : Z) (l acc : list Z) :
  occurs_before a b (fold_left set_add l acc) ->
  occurs_before a b acc
  \/ (In a acc /\ ~ In b acc)
  \/ (~ In a acc /\ ~ In b acc /\ first_met_before a b l).
Proof.
  revert acc. induction l as [|x l IH]; intros acc H; simpl in H.
  - now left.
  - apply IH in H. destruct H as [H | [[Ha Nb] | [Na [Nb F]]]].
    + unfold set_add in H. destruct (in_list x acc) eqn:E; [now left|].
      apply in_list_false in E.
      apply occurs_before_app in H. destruct H as [H | [[Ha Hb] | H]].
      * now left.
      * destruct Hb as [<-|[]]. right; left. now split.
      * apply occurs_before_cons in H. destruct H as [[_ []] | H].
        now apply occurs_before_nil in H.
    + rewrite In_set_add in Ha, Nb. destruct Ha as [Ha | ->].
      * right; left. intuition.
      * destruct (in_dec Z.eq_dec x acc) as [I|I].
        -- right; left. intuition.
        -- right; right. repeat split; [assumption | intuition |].
           apply first_met_before_head.
    + rewrite In_set_add in Na, Nb. right; right.
      repeat split; [intuition | intuition |].
      apply first_met_before_cons; [intro; subst; intuition .. | assumption].
Qed.

Lemma set_add_first_met (a b : Z) (l : list Z) :
  occurs_before a b (fold_left set_add l []) -> first_met_before a b l.
Proof.
  intro H. apply set_add_order in H.
  destruct H as [H | [[[] _] | [_ [_ H]]]];
    [now apply occurs_before_nil in H | assumption].
Qed.

(** *** The stable sort, for an order given by a rational key *)

Section KeySort.
Variable A : Type.
Variable key : A -> Q.

Let leb (a b : A) : bool := Qle_bool (key a) (key b).
Let le (a b : A) : Prop := (key a <= key b)%Q.

Lemma insert_split (x : A) (l : list A) :
  exists l1 l2,
    Py.insert leb x l = l1 ++ x :: l2 /\ l = l1 ++ l2
    /\ Forall (fun y => (key y < key x)%Q) l1.
Proof.
  induction l as [|y l [l1 [l2 [E [E' F]]]]]; simpl.
  - exists [], []. repeat split. constructor.
  - destruct (leb x y) eqn:L.
    + exists [], (y :: l). repeat split. constructor.
    + exists (y :: l1), l2. simpl. rewrite E, E'. repeat split.
      constructor; [|assumption].
      apply Qnot_le_lt. intro C. apply Qle_bool_iff in C.
      unfold leb in L. congruence.
Qed.

Lemma In_insert (a x : A) (l : list A) :
  In a (Py.insert leb x l) <-> a = x \/ In a l.
Proof.
  destruct (insert_split x l) as [l1 [l2 [-> [-> _]]]].
  rewrite !in_app_iff. simpl. intuition.
Qed.

Lemma In_sort (a : A) (l : list A) : In a (Py.sort leb l) <-> In a l.
Proof.
  induction l as [|x l IH]; simpl; [reflexivity|].
  rewrite In_insert, IH. intuition.
Qed.

Lemma Forall_sort (P : A -> Prop) (l : list A) :
  Forall P l -> Forall P (Py.sort leb l).
Proof.
  rewrite !Forall_forall. intros H a Ha. apply H. now apply In_sort.
Qed.

Lemma insert_sorted (x : A) (l : list A) :
  StronglySorted le l -> StronglySorted le (Py.insert leb x l).
Proof.
  induction 1 as [|y l S IH F]; simpl.
  - repeat constructor.
  - destruct (leb x y) eqn:L.
    + assert (Lxy : le x y) by (now apply Qle_bool_iff).
      constructor; [now constructor|].
      constructor; [assumption|].
      eapply Forall_impl; [|exact F].
      intros z Hz. unfold le in *. now apply Qle_trans with (key y).
    + constructor; [assumption|].
      apply Forall_forall. intros z Hz. apply In_insert in Hz.
      destruct Hz as [->|Hz].
      * unfold le. apply Qlt_le_weak, Qnot_le_lt. intro C.
        apply Qle_bool_iff in C. unfold leb in L. congruence.
      * rewrite Forall_forall in F. now apply F.
Qed.

Lemma sort_sorted (l : list A) : StronglySorted le (Py.sort leb l).
Proof.
  induction l as [|x l IH]; simpl; [constructor | now apply insert_sorted].
Qed.

Lemma insert_stable (a b x : A) (l : list A) :
  occurs_before a b (Py.insert leb x l) -> (key a == key b)%Q ->
  occurs_before a b (x :: l).
Proof.
  destruct (insert_split x l) as [l1 [l2 [-> [-> F]]]].
  intros H E. apply occurs_before_cons.
  apply occurs_before_app in H. rewrite occurs_before_app.
  destruct H as [H | [[Ha Hb] | H]].
  - right. now left.
  - destruct Hb as [<-|Hb].
    + rewrite Forall_forall in F. apply F in Ha. rewrite E in Ha.
      exfalso. exact (Qlt_irrefl _ Ha).
    + right. right. left. now split.
  - apply occurs_before_cons in H. destruct H as [[-> Hb] | H].
    + left. split; [reflexivity|]. apply in_app_iff. now right.
    + right. right. now right.
Qed.

(** Elements with equal keys leave the sort in the order they entered. *)
Lemma sort_stable (a b : A) (l : list A) :
  occurs_before a b (Py.sort leb l) -> (key a == key b)%Q ->
  occurs_before a b l.
Proof.
  induction l as [|x l IH]; simpl; intros H E; [assumption|].
  apply insert_stable in H; [|assumption].
  apply occurs_before_cons in H. apply occurs_before_cons.
  destruct H as [[-> Hb] | H].
  - left. split; [reflexivity | exact (proj1 (In_sort _ _) Hb)].
  - right. now apply IH.
Qed.
End KeySort.

End PyFacts.

(* ================================================================== *)
(** ** The weakness analysis service *)

Module WeaknessProofs.
Import WeaknessAnalysisService WeaknessFacts PyFacts.

Lemma rank_weak_of (db : DatabaseManager.t) (ws : list Weakness.t)
      (d : KpData.t) :
  rank db ws d = Ok (ws ++ weak_of db d).
Proof.
  unfold rank, weak_of. destruct (KpData.total_attempts d =? 0) eqn:E.
  - now rewrite app_nil_r.
  - apply Z.eqb_neq in E. rewrite (truediv_int _ _ E). simpl.
    destruct (Qlt_bool _ 0.65); [reflexivity | now rewrite app_nil_r].
Qed.

Lemma rank_loop (db : DatabaseManager.t) (l : list KpData.t)
      (ws : list Weakness.t) :
  foldM (rank db) l ws = Ok (ws ++ flat_map (weak_of db) l).
Proof.
  revert ws. induction l as [|d l IH]; intro ws; simpl.
  - now rewrite app_nil_r.
  - rewrite rank_weak_of. simpl. now rewrite IH, app_assoc.
Qed.

(** The ranking never raises, and is the sorted list of the weak entries
    of [kp_performance]. *)
Lemma analyze_student_weaknesses_eq (db : DatabaseManager.t)
      (student_id : Z) (subject_id : option Z) :
  analyze_student_weaknesses db student_id subject_id
  = Ok (Py.sort by_mastery
          (flat_map (weak_of db)
             (values (performance db subject_id
                (DatabaseManager.get_student_all_answers db student_id))))).
Proof.
  unfold analyze_student_weaknesses.
  destruct (DatabaseManager.get_student_all_answers db student_id) as [|a l];
    [reflexivity|].
  now rewrite rank_loop.
Qed.

Lemma weak_of_cases (db : DatabaseManager.t) (d : KpData.t) :
  weak_of db d = []
  \/ exists w, weak_of db d = [w]
       /\ Weakness.knowledge_point_id w = KpData.knowledge_point_id d
       /\ (Weakness.mastery_rate w < 0.65)%Q.
Proof.
  unfold weak_of. destruct (KpData.total_attempts d =? 0); [now left|].
  destruct (Qlt_bool _ 0.65) eqn:E; [|now left].
  right. eexists. split; [reflexivity|]. split; [reflexivity|].
  now apply Qlt_bool_iff.
Qed.

Lemma weak_below_threshold (db : DatabaseManager.t) (l : list KpData.t) :
  Forall (fun w => (Weakness.mastery_rate w < 0.65)%Q)
         (flat_map (weak_of db) l).
Proof.
  induction l as [|d l IH]; simpl; [constructor|].
  apply Forall_app. split; [|assumption].
  destruct (weak_of_cases db d) as [-> | [w [-> [_ H]]]]; repeat constructor.
  assumption.
Qed.

Lemma weak_order (db : DatabaseManager.t) (a b : Weakness.t)
      (l : list KpData.t) :
  occurs_before a b (flat_map (weak_of db) l) ->
  occurs_before (Weakness.knowledge_point_id a)
                (Weakness.knowledge_point_id b)
                (map KpData.knowledge_point_id l).
Proof.
  induction l as [|d l IH]; simpl; intro H.
  - now apply occurs_before_nil in H.
  - apply occurs_before_cons. apply occurs_before_app in H.
    destruct (weak_of_cases db d) as [E | [w [E [I _]]]]; rewrite E in H.
    + destruct H as [H | [[[] _] | H]];
        [now apply occurs_before_nil in H | right; now apply IH].
    + destruct H as [H | [[Ha Hb] | H]].
      * apply occurs_before_cons in H. destruct H as [[_ []] | H].
        now apply occurs_before_nil in H.
      * destruct Ha as [<-|[]]. left. split; [now symmetry|].
        apply in_flat_map in Hb. destruct Hb as [d' [Hd' Hb]].
        apply in_map_iff. exists d'. split; [|assumption].
        destruct (weak_of_cases db d') as [E' | [w' [E' [I' _]]]];
          rewrite E' in Hb; [destruct Hb | destruct Hb as [<-|[]]].
        now symmetry.
      * right. now apply IH.
Qed.

(** *** The keys of [kp_performance] *)

Lemma update_keyed (d : list (Z * KpData.t)) (k : Z)
      (f : KpData.t -> KpData.t) :
  (forall v, KpData.knowledge_point_id (f v) = KpData.knowledge_point_id v) ->
  Forall keyed d -> Forall keyed (update d k f).
Proof.
  intros Hf H. unfold update. apply Forall_map.
  eapply Forall_impl; [|exact H]. intros e He.
  destruct (fst e =? k); [|assumption]. unfold keyed in *. simpl.
  now rewrite Hf.
Qed.

Lemma tally_keyed (subject_id : option Z) (answer : StudentAnswer.t)
      (perf : list (Z * KpData.t)) (kp : KnowledgePoint.t) :
  Forall keyed perf -> Forall keyed (tally subject_id answer perf kp).
Proof.
  intro H. unfold tally.
  destruct (given subject_id && other_subject subject_id kp); [assumption|].
  assert (H1 : Forall keyed
    (if negb (contains perf (KnowledgePoint.id kp))
     then setitem perf (KnowledgePoint.id kp)
            (KpData.mk (KnowledgePoint.id kp) (KnowledgePoint.name kp)
               (KnowledgePoint.subject_id kp) (KnowledgePoint.level kp) 0 0)
     else perf)).
  { unfold setitem. destruct (contains perf (KnowledgePoint.id kp));
      simpl; [assumption|].
    apply Forall_app. split; [assumption|]. now repeat constructor. }
  destruct (StudentAnswer.is_correct answer);
    repeat apply update_keyed; auto.
Qed.

Lemma tally_keys (subject_id : option Z) (answer : StudentAnswer.t)
      (perf : list (Z * KpData.t)) (kp : KnowledgePoint.t) :
  map fst (tally subject_id answer perf kp)
  = if negb (given subject_id && other_subject subject_id kp)
    then set_add (map fst perf) (KnowledgePoint.id kp)
    else map fst perf.
Proof.
  unfold tally.
  destruct (given subject_id && other_subject subject_id kp);
    [reflexivity|]. simpl.
  assert (E : map fst
    (if negb (contains perf (KnowledgePoint.id kp))
     then setitem perf (KnowledgePoint.id kp)
            (KpData.mk (KnowledgePoint.id kp) (KnowledgePoint.name kp)
               (KnowledgePoint.subject_id kp) (KnowledgePoint.level kp) 0 0)
     else perf)
    = set_add (map fst perf) (KnowledgePoint.id kp)).
  { unfold setitem, set_add. rewrite contains_keys.
    destruct (in_list (KnowledgePoint.id kp) (map fst perf));
      simpl; [reflexivity|]. now rewrite map_app. }
  destruct (StudentAnswer.is_correct answer);
    now rewrite ?keys_update, E.
Qed.

Lemma tally_loop_keys (subject_id : option Z) (answer : StudentAnswer.t)
      (kps : list KnowledgePoint.t) (perf : list (Z * KpData.t)) :
  map fst (fold_left (tally subject_id answer) kps perf)
  = fold_left set_add
      (map KnowledgePoint.id
         (filter
            (fun kp => negb (given subject_id && other_subject subject_id kp))
            kps))
      (map fst perf).
Proof.
  revert perf. induction kps as [|kp kps IH]; intro perf; simpl;
    [reflexivity|].
  rewrite IH, tally_keys.
  now destruct (negb (given subject_id && other_subject subject_id kp)).
Qed.

Lemma tally_loop_keyed (subject_id : option Z) (answer : StudentAnswer.t)
      (kps : list KnowledgePoint.t) (perf : list (Z * KpData.t)) :
  Forall keyed perf ->
  Forall keyed (fold_left (tally subject_id answer) kps perf).
Proof.
  revert perf. induction kps as [|kp kps IH]; intros perf H; simpl;
    [assumption|]. now apply IH, tally_keyed.
Qed.

Lemma performance_loop (db : DatabaseManager.t) (subject_id : option Z)
      (answers : list StudentAnswer.t) (perf : list (Z * KpData.t)) :
  let perf' :=
    fold_left
      (fun perf answer =>
         fold_left (tally subject_id answer)
           (DatabaseManager.get_question_knowledge_points db
              (StudentAnswer.question_id answer))
           perf)
      answers perf in
  (Forall keyed perf -> Forall keyed perf')
  /\ map fst perf'
     = fold_left set_add
         (flat_map
            (fun answer =>
               map KnowledgePoint.id
                 (filter
                    (fun kp =>
                       negb (given subject_id && other_subject subject_id kp))
                    (DatabaseManager.get_question_knowledge_points db
                       (StudentAnswer.question_id answer))))
            answers)
         (map fst perf).
Proof.
  revert perf. induction answers as [|a l IH]; intro perf; simpl.
  - split; [trivial | reflexivity].
  - destruct (IH (fold_left (tally subject_id a)
                    (DatabaseManager.get_question_knowledge_points db
                       (StudentAnswer.question_id a)) perf)) as [K E].
    split.
    + intro H. now apply K, tally_loop_keyed.
    + simpl in E. rewrite E, fold_left_app. now rewrite tally_loop_keys.
Qed.

(** The keys of [kp_performance], in dict order, are the knowledge points
    in the order they were first tallied. *)
Lemma performance_keys (db : DatabaseManager.t) (student_id : Z)
      (subject_id : option Z) :
  map KpData.knowledge_point_id
      (values (performance db subject_id
         (DatabaseManager.get_student_all_answers db student_id)))
  = fold_left set_add (encounters db student_id subject_id) [].
Proof.
  unfold performance, encounters.
  destruct (performance_loop db subject_id
              (DatabaseManager.get_student_all_answers db student_id) [])
    as [K E].
  simpl in K, E. rewrite <- E. unfold values. rewrite !map_map.
  specialize (K (Forall_nil _)). apply map_ext_in. intros e He.
  rewrite Forall_forall in K. now apply K.
Qed.

(** C3.  For every attempt history the weakness ranking returns a list
    that is sorted in non-decreasing order of [mastery_rate]; two entries of
    equal [mastery_rate] stand in the order in which their knowledge points
    were first met by the tally (the insertion order of [kp_performance]);
    and every entry has a [mastery_rate] strictly below 0.65. *)
Theorem C3_ranking_sorted_stable_below_threshold
        (db : DatabaseManager.t) (student_id : Z) (subject_id : option Z) :
  exists weaknesses,
    analyze_student_weaknesses db student_id subject_id = Ok weaknesses
    /\ StronglySorted rate_le weaknesses
    /\ (forall a b,
          occurs_before a b weaknesses ->
          (Weakness.mastery_rate a == Weakness.mastery_rate b)%Q ->
          first_met_before (Weakness.knowledge_point_id a)
                           (Weakness.knowledge_point_id b)
                           (encounters db student_id subject_id))
    /\ Forall (fun w => (Weakness.mastery_rate w < 0.65)%Q) weaknesses.
Proof.
  eexists. split; [apply analyze_student_weaknesses_eq|].
  split; [|split].
  - apply (sort_sorted _ Weakness.mastery_rate).
  - intros a b H E.
    apply (sort_stable _ Weakness.mastery_rate) in H; [|assumption].
    apply weak_order in H. rewrite performance_keys in H.
    now apply set_add_first_met.
  - apply (Forall_sort _ Weakness.mastery_rate), weak_below_threshold.
Qed.

(** C4.  For a student without any answered attempt the weakness ranking
    returns the empty list and the mastery estimator the empty dict; both
    return normally. *)
Theorem C4_empty_history (db : DatabaseManager.t) (student_id : Z)
        (subject_id : option Z) :
  DatabaseManager.get_student_all_answers db student_id = [] ->
  analyze_student_weaknesses db student_id subject_id = Ok []
  /\ get_knowledge_point_mastery db student_id = Ok [].
Proof.
  intro H. unfold analyze_student_weaknesses, get_knowledge_point_mastery.
  rewrite H. now split.
Qed.

Lemma C4_empty_history_witness :
  DatabaseManager.get_student_all_answers Scenarios.school 3 = []
  /\ analyze_student_weaknesses Scenarios.school 3 (Some 1) = Ok []
  /\ get_knowledge_point_mastery Scenarios.school 3 = Ok [].
Proof.
  split; [reflexivity|].
  apply (C4_empty_history Scenarios.school 3 (Some 1)). reflexivity.
Defined.

End WeaknessProofs.

(* ================================================================== *)
(** ** The question bank query *)

Module QueryProofs.
Import IntelligentExamGenerator GeneratorFacts PyFacts.

Lemma In_distinct (q : Question.t) (rows : list Question.t) :
  In q (DatabaseManager.distinct rows) -> In q rows.
Proof.
  induction rows as [|r rows IH]; simpl; [trivial|].
  intros [->|H]; [now left|]. right. apply IH.
  apply filter_In in H. tauto.
Qed.

Lemma distinct_nil_iff (rows : list Question.t) :
  DatabaseManager.distinct rows = [] <-> rows = [].
Proof. destruct rows; simpl; split; intro H; congruence. Qed.

Lemma In_from_rows (db : DatabaseManager.t) (f : Filters.t) (q : Question.t) :
  In q (DatabaseManager.from_rows db f) ->
  In q (DatabaseManager.questions db)
  /\ (forall ids, Filters.knowledge_point_ids f = Some ids ->
                  ids <> [] -> linked db q ids).
Proof.
  unfold DatabaseManager.from_rows.
  destruct (Filters.knowledge_point_ids f) as [[|k ks]|];
    try (intro H; split; [assumption | intros ids E; congruence]).
  intro H. apply in_flat_map in H. destruct H as [q' [Hq' H]].
  apply in_flat_map in H. destruct H as [qk [Hqk H]].
  destruct ((Question.id q' =? QuestionKnowledge.question_id qk)
            && in_list (QuestionKnowledge.knowledge_point_id qk) (k :: ks))
    eqn:E; [|now destruct H].
  destruct H as [<-|[]]. apply andb_true_iff in E. destruct E as [E1 E2].
  apply Z.eqb_eq in E1. apply in_list_iff in E2.
  split; [assumption|]. intros ids [= <-] _. exists qk. auto.
Qed.

Lemma search_questions_In (db : DatabaseManager.t) (f : Filters.t)
      (q : Question.t) :
  In q (DatabaseManager.search_questions db f) ->
  In q (DatabaseManager.from_rows db f)
  /\ DatabaseManager.where_question f q = true.
Proof.
  unfold DatabaseManager.search_questions. intro H.
  apply In_distinct, filter_In in H. exact H.
Qed.

(** A search restricted to knowledge points only returns questions linked
    to one of them: the query never widens by itself. *)
Lemma search_questions_linked (db : DatabaseManager.t) (f : Filters.t)
      (ids : list Z) (q : Question.t) :
  Filters.knowledge_point_ids f = Some ids -> ids <> [] ->
  In q (DatabaseManager.search_questions db f) -> linked db q ids.
Proof.
  intros E N H. apply search_questions_In in H. destruct H as [H _].
  apply In_from_rows in H. destruct H as [_ H]. now apply H.
Qed.

Lemma where_excludes (f : Filters.t) (q : Question.t) (ids : list Z) :
  DatabaseManager.where_question f q = true ->
  Filters.exclude_ids f = Some ids -> ~ In (Question.id q) ids.
Proof.
  unfold DatabaseManager.where_question. intros H E. rewrite E in H.
  rewrite !andb_true_iff in H. destruct H as [_ H].
  destruct ids as [|x xs]; [intros []|].
  apply negb_true_iff in H. now apply in_list_false in H.
Qed.

Lemma search_questions_excludes (db : DatabaseManager.t) (f : Filters.t)
      (ids : list Z) (q : Question.t) :
  Filters.exclude_ids f = Some ids ->
  In q (DatabaseManager.search_questions db f) -> ~ In (Question.id q) ids.
Proof.
  intros E H. apply search_questions_In in H. destruct H as [_ H].
  now apply where_excludes with f.
Qed.

End QueryProofs.

(* ================================================================== *)
(** ** The exam generator *)

Module GeneratorProofs.
Import WeaknessAnalysisService IntelligentExamGenerator GeneratorFacts.
Import PyFacts QueryProofs.

(** *** The difficulty gradient *)

Lemma gradient_span (base : Q) :
  (-0.1 <= base)%Q -> (base <= 1.1)%Q ->
  (Qmax 0.1 (base - 0.2) <= Qmin 0.9 (base + 0.2))%Q.
Proof.
  intros L U. apply Q.max_lub; apply Q.min_glb; lra.
Qed.

Lemma progress_mono (i j n : Z) :
  0 < n -> i <= j -> (inject_Z i / inject_Z n <= inject_Z j / inject_Z n)%Q.
Proof.
  intros Hn Hij. unfold Qdiv. apply Qmult_le_compat_r.
  - now rewrite <- Zle_Qle.
  - apply Qinv_le_0_compat. change 0%Q with (inject_Z 0).
    rewrite <- Zle_Qle. lia.
Qed.

Lemma difficulty_target_eq (i n : Z) (base : Q) :
  0 < n ->
  _get_question_difficulty_target i n base
  = Ok (Qmax 0.1 (base - 0.2)
        + (Qmin 0.9 (base + 0.2) - Qmax 0.1 (base - 0.2))
          * (inject_Z i / inject_Z n))%Q.
Proof.
  intro Hn. unfold _get_question_difficulty_target.
  assert (E : (0 <? n) = true) by (apply Z.ltb_lt; lia). rewrite E.
  rewrite truediv_int by lia. reflexivity.
Qed.

Lemma difficulty_target_total (i n : Z) (base : Q) :
  exists t, _get_question_difficulty_target i n base = Ok t.
Proof.
  destruct (Z.ltb_spec 0 n) as [H|H].
  - eexists. now apply difficulty_target_eq.
  - unfold _get_question_difficulty_target.
    assert (E : (0 <? n) = false) by (apply Z.ltb_ge; lia). rewrite E.
    simpl. eexists. reflexivity.
Qed.

(** C7.  For a base difficulty of 0.3, 0.5 or 0.7 and a type group of [n]
    slots, the target of slot [i] is
    [floor + (ceiling - floor) * (i / n)] with
    [floor = max(0.1, base - 0.2)] and [ceiling = min(0.9, base + 0.2)],
    and the targets do not decrease along the slots of the group. *)
Theorem C7_difficulty_gradient (base : Q) (n i j : Z) :
  (base == 0.3 \/ base == 0.5 \/ base == 0.7)%Q ->
  0 < n -> i <= j ->
  let floor := Qmax 0.1 (base - 0.2) in
  let ceiling := Qmin 0.9 (base + 0.2) in
  exists ti tj,
    _get_question_difficulty_target i n base = Ok ti
    /\ _get_question_difficulty_target j n base = Ok tj
    /\ (ti == floor + (ceiling - floor) * (inject_Z i / inject_Z n))%Q
    /\ (tj == floor + (ceiling - floor) * (inject_Z j / inject_Z n))%Q
    /\ (ti <= tj)%Q.
Proof.
  intros Hb Hn Hij floor ceiling.
  do 2 eexists. split; [now apply difficulty_target_eq|].
  split; [now apply difficulty_target_eq|].
  split; [reflexivity|]. split; [reflexivity|].
  apply Qplus_le_r.
  assert (S : (0 <= Qmin 0.9 (base + 0.2) - Qmax 0.1 (base - 0.2))%Q).
  { assert (-0.1 <= base /\ base <= 1.1)%Q as [L U]
      by (destruct Hb as [E|[E|E]]; rewrite E; split; lra).
    assert (G := gradient_span base L U). lra. }
  rewrite !(Qmult_comm (Qmin 0.9 (base + 0.2) - Qmax 0.1 (base - 0.2))).
  apply Qmult_le_compat_r; [now apply progress_mono | assumption].
Qed.

Lemma C7_difficulty_gradient_witness :
  exists ti tj,
    _get_question_difficulty_target 2 12 0.5 = Ok ti
    /\ _get_question_difficulty_target 7 12 0.5 = Ok tj
    /\ (ti == Qmax 0.1 (0.5 - 0.2)
              + (Qmin 0.9 (0.5 + 0.2) - Qmax 0.1 (0.5 - 0.2))
                * (inject_Z 2 / inject_Z 12))%Q
    /\ (tj == Qmax 0.1 (0.5 - 0.2)
              + (Qmin 0.9 (0.5 + 0.2) - Qmax 0.1 (0.5 - 0.2))
                * (inject_Z 7 / inject_Z 12))%Q
    /\ (ti <= tj)%Q.
Proof.
  apply (C7_difficulty_gradient 0.5 12 2 7).
  - right. left. reflexivity.
  - lia.
  - lia.
Defined.

(** *** Selecting one question *)

Lemma choice_In {A} (x : A) (l : list A) (w : World.t) :
  exists y, World.choice (x :: l) w = Ok (y, World.advance w)
            /\ In y (x :: l).
Proof.
  unfold World.choice. eexists. split; [reflexivity|].
  apply nth_In.
  assert (H : (World.draw w mod N.of_nat (List.length (x :: l))
               < N.of_nat (List.length (x :: l)))%N)
    by (apply N.mod_lt; simpl List.length; lia).
  lia.
Qed.

Lemma select_unrestricted (db : DatabaseManager.t) (subject_id : Z)
      (question_type : string) (range : Q * Q)
      (exclude_ids target : option (list Z)) (w : World.t) :
  nonempty target = false ->
  let f := base_filters subject_id question_type range exclude_ids in
  match DatabaseManager.search_questions db f with
  | [] =>
      _select_question db subject_id question_type target range
                       exclude_ids w
      = Ok (None, logged w [f])
  | c :: cs =>
      exists x, In x (c :: cs)
        /\ _select_question db subject_id question_type target range
                            exclude_ids w
           = Ok (Some x, World.advance (logged w [f]))
  end.
Proof.
  intros Ht f. unfold _select_question. rewrite Ht.
  unfold World.bind, World.search_questions.
  fold (base_filters subject_id question_type range exclude_ids). fold f.
  destruct (DatabaseManager.search_questions db f) as [|c cs] eqn:E.
  - reflexivity.
  - destruct (choice_In c cs (logged w [f])) as [y [Hy Hin]].
    exists y. split; [assumption|]. unfold logged in Hy. now rewrite Hy.
Qed.

Lemma select_restricted (db : DatabaseManager.t) (subject_id : Z)
      (question_type : string) (range : Q * Q)
      (exclude_ids : option (list Z)) (ids : list Z) (w : World.t) :
  ids <> [] ->
  let f := base_filters subject_id question_type range exclude_ids in
  match DatabaseManager.search_questions db (with_kps f ids) with
  | c :: cs =>
      exists x, In x (c :: cs)
        /\ _select_question db subject_id question_type (Some ids) range
                            exclude_ids w
           = Ok (Some x, World.advance (logged w [with_kps f ids]))
  | [] =>
      match DatabaseManager.search_questions db f with
      | [] =>
          _select_question db subject_id question_type (Some ids) range
                           exclude_ids w
          = Ok (None, logged w [with_kps f ids; f])
      | c :: cs =>
          exists x, In x (c :: cs)
            /\ _select_question db subject_id question_type (Some ids) range
                                exclude_ids w
               = Ok (Some x, World.advance (logged w [with_kps f ids; f]))
      end
  end.
Proof.
  intros Ht f. unfold _select_question.
  assert (N : nonempty (Some ids) = true) by (now destruct ids).
  rewrite N. unfold World.bind, World.search_questions.
  fold (base_filters subject_id question_type range exclude_ids). fold f.
  change (Filters.mk (Filters.subject_id f) (Some ids)
            (Filters.question_type f) (Filters.min_difficulty f)
            (Filters.max_difficulty f) (Filters.exclude_ids f))
    with (with_kps f ids).
  destruct (DatabaseManager.search_questions db (with_kps f ids))
    as [|c cs] eqn:E.
  - simpl World.tape. simpl World.cursor. simpl World.queries.
    rewrite <- app_assoc. simpl app.
    destruct (DatabaseManager.search_questions db f) as [|c cs] eqn:E2.
    + reflexivity.
    + destruct (choice_In c cs (logged w [with_kps f ids; f]))
        as [y [Hy Hin]].
      exists y. split; [assumption|]. unfold logged in Hy. now rewrite Hy.
  - destruct (choice_In c cs (logged w [with_kps f ids])) as [y [Hy Hin]].
    exists y. split; [assumption|]. unfold logged in Hy. now rewrite Hy.
Qed.

Lemma base_filters_exclude (subject_id : Z) (question_type : string)
      (range : Q * Q) (used : list Z) :
  Filters.exclude_ids (base_filters subject_id question_type range (Some used))
  = Some used.
Proof. now destruct used. Qed.

(** The outcomes of [_select_question]: it returns normally, and a question
    it returns was found by one of its two searches. *)
Lemma select_question_cases (db : DatabaseManager.t) (subject_id : Z)
      (question_type : string) (target : option (list Z)) (range : Q * Q)
      (exclude_ids : option (list Z)) (w : World.t) :
  let f := base_filters subject_id question_type range exclude_ids in
  exists w',
    _select_question db subject_id question_type target range exclude_ids w
    = Ok (None, w')
    \/ exists x f',
         _select_question db subject_id question_type target range
                          exclude_ids w
         = Ok (Some x, w')
         /\ In x (DatabaseManager.search_questions db f')
         /\ (f' = f \/ exists ids, f' = with_kps f ids).
Proof.
  intro f. destruct (nonempty target) eqn:N.
  - destruct target as [ids|]; [|discriminate].
    assert (Hids : ids <> []) by (intros ->; discriminate).
    assert (R := select_restricted db subject_id question_type range
                   exclude_ids ids w Hids).
    cbv zeta in R. fold f in R.
    destruct (DatabaseManager.search_questions db (with_kps f ids))
      as [|c cs] eqn:E1.
    + destruct (DatabaseManager.search_questions db f) as [|c cs] eqn:E2.
      * eexists. left. exact R.
      * destruct R as [x [Hx R]]. eexists. right. exists x, f.
        split; [exact R|]. rewrite E2. auto.
    + destruct R as [x [Hx R]]. eexists. right. exists x, (with_kps f ids).
      split; [exact R|]. rewrite E1. split; [assumption|]. right.
      now exists ids.
  - assert (R := select_unrestricted db subject_id question_type range
                   exclude_ids target w N).
    cbv zeta in R. fold f in R.
    destruct (DatabaseManager.search_questions db f) as [|c cs] eqn:E2.
    + eexists. left. exact R.
    + destruct R as [x [Hx R]]. eexists. right. exists x, f.
      split; [exact R|]. rewrite E2. auto.
Qed.

(** One slot: the loop body returns normally; it leaves the selection as
    it is or appends one question found by a search that carries the
    subject, the type and the identifiers used so far. *)
Lemma fill_slot_cases (db : DatabaseManager.t) (subject_id : Z)
      (focus : bool) (weak : list Z) (base : Q) (q_type : string)
      (count : Z) (selected : list Question.t) (used : list Z) (i : Z)
      (w : World.t) :
  exists w',
    fill_slot db subject_id focus weak base q_type count (selected, used) i w
    = Ok ((selected, used), w')
    \/ exists x f,
         fill_slot db subject_id focus weak base q_type count
                   (selected, used) i w
         = Ok ((selected ++ [x], used ++ [Question.id x]), w')
         /\ In x (DatabaseManager.search_questions db f)
         /\ Filters.subject_id f = Some subject_id
         /\ Filters.question_type f = Some q_type
         /\ Filters.exclude_ids f = Some used.
Proof.
  destruct (difficulty_target_total i count base) as [t Ht].
  unfold fill_slot, World.bind, World.lift. rewrite Ht.
  set (range := ((t - 0.15)%Q, (t + 0.15)%Q)).
  assert (S : forall target w1,
    exists w',
      (match _select_question db subject_id q_type target range (Some used) w1
       with
       | Ok (question, w2) =>
           match question with
           | Some q => World.ret (selected ++ [q], used ++ [Question.id q])
           | None => World.ret (selected, used)
           end w2
       | Raise e => Raise e
       end = Ok ((selected, used), w'))
      \/ exists x f,
           match _select_question db subject_id q_type target range
                                  (Some used) w1
           with
           | Ok (question, w2) =>
               match question with
               | Some q => World.ret (selected ++ [q], used ++ [Question.id q])
               | None => World.ret (selected, used)
               end w2
           | Raise e => Raise e
           end = Ok ((selected ++ [x], used ++ [Question.id x]), w')
           /\ In x (DatabaseManager.search_questions db f)
           /\ Filters.subject_id f = Some subject_id
           /\ Filters.question_type f = Some q_type
           /\ Filters.exclude_ids f = Some used).
  { intros target w1.
    destruct (select_question_cases db subject_id q_type target range
                (Some used) w1) as [w' [R | [x [f' [R [Hx Hf]]]]]];
      exists w'; rewrite R.
    - now left.
    - right. exists x, f'. split; [reflexivity|]. split; [assumption|].
      destruct Hf as [-> | [ids ->]]; simpl;
        repeat split; now destruct used. }
  destruct (focus && (0 <? len weak)).
  - unfold World.random, World.ret. apply S.
  - unfold World.ret at 1. apply S.
Qed.

Lemma foldM_invariant {A B} (P : A -> Prop) (f : A -> B -> World.M A)
      (l : list B) :
  (forall a x w,
      In x l -> P a -> exists a' w', f a x w = Ok (a', w') /\ P a') ->
  forall a w, P a -> exists a' w', World.foldM f l a w = Ok (a', w') /\ P a'.
Proof.
  induction l as [|x l IH]; intros H a w Pa; simpl.
  - exists a, w. now split.
  - destruct (H a x w (or_introl eq_refl) Pa) as [a1 [w1 [E P1]]].
    unfold World.bind. rewrite E. apply IH; [|assumption].
    intros a2 y w2 Hy. apply H. now right.
Qed.

(** *** The statistics *)

Lemma round2_bounds (x : Q) :
  (0 <= x)%Q -> (x <= 1)%Q -> (0 <= round2 x /\ round2 x <= 1)%Q.
Proof.
  intros L U. unfold round2.
  set (y := (x * 100)%Q). set (f := Qfloor y).
  assert (Ly : (0 <= y)%Q) by (unfold y; lra).
  assert (Uy : (y <= 100)%Q) by (unfold y; lra).
  assert (Lf : 0 <= f).
  { change 0 with (Qfloor 0). now apply Qfloor_resp_le. }
  assert (Uf : f <= 100).
  { change 100 with (Qfloor 100). now apply Qfloor_resp_le. }
  assert (Lq : (0 <= inject_Z f)%Q).
  { change 0%Q with (inject_Z 0). now rewrite <- Zle_Qle. }
  assert (Uq : (inject_Z f <= 100)%Q).
  { change 100%Q with (inject_Z 100). now rewrite <- Zle_Qle. }
  assert (Div : forall q : Q, (0 <= q)%Q -> (q <= 100)%Q ->
                            (0 <= q / 100 /\ q / 100 <= 1)%Q).
  { intros q Hq0 Hq1. split.
    - apply Qle_shift_div_l; [reflexivity | lra].
    - apply Qle_shift_div_r; [reflexivity | lra]. }
  assert (Down : (0 <= inject_Z f / 100 /\ inject_Z f / 100 <= 1)%Q)
    by (now apply Div).
  assert (Up : ((y - inject_Z f < 0.5)%Q -> False) ->
               (0 <= inject_Z (f + 1) / 100 /\ inject_Z (f + 1) / 100 <= 1)%Q).
  { intro H. rewrite inject_Z_plus. change (inject_Z 1) with 1%Q.
    assert (f <= 99).
    { destruct (Z.eq_dec f 100) as [E|E]; [|lia]. exfalso. apply H.
      rewrite E. change (inject_Z 100) with 100%Q. lra. }
    assert ((inject_Z f <= 99)%Q).
    { change 99%Q with (inject_Z 99). now rewrite <- Zle_Qle. }
    apply Div; lra. }
  destruct (Qlt_bool (y - inject_Z f) 0.5) eqn:E1; [exact Down|].
  assert (N : (y - inject_Z f < 0.5)%Q -> False).
  { intro H. apply Qlt_bool_iff in H. congruence. }
  destruct (Qlt_bool 0.5 (y - inject_Z f)); [now apply Up|].
  destruct (Z.even f); [exact Down | now apply Up].
Qed.

(** [covered] stays a duplicate-free part of [weak]. *)
Lemma covered_step (weak : list Z) (kps : list KnowledgePoint.t)
      (covered : list Z) :
  NoDup covered /\ incl covered weak ->
  let covered' :=
    fold_left
      (fun covered kp =>
         if in_list (KnowledgePoint.id kp) weak
         then set_add covered (KnowledgePoint.id kp)
         else covered)
      kps covered in
  NoDup covered' /\ incl covered' weak.
Proof.
  revert covered. induction kps as [|kp kps IH]; intros covered [N I]; simpl;
    [now split|].
  apply IH. destruct (in_list (KnowledgePoint.id kp) weak) eqn:E;
    [|now split].
  split; [now apply NoDup_set_add|].
  intros z Hz. apply In_set_add in Hz.
  destruct Hz as [Hz | ->]; [now apply I | now apply in_list_iff].
Qed.

Lemma covered_loop (db : DatabaseManager.t) (weak : list Z)
      (questions : list Question.t) (covered : list Z) :
  NoDup covered /\ incl covered weak ->
  let covered' :=
    fold_left
      (fun covered q =>
         fold_left
           (fun covered kp =>
              if in_list (KnowledgePoint.id kp) weak
              then set_add covered (KnowledgePoint.id kp)
              else covered)
           (DatabaseManager.get_question_knowledge_points db (Question.id q))
           covered)
      questions covered in
  NoDup covered' /\ incl covered' weak.
Proof.
  revert covered. induction questions as [|q qs IH]; intros covered H; simpl;
    [assumption|].
  now apply IH, covered_step.
Qed.

Lemma covered_le (db : DatabaseManager.t) (questions : list Question.t)
      (weak : list Z) :
  len (covered_weak_kps db questions weak) <= len weak.
Proof.
  destruct (covered_loop db weak questions []
              (conj (NoDup_nil _) (incl_nil_l _))) as [N I].
  unfold len. apply inj_le. now apply NoDup_incl_length.
Qed.

(** The coverage statistics never raise, and the rate is a ratio. *)
Lemma weakness_coverage_total (db : DatabaseManager.t)
      (questions : list Question.t) (weak : list Z) :
  exists c,
    _calculate_weakness_coverage db questions weak = Ok c
    /\ (0 <= Coverage.coverage_rate c)%Q
    /\ (Coverage.coverage_rate c <= 1)%Q
    /\ (weak = [] -> Coverage.coverage_rate c = 0%Q).
Proof.
  unfold _calculate_weakness_coverage. destruct weak as [|k ks].
  - eexists. split; [reflexivity|]. simpl. repeat split; lra.
  - assert (P := len_pos k ks).
    rewrite truediv_int by lia. simpl bind. eexists. split; [reflexivity|].
    simpl Coverage.coverage_rate.
    assert (C := covered_le db questions (k :: ks)).
    assert (C0 : 0 <= len (covered_weak_kps db questions (k :: ks)))
      by (unfold len; lia).
    set (c := len (covered_weak_kps db questions (k :: ks))) in *.
    set (n := len (k :: ks)) in *.
    assert (Pn : (0 < inject_Z n)%Q)
      by (change 0%Q with (inject_Z 0); now rewrite <- Zlt_Qlt).
    assert (B : (0 <= inject_Z c / inject_Z n
                 /\ inject_Z c / inject_Z n <= 1)%Q).
    { split.
      - apply Qle_shift_div_l; [assumption|]. rewrite Qmult_0_l.
        change 0%Q with (inject_Z 0). now rewrite <- Zle_Qle.
      - apply Qle_shift_div_r; [assumption|]. rewrite Qmult_1_l.
        now rewrite <- Zle_Qle. }
    destruct B as [B1 B2]. destruct (round2_bounds _ B1 B2) as [R1 R2].
    repeat split; [assumption | assumption | discriminate].
Qed.

Lemma difficulty_stats_total (q : Question.t) (qs : list Question.t) :
  exists avg easy medium hard,
    _calculate_difficulty_stats (q :: qs)
    = Ok (DifficultyStats.mk avg
            [("简单", easy); ("中等", medium); ("困难", hard)]).
Proof.
  unfold _calculate_difficulty_stats.
  assert (P : 0 < len (map Question.difficulty (q :: qs)))
    by (simpl map; apply len_pos).
  unfold truediv. rewrite inject_Z_nonzero by lia. simpl bind.
  do 4 eexists. reflexivity.
Qed.

Lemma recommendations_total (questions : list Question.t)
      (weaknesses : list Weakness.t) (coverage : Coverage.t) :
  exists r,
    _generate_recommendations questions weaknesses coverage = Ok r
    /\ (questions = [] -> r = [insufficient]).
Proof.
  unfold _generate_recommendations. destruct questions as [|q qs].
  - simpl. eexists. split; reflexivity.
  - assert (P := len_pos q qs).
    assert (E : (len (q :: qs) =? 0) = false) by (apply Z.eqb_neq; lia).
    rewrite E.
    destruct (difficulty_stats_total q qs) as [avg [e [m [h S]]]].
    rewrite S. cbn [bind DifficultyStats.distribution].
    assert (G1 : forall e m h : Z,
               getitem [("简单", e); ("中等", m); ("困难", h)] "简单" = Ok e)
      by reflexivity.
    assert (G2 : forall e m h : Z,
               getitem [("简单", e); ("中等", m); ("困难", h)] "困难" = Ok h)
      by reflexivity.
    rewrite G1, G2. cbn [bind].
    destruct (Qlt_bool _ (inject_Z e));
      [eexists; split; [reflexivity | discriminate]|].
    destruct (Qlt_bool _ (inject_Z h));
      eexists; (split; [reflexivity | discriminate]).
Qed.

(** *** The selection loop *)

(** A property of the two lists that every appended question preserves is
    preserved by the whole loop, which returns normally. *)
Lemma selection_invariant (db : DatabaseManager.t) (subject_id : Z)
      (focus : bool) (weak : list Z) (base : Q) (P : Selection -> Prop) :
  (forall selected used x f,
      P (selected, used) ->
      In x (DatabaseManager.search_questions db f) ->
      Filters.subject_id f = Some subject_id ->
      Filters.exclude_ids f = Some used ->
      P (selected ++ [x], used ++ [Question.id x])) ->
  forall distribution sel w,
    P sel ->
    exists sel' w',
      World.foldM (fill_type db subject_id focus weak base)
                  distribution sel w
      = Ok (sel', w')
      /\ P sel'.
Proof.
  intros Step distribution. apply foldM_invariant.
  intros sel [q_type config] w _ Psel. unfold fill_type.
  apply foldM_invariant; [|assumption].
  intros [selected used] i w1 _ Pa.
  destruct (fill_slot_cases db subject_id focus weak base q_type
              (TypeConfig.count config) selected used i w1)
    as [w' [R | [x [f [R [Hx [Hs [_ He]]]]]]]].
  - exists (selected, used), w'. now split.
  - exists (selected ++ [x], used ++ [Question.id x]), w'.
    split; [assumption|]. now apply Step with f.
Qed.

Lemma consistent_step (db : DatabaseManager.t) (selected : list Question.t)
      (used : list Z) (x : Question.t) (f : Filters.t) :
  consistent (selected, used) ->
  In x (DatabaseManager.search_questions db f) ->
  Filters.exclude_ids f = Some used ->
  consistent (selected ++ [x], used ++ [Question.id x]).
Proof.
  intros [E N] Hx He. simpl in E, N. split; simpl.
  - now rewrite map_app, E.
  - apply NoDup_app; [assumption | repeat constructor; intros [] |].
    intros a Ha [<-|[]].
    now apply (search_questions_excludes db f used x He Hx).
Qed.

Lemma difficulty_stats_ok (questions : list Question.t) :
  exists stats, _calculate_difficulty_stats questions = Ok stats.
Proof.
  destruct questions as [|q qs].
  - eexists. reflexivity.
  - destruct (difficulty_stats_total q qs) as (a & e & m & h & E).
    eexists. exact E.
Qed.

(** The statistics never raise: a finished selection loop yields an exam. *)
Lemma generate_from_selection (db : DatabaseManager.t)
      (student_id subject_id total_score : Z) (focus : bool)
      (level : string) (distribution : option (list (string * TypeConfig.t)))
      (w w' : World.t) (ws : list Weakness.t) (sel : Selection) :
  analyze_student_weaknesses db student_id (Some subject_id) = Ok ws ->
  World.foldM
    (fill_type db subject_id focus
               (map Weakness.knowledge_point_id (firstn 15 ws))
               (_get_difficulty_target level))
    (match distribution with
     | None => _get_default_distribution db subject_id total_score
     | Some d => d
     end)
    ([], []) w
  = Ok (sel, w') ->
  exists exam,
    generate_targeted_exam db student_id subject_id total_score focus level
                           distribution w
    = Ok (exam, w')
    /\ assembled ws sel exam.
Proof.
  intros Ha Hs.
  set (weak := map Weakness.knowledge_point_id (firstn 15 ws)) in *.
  destruct (difficulty_stats_ok (fst sel)) as [stats Hd].
  destruct (weakness_coverage_total db (fst sel) weak)
    as (cov & Hc & C0 & C1 & CE).
  destruct (recommendations_total (fst sel) ws cov) as (recs & Hr & RE).
  exists (GeneratedExam.mk (fst sel) (Py.sum (map Question.score (fst sel)))
            (len (fst sel)) stats cov recs (firstn 10 ws)).
  split.
  - unfold generate_targeted_exam, World.bind, World.lift.
    rewrite Ha. fold weak. rewrite Hs, Hd, Hc, Hr. reflexivity.
  - now constructor.
Qed.

(** The generator returns normally on every input, and what it returns is
    assembled from a selection that satisfies any invariant of the loop. *)
Lemma generate_targeted_exam_total (db : DatabaseManager.t)
      (student_id subject_id total_score : Z) (focus : bool)
      (level : string) (distribution : option (list (string * TypeConfig.t)))
      (w : World.t) (P : Selection -> Prop) :
  (forall selected used x f,
      P (selected, used) ->
      In x (DatabaseManager.search_questions db f) ->
      Filters.subject_id f = Some subject_id ->
      Filters.exclude_ids f = Some used ->
      P (selected ++ [x], used ++ [Question.id x])) ->
  P ([], []) ->
  exists ws sel exam w',
    analyze_student_weaknesses db student_id (Some subject_id) = Ok ws
    /\ P sel
    /\ generate_targeted_exam db student_id subject_id total_score focus
                              level distribution w
       = Ok (exam, w')
    /\ assembled ws sel exam.
Proof.
  intros Step P0.
  assert (Ha := WeaknessProofs.analyze_student_weaknesses_eq
                  db student_id (Some subject_id)).
  set (ws := Py.sort by_mastery _) in Ha.
  destruct (selection_invariant db subject_id focus
              (map Weakness.knowledge_point_id (firstn 15 ws))
              (_get_difficulty_target level) P Step
              (match distribution with
               | None => _get_default_distribution db subject_id total_score
               | Some d => d
               end) ([], []) w P0) as (sel & w' & Hs & Psel).
  destruct (generate_from_selection db student_id subject_id total_score
              focus level distribution w w' ws sel Ha Hs) as (exam & R & A).
  now exists ws, sel, exam, w'.
Qed.

(** C2.  Whatever the student, the subject, the target score, the
    difficulty level, the template and the random draws, the generator
    returns an exam, and no question identifier occurs twice in its list
    of questions. *)
Theorem C2_no_duplicates (db : DatabaseManager.t)
        (student_id subject_id total_score : Z) (focus_on_weaknesses : bool)
        (difficulty_level : string)
        (question_distribution : option (list (string * TypeConfig.t)))
        (w : World.t) :
  exists exam w',
    generate_targeted_exam db student_id subject_id total_score
      focus_on_weaknesses difficulty_level question_distribution w
    = Ok (exam, w')
    /\ NoDup (map Question.id (GeneratedExam.questions exam)).
Proof.
  destruct (generate_targeted_exam_total db student_id subject_id total_score
              focus_on_weaknesses difficulty_level question_distribution w
              consistent)
    as (ws & sel & exam & w' & _ & [E N] & R & A).
  - intros selected used x f C Hx _ He. now apply consistent_step with db f.
  - split; [reflexivity | constructor].
  - exists exam, w'. split; [exact R|].
    now rewrite (assembled_questions A), <- E.
Qed.

(** C5.  In every run of the generator the reported [coverage_rate] lies
    between 0 and 1, and it is 0 when the list of weak knowledge points
    computed at the start of the run is empty. *)
Theorem C5_coverage_bounds (db : DatabaseManager.t)
        (student_id subject_id total_score : Z) (focus_on_weaknesses : bool)
        (difficulty_level : string)
        (question_distribution : option (list (string * TypeConfig.t)))
        (w : World.t) :
  exists weaknesses exam w',
    analyze_student_weaknesses db student_id (Some subject_id)
    = Ok weaknesses
    /\ generate_targeted_exam db student_id subject_id total_score
         focus_on_weaknesses difficulty_level question_distribution w
       = Ok (exam, w')
    /\ (0 <= Coverage.coverage_rate (GeneratedExam.weakness_coverage exam))%Q
    /\ (Coverage.coverage_rate (GeneratedExam.weakness_coverage exam) <= 1)%Q
    /\ (map Weakness.knowledge_point_id (firstn 15 weaknesses) = [] ->
        (Coverage.coverage_rate (GeneratedExam.weakness_coverage exam) == 0)%Q).
Proof.
  destruct (generate_targeted_exam_total db student_id subject_id total_score
              focus_on_weaknesses difficulty_level question_distribution w
              (fun _ => True))
    as (ws & sel & exam & w' & Ha & _ & R & A); [trivial | trivial |].
  exists ws, exam, w'. split; [assumption|]. split; [exact R|].
  split; [apply (assembled_rate_lower A)|].
  split; [apply (assembled_rate_upper A)|].
  intro H. now rewrite (assembled_rate_none A H).
Qed.

Lemma filter_none {A} (p : A -> bool) (l : list A) :
  (forall x, In x l -> p x = false) -> filter p l = [].
Proof.
  induction l as [|x l IH]; intro H; simpl; [reflexivity|].
  rewrite (H x (or_introl eq_refl)). apply IH. intros y Hy. apply H.
  now right.
Qed.

(** C8.  A slot restricted to the weak knowledge points [ids] whose
    restricted search returns no candidate issues exactly one more search,
    with the same subject, type, difficulty window and exclusion list and
    without the restriction, and its result is drawn from the candidates of
    that second search ([None] when there are none).  The search itself
    never widens: a restricted search only returns questions linked to one
    of the listed knowledge points. *)
Theorem C8_weak_fallback (db : DatabaseManager.t) (subject_id : Z)
        (question_type : string) (range : Q * Q)
        (exclude_ids : option (list Z)) (ids : list Z) (w : World.t) :
  ids <> [] ->
  let f := base_filters subject_id question_type range exclude_ids in
  DatabaseManager.search_questions db (with_kps f ids) = [] ->
  (forall q f',
      Filters.knowledge_point_ids f' = Some ids ->
      In q (DatabaseManager.search_questions db f') -> linked db q ids)
  /\ match DatabaseManager.search_questions db f with
     | [] =>
         _select_question db subject_id question_type (Some ids) range
                          exclude_ids w
         = Ok (None, logged w [with_kps f ids; f])
     | c :: cs =>
         exists x,
           In x (c :: cs)
           /\ _select_question db subject_id question_type (Some ids) range
                               exclude_ids w
              = Ok (Some x, World.advance (logged w [with_kps f ids; f]))
     end.
Proof.
  intros Hids f Hnone. split.
  - intros q f' Hf Hq. now apply search_questions_linked with f'.
  - assert (R := select_restricted db subject_id question_type range
                   exclude_ids ids w Hids).
    cbv zeta in R. fold f in R. now rewrite Hnone in R.
Qed.

Lemma C8_weak_fallback_witness :
  let f := base_filters 1 "选择题" (0.2, 0.6)%Q (Some []) in
  (forall q f',
      Filters.knowledge_point_ids f' = Some [4] ->
      In q (DatabaseManager.search_questions Scenarios.school f') ->
      linked Scenarios.school q [4])
  /\ match DatabaseManager.search_questions Scenarios.school f with
     | [] =>
         _select_question Scenarios.school 1 "选择题" (Some [4])
                          (0.2, 0.6)%Q (Some []) Scenarios.world0
         = Ok (None, logged Scenarios.world0 [with_kps f [4]; f])
     | c :: cs =>
         exists x,
           In x (c :: cs)
           /\ _select_question Scenarios.school 1 "选择题" (Some [4])
                               (0.2, 0.6)%Q (Some []) Scenarios.world0
              = Ok (Some x,
                    World.advance
                      (logged Scenarios.world0 [with_kps f [4]; f]))
     end.
Proof.
  apply (C8_weak_fallback Scenarios.school 1 "选择题" (0.2, 0.6)%Q
                          (Some []) [4] Scenarios.world0).
  - discriminate.
  - reflexivity.
Defined.

(** C10.  A [difficulty_level] other than 'easy', 'medium' and 'hard' is
    mapped to the target 0.5, the target of 'medium'; the generator then
    returns normally, with the very result it returns for 'medium'. *)
Theorem C10_unknown_level (level : string) :
  level <> "easy" -> level <> "medium" -> level <> "hard" ->
  _get_difficulty_target level = 0.5%Q
  /\ _get_difficulty_target level = _get_difficulty_target "medium"
  /\ forall db student_id subject_id total_score focus_on_weaknesses
            question_distribution w,
       exists exam w',
         generate_targeted_exam db student_id subject_id total_score
           focus_on_weaknesses level question_distribution w
         = Ok (exam, w')
         /\ generate_targeted_exam db student_id subject_id total_score
              focus_on_weaknesses "medium" question_distribution w
            = Ok (exam, w').
Proof.
  intros He Hm Hh.
  assert (E : _get_difficulty_target level = 0.5%Q).
  { unfold _get_difficulty_target.
    apply String.eqb_neq in He, Hm, Hh. now rewrite He, Hm, Hh. }
  split; [exact E|]. split; [now rewrite E|].
  intros db student_id subject_id total_score focus question_distribution w.
  destruct (generate_targeted_exam_total db student_id subject_id
              total_score focus "medium" question_distribution w
              (fun _ => True))
    as (ws & sel & exam & w' & _ & _ & R & _); [trivial | trivial |].
  exists exam, w'. split; [|exact R]. rewrite <- R.
  unfold generate_targeted_exam. now rewrite E.
Qed.

Lemma C10_unknown_level_witness :
  _get_difficulty_target "expert" = 0.5%Q
  /\ _get_difficulty_target "expert" = _get_difficulty_target "medium"
  /\ forall db student_id subject_id total_score focus_on_weaknesses
            question_distribution w,
       exists exam w',
         generate_targeted_exam db student_id subject_id total_score
           focus_on_weaknesses "expert" question_distribution w
         = Ok (exam, w')
         /\ generate_targeted_exam db student_id subject_id total_score
              focus_on_weaknesses "medium" question_distribution w
            = Ok (exam, w').
Proof.
  apply (C10_unknown_level "expert"); discriminate.
Defined.

(** *** Scenario B *)

Lemma filter_filter {A} (p q : A -> bool) (l : list A) :
  filter p (filter q l) = filter (fun x => q x && p x) l.
Proof.
  induction l as [|x l IH]; simpl; [reflexivity|].
  destruct (q x); simpl; [destruct (p x)|]; now rewrite IH.
Qed.

Lemma filter_guard {A} (c : bool) (p : A -> bool) (l : list A) :
  filter (fun x => c && p x) l = if c then filter p l else [].
Proof.
  destruct c; simpl; [reflexivity|]. now apply filter_none.
Qed.

(** Rows selected from a table keep its primary key. *)
Lemma key_filter (keep : Question.t -> bool) (rows : list Question.t) :
  NoDup (map Question.id rows) ->
  NoDup (map Question.id (filter keep rows)).
Proof.
  induction rows as [|r rows IH]; simpl; intro H; [constructor|].
  inversion H as [|y m Hn Hm]; subst.
  destruct (keep r); simpl; [|now apply IH].
  constructor; [|now apply IH]. intro C. apply Hn.
  apply in_map_iff in C. destruct C as [z [E Hz]].
  apply filter_In in Hz. apply in_map_iff. exists z. tauto.
Qed.

(** Two rows of a table with the same primary key are the same row. *)
Lemma key_inj (rows : list Question.t) (a b : Question.t) :
  NoDup (map Question.id rows) -> In a rows -> In b rows ->
  Question.id a = Question.id b -> a = b.
Proof.
  induction rows as [|r rows IH]; simpl; intros H Ha Hb E; [destruct Ha|].
  inversion H as [|y m Hn Hm]; subst.
  destruct Ha as [->|Ha], Hb as [->|Hb]; try reflexivity.
  - exfalso. apply Hn. rewrite E. now apply in_map.
  - exfalso. apply Hn. rewrite <- E. now apply in_map.
  - now apply IH.
Qed.

(** Removing one element of a list without repeated identifiers. *)
Lemma remove_one (l : list Question.t) (x : Question.t) :
  NoDup (map Question.id l) -> In x l ->
  S (List.length
       (filter (fun q => negb (Question.id q =? Question.id x)) l))
  = List.length l.
Proof.
  induction l as [|y l IH]; simpl; intros H Hx; [destruct Hx|].
  inversion H as [|z m Hn Hm]; subst. destruct Hx as [->|Hx].
  - rewrite Z.eqb_refl. simpl. rewrite forallb_filter_id; [reflexivity|].
    apply forallb_forall. intros q Hq. apply negb_true_iff, Z.eqb_neq.
    intro E. apply Hn. rewrite <- E. now apply in_map.
  - assert (N : Question.id y <> Question.id x).
    { intro E. apply Hn. rewrite E. now apply in_map. }
    apply Z.eqb_neq in N. rewrite N. simpl. now rewrite (IH Hm Hx).
Qed.

Lemma in_list_app (z : Z) (l m : list Z) :
  in_list z (l ++ m) = in_list z l || in_list z m.
Proof. unfold in_list. apply existsb_app. Qed.

Section ScenarioB.
Variable db : DatabaseManager.t.
Variable subject : Z.
Hypothesis subject_given : subject <> 0.
Hypothesis primary_key : NoDup (map Question.id (DatabaseManager.questions db)).

Lemma In_questions_of (q : Question.t) (ty : string) :
  In q (questions_of db subject ty) <->
  In q (DatabaseManager.questions db)
  /\ Question.subject_id q = subject /\ Question.question_type q = ty.
Proof.
  unfold questions_of. rewrite filter_In, andb_true_iff, Z.eqb_eq.
  now rewrite String.eqb_eq.
Qed.

Lemma In_pool (q : Question.t) (ty : string) (used : list Z) :
  In q (pool db subject ty used) <->
  In q (questions_of db subject ty) /\ ~ In (Question.id q) used.
Proof.
  unfold pool. rewrite filter_In, negb_true_iff. now rewrite in_list_false.
Qed.

Lemma pool_nil (ty : string) :
  pool db subject ty [] = questions_of db subject ty.
Proof. unfold pool. simpl. apply filter_true. Qed.

Lemma questions_of_key (ty : string) :
  NoDup (map Question.id (questions_of db subject ty)).
Proof. unfold questions_of. now apply key_filter. Qed.

Lemma pool_pick (ty : string) (used : list Z) (x : Question.t) :
  In x (pool db subject ty used) ->
  S (List.length (pool db subject ty (used ++ [Question.id x])))
  = List.length (pool db subject ty used).
Proof.
  intro Hx. rewrite <- (remove_one (pool db subject ty used) x);
    [| apply key_filter, questions_of_key | assumption].
  f_equal. f_equal. unfold pool. rewrite filter_filter.
  apply filter_ext. intro q. rewrite in_list_app. simpl.
  rewrite orb_false_r, negb_orb. reflexivity.
Qed.

Lemma pool_other (ty ty' : string) (used : list Z) (x : Question.t) :
  In x (pool db subject ty used) -> ty' <> ty ->
  pool db subject ty' (used ++ [Question.id x]) = pool db subject ty' used.
Proof.
  intros Hx Hty. unfold pool. apply filter_ext_in. intros q Hq.
  rewrite in_list_app. simpl. rewrite orb_false_r.
  assert (N : Question.id q <> Question.id x).
  { intro E. apply In_pool in Hx. destruct Hx as [Hx _].
    apply In_questions_of in Hx, Hq.
    destruct Hx as [Hx [_ Tx]], Hq as [Hq [_ Tq]].
    assert (q = x) by (now apply (key_inj (DatabaseManager.questions db))).
    subst q. congruence. }
  apply Z.eqb_neq in N. rewrite N. now rewrite orb_false_r.
Qed.

Hypothesis all_half :
  forall q, In q (DatabaseManager.questions db) ->
            Question.subject_id q = subject ->
            (Question.difficulty q == 0.5)%Q.

Lemma Qle_bool_eq_r (a d e : Q) : (d == e)%Q -> Qle_bool a d = Qle_bool a e.
Proof.
  intro E. destruct (Qle_bool a d) eqn:H1, (Qle_bool a e) eqn:H2;
    try reflexivity.
  - apply Qle_bool_iff in H1. rewrite E in H1. apply Qle_bool_iff in H1.
    congruence.
  - apply Qle_bool_iff in H2. rewrite <- E in H2. apply Qle_bool_iff in H2.
    congruence.
Qed.

Lemma Qle_bool_eq_l (a d e : Q) : (d == e)%Q -> Qle_bool d a = Qle_bool e a.
Proof.
  intro E. destruct (Qle_bool d a) eqn:H1, (Qle_bool e a) eqn:H2;
    try reflexivity.
  - apply Qle_bool_iff in H1. rewrite E in H1. apply Qle_bool_iff in H1.
    congruence.
  - apply Qle_bool_iff in H2. rewrite <- E in H2. apply Qle_bool_iff in H2.
    congruence.
Qed.

(** The rows a slot search keeps: the unused questions of the subject and
    type when the window holds 0.5, none otherwise. *)
Lemma search_window (ty : string) (used : list Z) (t : Q) :
  ty <> "" ->
  DatabaseManager.search_questions db
    (base_filters subject ty ((t - 0.15)%Q, (t + 0.15)%Q) (Some used))
  = DatabaseManager.distinct
      (if Qle_bool (t - 0.15) 0.5 && Qle_bool 0.5 (t + 0.15)
       then pool db subject ty used else []).
Proof.
  intro Hty. unfold DatabaseManager.search_questions. f_equal.
  unfold pool, questions_of. rewrite filter_filter, <- filter_guard.
  change (DatabaseManager.from_rows db
            (base_filters subject ty ((t - 0.15)%Q, (t + 0.15)%Q) (Some used)))
    with (DatabaseManager.questions db).
  apply filter_ext_in. intros q Hq.
  unfold DatabaseManager.where_question, base_filters.
  cbn [Filters.subject_id Filters.question_type Filters.min_difficulty
       Filters.max_difficulty Filters.exclude_ids fst snd].
  assert (S0 : (subject =? 0) = false) by (now apply Z.eqb_neq).
  rewrite S0. apply String.eqb_neq in Hty. rewrite Hty.
  assert (X : (match match used with
                     | [] => []
                     | x :: xs => x :: xs
                     end with
               | [] => true
               | x :: xs => negb (in_list (Question.id q) (x :: xs))
               end) = negb (in_list (Question.id q) used))
    by (now destruct used).
  rewrite X.
  destruct (Question.subject_id q =? subject) eqn:S; simpl;
    [|now rewrite andb_false_r].
  apply Z.eqb_eq in S. assert (D := all_half q Hq S).
  rewrite (Qle_bool_eq_r _ _ _ D), (Qle_bool_eq_l _ _ _ D).
  destruct (String.eqb (Question.question_type q) ty),
           (Qle_bool (t - 0.15) 0.5), (Qle_bool 0.5 (t + 0.15)),
           (in_list (Question.id q) used); reflexivity.
Qed.

Lemma fill_slot_plain (weak : list Z) (base : Q) (ty : string) (count : Z)
      (selected : list Question.t) (used : list Z) (i : Z) (w : World.t) :
  ty <> "" ->
  exists w',
    if in_window base count 0.5 i
    then pool db subject ty used <> [] ->
         exists x,
           In x (pool db subject ty used)
           /\ fill_slot db subject false weak base ty count
                        (selected, used) i w
              = Ok ((selected ++ [x], used ++ [Question.id x]), w')
    else fill_slot db subject false weak base ty count (selected, used) i w
         = Ok ((selected, used), w').
Proof.
  intro Hty. destruct (difficulty_target_total i count base) as [t Ht].
  unfold in_window, fill_slot, World.bind, World.lift. rewrite Ht.
  rewrite andb_false_l. cbv beta iota.
  change (World.ret false w) with (Ok (false, w)). cbv beta iota.
  assert (R := select_unrestricted db subject ty
                 ((t - 0.15)%Q, (t + 0.15)%Q) (Some used) None w eq_refl).
  cbv zeta in R. rewrite (search_window ty used t Hty) in R.
  destruct (Qle_bool (t - 0.15) 0.5 && Qle_bool 0.5 (t + 0.15)).
  - destruct (DatabaseManager.distinct (pool db subject ty used))
      as [|c cs] eqn:E.
    + exists w. intro N. apply (proj1 (distinct_nil_iff _)) in E.
      contradiction.
    + destruct R as [x [Hx R]]. eexists. intros _. exists x.
      split; [apply In_distinct; now rewrite E|].
      rewrite R. reflexivity.
  - cbn [DatabaseManager.distinct] in R. eexists. rewrite R. reflexivity.
Qed.

(** One type group of the unfocused run: every slot whose window holds
    0.5 takes one unused question of the type, the others take none. *)
Lemma fill_group (weak : list Z) (base : Q) (ty : string) (count : Z) :
  ty <> "" ->
  forall idxs selected used w,
    (List.length (filter (in_window base count 0.5) idxs)
     <= List.length (pool db subject ty used))%nat ->
    exists xs w',
      World.foldM (fill_slot db subject false weak base ty count) idxs
                  (selected, used) w
      = Ok ((selected ++ xs, used ++ map Question.id xs), w')
      /\ List.length xs
         = List.length (filter (in_window base count 0.5) idxs)
      /\ Forall (fun x => In x (questions_of db subject ty)) xs
      /\ (forall ty', ty' <> ty ->
                      pool db subject ty' (used ++ map Question.id xs)
                      = pool db subject ty' used).
Proof.
  intro Hty. induction idxs as [|i idxs IH]; intros selected used w Hlen.
  - exists [], w. simpl. rewrite !app_nil_r. repeat split. constructor.
  - destruct (fill_slot_plain weak base ty count selected used i w Hty)
      as [w1 H].
    cbn [filter] in Hlen |- *. cbn [World.foldM]. unfold World.bind.
    destruct (in_window base count 0.5 i) eqn:W.
    + cbn [List.length] in Hlen |- *.
      assert (N : pool db subject ty used <> []).
      { intro E. rewrite E in Hlen. simpl in Hlen. lia. }
      destruct (H N) as [x [Hx R]]. rewrite R.
      assert (P := pool_pick ty used x Hx).
      destruct (IH (selected ++ [x]) (used ++ [Question.id x]) w1)
        as [xs [w' [E [L [F O]]]]]; [lia|].
      exists (x :: xs), w'. simpl. rewrite E, <- !app_assoc. simpl.
      repeat split.
      * now rewrite L.
      * constructor; [|assumption]. apply In_pool in Hx. tauto.
      * intros ty' Hty'. specialize (O ty' Hty').
        rewrite <- app_assoc in O. simpl in O. rewrite O.
        now apply pool_other with ty.
    + rewrite H. destruct (IH selected used w1 Hlen)
        as [xs [w' [E [L [F O]]]]].
      exists xs, w'. now repeat split.
Qed.

End ScenarioB.

Lemma sum_from (l : list Q) (a : Q) :
  (fold_left Qplus l a == a + Py.sum l)%Q.
Proof.
  unfold Py.sum. revert a. induction l as [|x l IH]; intro a; simpl.
  - ring.
  - rewrite (IH (a + x)%Q), (IH (0 + x)%Q). ring.
Qed.

Lemma sum_app (l m : list Q) : (Py.sum (l ++ m) == Py.sum l + Py.sum m)%Q.
Proof.
  unfold Py.sum at 1. rewrite fold_left_app. apply sum_from.
Qed.

Lemma sum_scores (l : list Question.t) (c : Q) :
  Forall (fun q => (Question.score q == c)%Q) l ->
  (Py.sum (map Question.score l) == inject_Z (Z.of_nat (List.length l)) * c)%Q.
Proof.
  induction 1 as [|q l Hq _ IH]; simpl map.
  - unfold Py.sum. simpl. ring.
  - change (Question.score q :: map Question.score l)
      with ([Question.score q] ++ map Question.score l).
    rewrite sum_app, IH. unfold Py.sum at 1. simpl fold_left.
    rewrite Hq. simpl List.length. rewrite Nat2Z.inj_succ.
    unfold Z.succ. rewrite inject_Z_plus. ring.
Qed.

Lemma open_slots_choice :
  List.length (filter (in_window (_get_difficulty_target "medium") 12 0.5)
                      (range 12)) = 9%nat.
Proof. vm_compute. reflexivity. Qed.

Lemma open_slots_fill_in :
  List.length (filter (in_window (_get_difficulty_target "medium") 4 0.5)
                      (range 4)) = 3%nat.
Proof. vm_compute. reflexivity. Qed.

Lemma open_slots_short :
  List.length (filter (in_window (_get_difficulty_target "medium") 6 0.5)
                      (range 6)) = 5%nat.
Proof. vm_compute. reflexivity. Qed.

(** C1 (amended).  For a bank that holds, for the subject, exactly 12
    choice, 4 fill-in and 6 short-answer questions, all of difficulty 0.5,
    composing with a target of 150, without focus on weaknesses, with the
    default template and the level 'medium' returns exactly 17 questions:
    9 choice, 3 fill-in and 5 short-answer questions, one for every slot
    whose difficulty window holds 0.5.  The actual total score is the sum
    of the scores stored with the selected questions; it is 126 when every
    question of the bank carries the score of its type in the template
    (4, 5 and 15). *)
Theorem C1_scenario_B_amended (db : DatabaseManager.t)
        (student_id subject_id : Z) (w : World.t) :
  subject_id <> 0 ->
  NoDup (map Question.id (DatabaseManager.questions db)) ->
  (forall q, In q (DatabaseManager.questions db) ->
             Question.subject_id q = subject_id ->
             (Question.difficulty q == 0.5)%Q) ->
  List.length (questions_of db subject_id "选择题") = 12%nat ->
  List.length (questions_of db subject_id "填空题") = 4%nat ->
  List.length (questions_of db subject_id "解答题") = 6%nat ->
  exists exam w' choice fill_in short,
    generate_targeted_exam db student_id subject_id 150 false "medium" None w
    = Ok (exam, w')
    /\ GeneratedExam.questions exam = choice ++ fill_in ++ short
    /\ Forall (fun q => In q (questions_of db subject_id "选择题")) choice
    /\ Forall (fun q => In q (questions_of db subject_id "填空题")) fill_in
    /\ Forall (fun q => In q (questions_of db subject_id "解答题")) short
    /\ List.length choice = 9%nat
    /\ List.length fill_in = 3%nat
    /\ List.length short = 5%nat
    /\ GeneratedExam.actual_count exam = 17
    /\ GeneratedExam.total_score exam
       = Py.sum (map Question.score (GeneratedExam.questions exam))
    /\ ((forall q, In q (questions_of db subject_id "选择题") ->
                   (Question.score q == 4)%Q) ->
        (forall q, In q (questions_of db subject_id "填空题") ->
                   (Question.score q == 5)%Q) ->
        (forall q, In q (questions_of db subject_id "解答题") ->
                   (Question.score q == 15)%Q) ->
        (GeneratedExam.total_score exam == 126)%Q).
Proof.
  intros Hs Hpk Hhalf N1 N2 N3.
  assert (Ha := WeaknessProofs.analyze_student_weaknesses_eq
                  db student_id (Some subject_id)).
  set (ws := Py.sort by_mastery _) in Ha.
  set (weak := map Weakness.knowledge_point_id (firstn 15 ws)).
  set (base := _get_difficulty_target "medium").
  destruct (fill_group db subject_id Hs Hpk Hhalf weak base "选择题" 12
              ltac:(discriminate) (range 12) [] [] w)
    as [xs1 [w1 [E1 [L1 [F1 O1]]]]].
  { rewrite pool_nil, N1. unfold base. rewrite open_slots_choice. lia. }
  destruct (fill_group db subject_id Hs Hpk Hhalf weak base "填空题" 4
              ltac:(discriminate) (range 4) ([] ++ xs1)
              ([] ++ map Question.id xs1) w1)
    as [xs2 [w2 [E2 [L2 [F2 O2]]]]].
  { rewrite O1 by discriminate. rewrite pool_nil, N2. unfold base.
    rewrite open_slots_fill_in. lia. }
  destruct (fill_group db subject_id Hs Hpk Hhalf weak base "解答题" 6
              ltac:(discriminate) (range 6) (([] ++ xs1) ++ xs2)
              (([] ++ map Question.id xs1) ++ map Question.id xs2) w2)
    as [xs3 [w3 [E3 [L3 [F3 O3]]]]].
  { rewrite O2 by discriminate. rewrite O1 by discriminate.
    rewrite pool_nil, N3. unfold base. rewrite open_slots_short. lia. }
  unfold base in L1, L2, L3.
  rewrite open_slots_choice in L1. rewrite open_slots_fill_in in L2.
  rewrite open_slots_short in L3.
  set (sel := ((([] ++ xs1) ++ xs2) ++ xs3,
               (([] ++ map Question.id xs1) ++ map Question.id xs2)
               ++ map Question.id xs3)).
  assert (Hsel :
    World.foldM (fill_type db subject_id false weak base)
      (_get_default_distribution db subject_id 150) ([], []) w
    = Ok (sel, w3)).
  { change (_get_default_distribution db subject_id 150)
      with [("选择题", TypeConfig.mk 12 4); ("填空题", TypeConfig.mk 4 5);
            ("解答题", TypeConfig.mk 6 15)].
    cbn [World.foldM]. unfold World.bind, fill_type.
    cbn [TypeConfig.count]. rewrite E1, E2, E3. reflexivity. }
  destruct (generate_from_selection db student_id subject_id 150 false
              "medium" None w w3 ws sel Ha Hsel) as (exam & R & A).
  exists exam, w3, xs1, xs2, xs3. split; [exact R|].
  rewrite (assembled_questions A), (assembled_count A), (assembled_total A).
  cbn [fst sel]. rewrite app_nil_l, <- app_assoc.
  repeat split; try assumption.
  - unfold len. rewrite !length_app, L1, L2, L3. reflexivity.
  - intros S1 S2 S3. rewrite !map_app, !sum_app.
    rewrite (sum_scores xs1 4), (sum_scores xs2 5), (sum_scores xs3 15).
    + rewrite L1, L2, L3. reflexivity.
    + eapply Forall_impl; [|exact F3]. exact S3.
    + eapply Forall_impl; [|exact F2]. exact S2.
    + eapply Forall_impl; [|exact F1]. exact S1.
Qed.

Lemma distinct_ids_NoDup (l : list Z) : distinct_ids l = true -> NoDup l.
Proof.
  induction l as [|x l IH]; simpl; intro H; [constructor|].
  apply andb_true_iff in H. destruct H as [H1 H2].
  apply negb_true_iff, in_list_false in H1. constructor; auto.
Qed.

Lemma C1_scenario_B_amended_witness :
  exists exam w' choice fill_in short,
    generate_targeted_exam Scenarios.bank_B 1 1 150 false "medium" None
                           Scenarios.world0
    = Ok (exam, w')
    /\ GeneratedExam.questions exam = choice ++ fill_in ++ short
    /\ Forall (fun q => In q (questions_of Scenarios.bank_B 1 "选择题"))
              choice
    /\ Forall (fun q => In q (questions_of Scenarios.bank_B 1 "填空题"))
              fill_in
    /\ Forall (fun q => In q (questions_of Scenarios.bank_B 1 "解答题"))
              short
    /\ List.length choice = 9%nat
    /\ List.length fill_in = 3%nat
    /\ List.length short = 5%nat
    /\ GeneratedExam.actual_count exam = 17
    /\ GeneratedExam.total_score exam
       = Py.sum (map Question.score (GeneratedExam.questions exam))
    /\ ((forall q, In q (questions_of Scenarios.bank_B 1 "选择题") ->
                   (Question.score q == 4)%Q) ->
        (forall q, In q (questions_of Scenarios.bank_B 1 "填空题") ->
                   (Question.score q == 5)%Q) ->
        (forall q, In q (questions_of Scenarios.bank_B 1 "解答题") ->
                   (Question.score q == 15)%Q) ->
        (GeneratedExam.total_score exam == 126)%Q).
Proof.
  apply (C1_scenario_B_amended Scenarios.bank_B 1 1 Scenarios.world0).
  - lia.
  - apply distinct_ids_NoDup. vm_compute. reflexivity.
  - intros q Hq _. apply Qeq_bool_iff. revert q Hq. apply forallb_forall.
    vm_compute. reflexivity.
  - vm_compute. reflexivity.
  - vm_compute. reflexivity.
  - vm_compute. reflexivity.
Defined.

(** C1, as stated, fails on the bank of scenario B: the run returns 17
    questions worth 126 points, not 22 questions worth 158. *)
Lemma C1_scenario_B_counterexample :
  ~ (exists exam w',
        generate_targeted_exam Scenarios.bank_B 1 1 150 false "medium" None
                               Scenarios.world0
        = Ok (exam, w')
        /\ List.length (GeneratedExam.questions exam) = 22%nat
        /\ (GeneratedExam.total_score exam == 158)%Q).
Proof.
  intros [exam [w' [R [L _]]]].
  assert (H : match generate_targeted_exam Scenarios.bank_B 1 1 150 false
                      "medium" None Scenarios.world0 with
              | Ok (e, _) =>
                  List.length (GeneratedExam.questions e) = 17%nat
              | Raise _ => False
              end) by (vm_compute; reflexivity).
  rewrite R in H. rewrite H in L. discriminate.
Qed.

End GeneratorProofs.

(* ================================================================== *)
(** ** More on the question bank query *)

Module SearchProofs.
Import IntelligentExamGenerator GeneratorFacts PyFacts QueryProofs.
Import GeneratorProofs.

Lemma where_question_meets (f : Filters.t) (q : Question.t) :
  DatabaseManager.where_question f q = true <->
  (forall s, Filters.subject_id f = Some s -> s <> 0 ->
             Question.subject_id q = s)
  /\ (forall ty, Filters.question_type f = Some ty -> ty <> "" ->
                 Question.question_type q = ty)
  /\ (forall lo, Filters.min_difficulty f = Some lo ->
                 (lo <= Question.difficulty q)%Q)
  /\ (forall hi, Filters.max_difficulty f = Some hi ->
                 (Question.difficulty q <= hi)%Q)
  /\ (forall ids, Filters.exclude_ids f = Some ids ->
                  ~ In (Question.id q) ids).
Proof.
  unfold DatabaseManager.where_question. rewrite !andb_true_iff.
  assert (A1 : (match Filters.subject_id f with
                | Some s => if s =? 0 then true else Question.subject_id q =? s
                | None => true
                end = true)
               <-> forall s, Filters.subject_id f = Some s -> s <> 0 ->
                             Question.subject_id q = s).
  { destruct (Filters.subject_id f) as [s|]; [|split; [discriminate|trivial]].
    destruct (Z.eqb_spec s 0) as [E|E].
    - split; [intros _ s' [= <-] N; contradiction | trivial].
    - rewrite Z.eqb_eq. split; [intros H s' [= <-] _; exact H|].
      intro H. now apply H. }
  assert (A2 : (match Filters.question_type f with
                | Some ty =>
                    if String.eqb ty "" then true
                    else String.eqb (Question.question_type q) ty
                | None => true
                end = true)
               <-> forall ty, Filters.question_type f = Some ty -> ty <> "" ->
                              Question.question_type q = ty).
  { destruct (Filters.question_type f) as [ty|];
      [|split; [discriminate|trivial]].
    destruct (String.eqb_spec ty "") as [E|E].
    - split; [intros _ s' [= <-] N; contradiction | trivial].
    - rewrite String.eqb_eq. split; [intros H s' [= <-] _; exact H|].
      intro H. now apply H. }
  assert (A3 : (match Filters.min_difficulty f with
                | Some lo => Qle_bool lo (Question.difficulty q)
                | None => true
                end = true)
               <-> forall lo, Filters.min_difficulty f = Some lo ->
                              (lo <= Question.difficulty q)%Q).
  { destruct (Filters.min_difficulty f) as [lo|];
      [|split; [discriminate|trivial]].
    rewrite Qle_bool_iff. split; [intros H s' [= <-]; exact H|].
    intro H. now apply H. }
  assert (A4 : (match Filters.max_difficulty f with
                | Some hi => Qle_bool (Question.difficulty q) hi
                | None => true
                end = true)
               <-> forall hi, Filters.max_difficulty f = Some hi ->
                              (Question.difficulty q <= hi)%Q).
  { destruct (Filters.max_difficulty f) as [hi|];
      [|split; [discriminate|trivial]].
    rewrite Qle_bool_iff. split; [intros H s' [= <-]; exact H|].
    intro H. now apply H. }
  assert (A5 : (match Filters.exclude_ids f with
                | Some (x :: xs) => negb (in_list (Question.id q) (x :: xs))
                | _ => true
                end = true)
               <-> forall ids, Filters.exclude_ids f = Some ids ->
                               ~ In (Question.id q) ids).
  { destruct (Filters.exclude_ids f) as [[|x xs]|].
    - split; [intros _ ids [= <-] []|trivial].
    - rewrite negb_true_iff, in_list_false.
      split; [intros H s' [= <-]; exact H|]. intro H. now apply H.
    - split; [discriminate|trivial]. }
  rewrite A1, A2, A3, A4, A5. tauto.
Qed.

(** X1.  Every row [search_questions] returns is a row of the question
    table that meets each condition the filter dict states: the subject
    (when non-zero), the type (when non-empty), both difficulty bounds,
    the exclusion list, and a link to one of the listed knowledge
    points. *)
Theorem search_questions_sound (db : DatabaseManager.t) (f : Filters.t)
        (q : Question.t) :
  In q (DatabaseManager.search_questions db f) ->
  In q (DatabaseManager.questions db) /\ meets db f q.
Proof.
  intro H. apply search_questions_In in H. destruct H as [Hr Hw].
  apply In_from_rows in Hr. destruct Hr as [Hq Hl].
  split; [assumption|]. apply where_question_meets in Hw.
  unfold meets. tauto.
Qed.

Lemma search_questions_sound_witness :
  In (Scenarios.question 3 1 "填空题" 0.5 5)
     (DatabaseManager.questions Scenarios.school)
  /\ meets Scenarios.school
       (Filters.mk (Some 1) (Some [1]) None (Some 0.4%Q) None (Some [1]))
       (Scenarios.question 3 1 "填空题" 0.5 5).
Proof.
  apply (search_questions_sound Scenarios.school
           (Filters.mk (Some 1) (Some [1]) None (Some 0.4%Q) None
                       (Some [1]))
           (Scenarios.question 3 1 "填空题" 0.5 5)).
  vm_compute. left. reflexivity.
Defined.

Lemma eqb_refl (q : Question.t) : Question.eqb q q = true.
Proof.
  unfold Question.eqb. rewrite !Z.eqb_refl, !String.eqb_refl. simpl.
  rewrite !andb_true_iff. split; apply Qeq_bool_iff; reflexivity.
Qed.

Lemma eqb_id (a b : Question.t) :
  Question.eqb a b = true -> Question.id a = Question.id b.
Proof.
  unfold Question.eqb. rewrite !andb_true_iff. intro H.
  apply Z.eqb_eq. tauto.
Qed.

Lemma distinct_keeps (rows table : list Question.t) (q : Question.t) :
  NoDup (map Question.id table) -> incl rows table ->
  In q rows -> In q (DatabaseManager.distinct rows).
Proof.
  intros K. induction rows as [|r rows IH]; simpl; intros I Hq; [assumption|].
  assert (I' : incl rows table) by (intros x Hx; apply I; now right).
  destruct Hq as [->|Hq]; [now left|].
  destruct (Question.eqb r q) eqn:E.
  - left. apply eqb_id in E.
    apply (key_inj table); try assumption; apply I; simpl; auto.
  - right. apply filter_In. split; [now apply IH|]. now rewrite E.
Qed.

Lemma distinct_key (rows table : list Question.t) :
  NoDup (map Question.id table) -> incl rows table ->
  NoDup (map Question.id (DatabaseManager.distinct rows)).
Proof.
  intros K. induction rows as [|r rows IH]; simpl; intros I; [constructor|].
  assert (I' : incl rows table) by (intros x Hx; apply I; now right).
  constructor.
  - intro C. apply in_map_iff in C. destruct C as [x [E Hx]].
    apply filter_In in Hx. destruct Hx as [Hx N].
    assert (x = r).
    { apply (key_inj table); try assumption.
      - apply I'. now apply In_distinct.
      - apply I. now left. }
    subst x. now rewrite eqb_refl in N.
  - apply key_filter. now apply IH.
Qed.

Lemma from_rows_incl (db : DatabaseManager.t) (f : Filters.t) :
  incl (filter (DatabaseManager.where_question f)
               (DatabaseManager.from_rows db f))
       (DatabaseManager.questions db).
Proof.
  intros q Hq. apply filter_In in Hq. destruct Hq as [Hq _].
  now apply In_from_rows in Hq.
Qed.

Lemma from_rows_linked (db : DatabaseManager.t) (f : Filters.t)
      (q : Question.t) :
  In q (DatabaseManager.questions db) ->
  (forall ids, Filters.knowledge_point_ids f = Some ids -> ids <> [] ->
               linked db q ids) ->
  In q (DatabaseManager.from_rows db f).
Proof.
  intros Hq Hl. unfold DatabaseManager.from_rows.
  destruct (Filters.knowledge_point_ids f) as [[|k ks]|]; try assumption.
  destruct (Hl (k :: ks) eq_refl ltac:(discriminate)) as [qk [Hqk [E Hk]]].
  apply in_flat_map. exists q. split; [assumption|].
  apply in_flat_map. exists qk. split; [assumption|].
  rewrite E, Z.eqb_refl. apply in_list_iff in Hk. rewrite Hk. now left.
Qed.

(** X2.  When the identifiers of the question table are unique,
    [search_questions] misses no row: every row of the table that meets the
    conditions of the filter dict is returned. *)
Theorem search_questions_complete (db : DatabaseManager.t) (f : Filters.t)
        (q : Question.t) :
  NoDup (map Question.id (DatabaseManager.questions db)) ->
  In q (DatabaseManager.questions db) -> meets db f q ->
  In q (DatabaseManager.search_questions db f).
Proof.
  intros K Hq M. unfold DatabaseManager.search_questions.
  apply distinct_keeps with (DatabaseManager.questions db);
    [assumption | apply from_rows_incl |].
  apply filter_In. unfold meets in M. split.
  - apply from_rows_linked; tauto.
  - apply where_question_meets. tauto.
Qed.

Lemma search_questions_complete_witness :
  In (Scenarios.question 1 1 "选择题" 0.3 4)
     (DatabaseManager.search_questions Scenarios.school
        (Filters.mk (Some 1) (Some [1; 3]) (Some "选择题") (Some 0.2%Q)
                    (Some 0.6%Q) (Some [2]))).
Proof.
  apply (search_questions_complete Scenarios.school
           (Filters.mk (Some 1) (Some [1; 3]) (Some "选择题") (Some 0.2%Q)
                       (Some 0.6%Q) (Some [2]))
           (Scenarios.question 1 1 "选择题" 0.3 4)).
  - apply distinct_ids_NoDup. vm_compute. reflexivity.
  - simpl. now left.
  - unfold meets.
    destruct (proj1 (where_question_meets
                       (Filters.mk (Some 1) (Some [1; 3]) (Some "选择题")
                                   (Some 0.2%Q) (Some 0.6%Q) (Some [2]))
                       (Scenarios.question 1 1 "选择题" 0.3 4)) eq_refl)
      as (A & B & C & D & E).
    split; [exact A|]. split; [exact B|]. split; [exact C|].
    split; [exact D|]. split; [exact E|].
    intros ids I _. exists (Scenarios.link 1 3).
    split; [simpl; now left|]. split; [reflexivity|].
    simpl in I. injection I as <-. simpl. now right; left.
Defined.

(** X3.  When the identifiers of the question table are unique, no
    question is returned twice, also when it is linked to several of the
    listed knowledge points (the join yields one row per link, [DISTINCT]
    keeps one). *)
Theorem search_questions_no_duplicates (db : DatabaseManager.t)
        (f : Filters.t) :
  NoDup (map Question.id (DatabaseManager.questions db)) ->
  NoDup (map Question.id (DatabaseManager.search_questions db f)).
Proof.
  intro K. unfold DatabaseManager.search_questions.
  apply distinct_key with (DatabaseManager.questions db);
    [assumption | apply from_rows_incl].
Qed.

Lemma search_questions_no_duplicates_witness :
  NoDup (map Question.id
           (DatabaseManager.search_questions Scenarios.school
              (Filters.mk (Some 1) (Some [1; 3]) None None None None))).
Proof.
  apply (search_questions_no_duplicates Scenarios.school
           (Filters.mk (Some 1) (Some [1; 3]) None None None None)).
  apply distinct_ids_NoDup. vm_compute. reflexivity.
Defined.

(** X4.  [get_questions_by_knowledge_point(kp_id)] returns what
    [search_questions] returns for the filter dict that only holds
    [knowledge_point_ids = [kp_id]]. *)
Theorem get_questions_by_knowledge_point_search (db : DatabaseManager.t)
        (kp_id : Z) :
  DatabaseManager.get_questions_by_knowledge_point db kp_id
  = DatabaseManager.search_questions db
      (Filters.mk None (Some [kp_id]) None None None None).
Proof.
  unfold DatabaseManager.get_questions_by_knowledge_point,
    DatabaseManager.search_questions.
  f_equal. rewrite forallb_filter_id; [|now apply forallb_forall].
  unfold DatabaseManager.from_rows. simpl Filters.knowledge_point_ids.
  apply flat_map_ext. intro q. apply flat_map_ext. intro qk.
  unfold in_list. simpl. rewrite orb_false_r. reflexivity.
Qed.

End SearchProofs.

(* ================================================================== *)
(** ** The run of the generator as a sequence of slots *)

Module RunProofs.
Import WeaknessAnalysisService IntelligentExamGenerator GeneratorFacts.
Import RunFacts PyFacts QueryProofs GeneratorProofs SearchProofs.

Section Slots.
Variable db : DatabaseManager.t.
Variable subject_id : Z.
Variable focus : bool.
Variable weak : list Z.
Variable base : Q.

Let after_world := Run.after_world db subject_id focus weak.
Let valid := Run.valid db subject_id focus weak.
Let chained := Run.chained db subject_id focus weak.

Ltac slot_unfold :=
  unfold after_world, valid, World.ret, Run.after_sel, Run.after_world,
    Run.valid, Run.candidates, Run.queries, Run.filters, Run.drawn, logged,
    World.advance;
  cbn [Slot.pick Slot.use_weakness Slot.q_type Slot.target Slot.used
       fst snd World.tape World.cursor World.queries].

Lemma fill_slot_slot (ty : string) (count : Z) (selected : list Question.t)
      (used : list Z) (i : Z) (w : World.t) :
  exists s,
    Slot.q_type s = ty /\ Slot.used s = used
    /\ _get_question_difficulty_target i count base = Ok (Slot.target s)
    /\ valid s
    /\ fill_slot db subject_id focus weak base ty count (selected, used) i w
       = Ok (Run.after_sel (selected, used) s, after_world w s).
Proof.
  destruct (difficulty_target_total i count base) as [t Ht].
  unfold fill_slot, World.bind, World.lift. rewrite Ht.
  set (range := ((t - 0.15)%Q, (t + 0.15)%Q)).
  set (f := base_filters subject_id ty range (Some used)).
  assert (Plain : forall w1,
    (if Run.drawn focus weak then S else fun n => n) (World.cursor w)
    = World.cursor w1 ->
    World.tape w1 = World.tape w -> World.queries w1 = World.queries w ->
    exists s,
      Slot.q_type s = ty /\ Slot.used s = used
      /\ Ok t = Ok (Slot.target s) /\ Slot.use_weakness s = false
      /\ valid s
      /\ match _select_question db subject_id ty None range (Some used) w1
         with
         | Ok (question, w2) =>
             match question with
             | Some q => World.ret (selected ++ [q], used ++ [Question.id q])
             | None => World.ret (selected, used)
             end w2
         | Raise e => Raise e
         end = Ok (Run.after_sel (selected, used) s, after_world w s)).
  { intros w1 Hc Ht1 Hq1.
    assert (R := select_unrestricted db subject_id ty range (Some used) None
                   w1 eq_refl).
    cbv zeta in R. fold f in R.
    destruct (DatabaseManager.search_questions db f) as [|c cs] eqn:E.
    - exists (Slot.mk ty t used false None).
      split; [reflexivity|]. split; [reflexivity|]. split; [reflexivity|].
      split; [reflexivity|]. split.
      + slot_unfold. fold range. fold f. split; [discriminate | exact E].
      + rewrite R. slot_unfold. fold range. fold f.
        rewrite <- Hc, Ht1, Hq1. reflexivity.
    - destruct R as [x [Hx R]].
      exists (Slot.mk ty t used false (Some x)).
      split; [reflexivity|]. split; [reflexivity|]. split; [reflexivity|].
      split; [reflexivity|]. split.
      + slot_unfold. fold range. fold f. rewrite E.
        split; [discriminate | exact Hx].
      + rewrite R. slot_unfold. fold range. fold f.
        rewrite <- Hc, Ht1, Hq1. reflexivity. }
  destruct (focus && (0 <? len weak)) eqn:D.
  - unfold World.random. cbv beta iota.
    destruct (Qlt_bool _ 0.7) eqn:B.
    + change (World.ret true (World.advance w))
        with (Ok (true, World.advance w)).
      cbv beta iota.
      assert (Hweak : weak <> []).
      { intros ->. rewrite andb_false_r in D. discriminate. }
      assert (R := select_restricted db subject_id ty range (Some used) weak
                     (World.advance w) Hweak).
      cbv zeta in R. fold f in R.
      destruct (DatabaseManager.search_questions db (with_kps f weak))
        as [|c cs] eqn:E1.
      * destruct (DatabaseManager.search_questions db f) as [|c cs] eqn:E2.
        -- exists (Slot.mk ty t used true None).
           split; [reflexivity|]. split; [reflexivity|].
           split; [reflexivity|]. split.
           ++ slot_unfold. fold range. fold f. rewrite E1, D.
              split; [reflexivity | exact E2].
           ++ rewrite R. slot_unfold. fold range. fold f. rewrite E1, D.
              reflexivity.
        -- destruct R as [x [Hx R]].
           exists (Slot.mk ty t used true (Some x)).
           split; [reflexivity|]. split; [reflexivity|].
           split; [reflexivity|]. split.
           ++ slot_unfold. fold range. fold f. rewrite E1, E2, D.
              split; [reflexivity | exact Hx].
           ++ rewrite R. slot_unfold. fold range. fold f. rewrite E1, D.
              reflexivity.
      * destruct R as [x [Hx R]].
        exists (Slot.mk ty t used true (Some x)).
        split; [reflexivity|]. split; [reflexivity|].
        split; [reflexivity|]. split.
        -- slot_unfold. fold range. fold f. rewrite E1, D.
           split; [reflexivity | exact Hx].
        -- rewrite R. slot_unfold. fold range. fold f. rewrite E1, D.
           reflexivity.
    + change (World.ret false (World.advance w))
        with (Ok (false, World.advance w)).
      cbv beta iota.
      destruct (Plain (World.advance w)) as (s & A1 & A2 & A3 & A4 & A5 & A6);
        try reflexivity.
      { unfold Run.drawn. now rewrite D. }
      exists s. split; [assumption|]. split; [assumption|].
      split; [assumption|]. split; assumption.
  - change (World.ret false w) with (Ok (false, w)). cbv beta iota.
    destruct (Plain w) as (s & A1 & A2 & A3 & A4 & A5 & A6);
      try reflexivity.
    { unfold Run.drawn. now rewrite D. }
    exists s. split; [assumption|]. split; [assumption|].
    split; [assumption|]. split; assumption.
Qed.

Lemma chained_app (sel : Selection) (a b : list Slot.t) :
  chained sel (a ++ b)
  <-> chained sel a /\ chained (Run.finish_sel sel a) b.
Proof.
  revert sel. induction a as [|s a IH]; intro sel; simpl.
  - tauto.
  - unfold chained in *. simpl. rewrite IH. tauto.
Qed.

Lemma fill_type_slots (ty : string) (count : Z) (idxs : list Z)
      (sel : Selection) (w : World.t) :
  exists ss,
    World.foldM (fill_slot db subject_id focus weak base ty count) idxs sel w
    = Ok (Run.finish_sel sel ss,
          Run.finish_world db subject_id focus weak w ss)
    /\ chained sel ss
    /\ List.length ss = List.length idxs
    /\ Forall (fun s =>
                 Slot.q_type s = ty
                 /\ exists i,
                      In i idxs
                      /\ _get_question_difficulty_target i count base
                         = Ok (Slot.target s)) ss.
Proof.
  revert sel w. induction idxs as [|i idxs IH]; intros sel w.
  - exists []. repeat split. constructor.
  - destruct sel as [selected used].
    destruct (fill_slot_slot ty count selected used i w)
      as (s & T & U & G & V & E).
    destruct (IH (Run.after_sel (selected, used) s)
                 (Run.after_world db subject_id focus weak w s))
      as (ss & E' & C & L & F).
    exists (s :: ss). cbn [World.foldM]. unfold World.bind.
    fold after_world in E'. unfold after_world in E. rewrite E.
    split; [exact E'|]. split; [|split].
    + unfold chained. simpl. split; [exact U|]. split; [exact V | exact C].
    + simpl. now rewrite L.
    + constructor.
      * split; [assumption|]. exists i. split; [now left | assumption].
      * eapply Forall_impl; [|exact F]. intros s' [T' [j [Hj G']]].
        split; [assumption|]. exists j. split; [now right | assumption].
Qed.

Lemma template_slots (template : list (string * TypeConfig.t))
      (sel : Selection) (w : World.t) :
  exists ss,
    World.foldM (fill_type db subject_id focus weak base) template sel w
    = Ok (Run.finish_sel sel ss,
          Run.finish_world db subject_id focus weak w ss)
    /\ chained sel ss
    /\ List.length ss = slot_count template
    /\ Forall (of_template template base) ss.
Proof.
  revert sel w. induction template as [|[ty config] template IH];
    intros sel w.
  - exists []. repeat split. constructor.
  - destruct (fill_type_slots ty (TypeConfig.count config)
                (range (TypeConfig.count config)) sel w)
      as (ss1 & E1 & C1 & L1 & F1).
    destruct (IH (Run.finish_sel sel ss1)
                 (Run.finish_world db subject_id focus weak w ss1))
      as (ss2 & E2 & C2 & L2 & F2).
    exists (ss1 ++ ss2). cbn [World.foldM]. unfold World.bind.
    unfold fill_type at 1. rewrite E1.
    unfold Run.finish_sel, Run.finish_world in *. rewrite !fold_left_app.
    split; [exact E2|]. split; [|split].
    + apply chained_app. split; assumption.
    + rewrite length_app, L1, L2. reflexivity.
    + apply Forall_app. split.
      * eapply Forall_impl; [|exact F1]. intros s [T [i [Hi G]]].
        exists config, i. rewrite T. split; [now left|]. now split.
      * eapply Forall_impl; [|exact F2]. intros s (c & i & Hc & Hi & G).
        exists c, i. split; [now right|]. now split.
Qed.

Lemma finish_sel_picks (sel : Selection) (ss : list Slot.t) :
  Run.finish_sel sel ss
  = (fst sel ++ Run.picks ss, snd sel ++ map Question.id (Run.picks ss)).
Proof.
  unfold Run.finish_sel, Run.picks. revert sel.
  induction ss as [|s ss IH]; intro sel; simpl.
  - rewrite !app_nil_r. now destruct sel.
  - rewrite IH. unfold Run.after_sel.
    destruct (Slot.pick s) as [x|]; simpl; [|reflexivity].
    now rewrite <- !app_assoc.
Qed.

Lemma finish_world_eq (w : World.t) (ss : list Slot.t) :
  Run.finish_world db subject_id focus weak w ss
  = World.mk (World.tape w)
      (World.cursor w
       + (if Run.drawn focus weak then List.length ss else 0)
       + List.length (Run.picks ss))%nat
      (World.queries w ++ flat_map (Run.queries db subject_id weak) ss).
Proof.
  unfold Run.finish_world, Run.picks. revert w.
  induction ss as [|s ss IH]; intro w; simpl.
  - rewrite app_nil_r. destruct w. simpl. f_equal.
    destruct (Run.drawn focus weak); lia.
  - rewrite IH. unfold Run.after_world.
    cbn [World.tape World.cursor World.queries].
    rewrite <- app_assoc. f_equal.
    destruct (Slot.pick s), (Run.drawn focus weak); simpl; lia.
Qed.

End Slots.

Lemma picks_length (ss : list Slot.t) :
  (List.length (Run.picks ss) <= List.length ss)%nat.
Proof.
  unfold Run.picks. induction ss as [|s ss IH]; simpl; [lia|].
  rewrite length_app. destruct (Slot.pick s); simpl; lia.
Qed.

Lemma chained_valid (db : DatabaseManager.t) (subject_id : Z) (focus : bool)
      (weak : list Z) (ss : list Slot.t) (sel : Selection) :
  Run.chained db subject_id focus weak sel ss ->
  Forall (Run.valid db subject_id focus weak) ss.
Proof.
  revert sel. induction ss as [|s ss IH]; intros sel H; [constructor|].
  destruct H as (_ & V & C). constructor; [assumption | now apply IH with
    (Run.after_sel sel s)].
Qed.

Lemma queries_length (db : DatabaseManager.t) (subject_id : Z)
      (weak : list Z) (ss : list Slot.t) :
  (List.length ss
   <= List.length (flat_map (Run.queries db subject_id weak) ss)
   <= 2 * List.length ss)%nat.
Proof.
  induction ss as [|s ss IH]; simpl; [lia|]. rewrite length_app.
  assert (1 <= List.length (Run.queries db subject_id weak s) <= 2)%nat.
  { unfold Run.queries. destruct (Slot.use_weakness s); simpl; [|lia].
    destruct (DatabaseManager.search_questions db _); simpl; lia. }
  lia.
Qed.

(** The run of the generator as a sequence of slots. *)
Lemma generate_slots (db : DatabaseManager.t)
      (student_id subject_id total_score : Z) (focus : bool) (level : string)
      (distribution : option (list (string * TypeConfig.t))) (w : World.t) :
  exists ws ss exam,
    analyze_student_weaknesses db student_id (Some subject_id) = Ok ws
    /\ generate_targeted_exam db student_id subject_id total_score focus
         level distribution w
       = Ok (exam,
             Run.finish_world db subject_id focus
               (map Weakness.knowledge_point_id (firstn 15 ws)) w ss)
    /\ assembled ws (Run.picks ss, map Question.id (Run.picks ss)) exam
    /\ Run.chained db subject_id focus
         (map Weakness.knowledge_point_id (firstn 15 ws)) ([], []) ss
    /\ List.length ss
       = slot_count
           (match distribution with
            | None => _get_default_distribution db subject_id total_score
            | Some d => d
            end)
    /\ Forall
         (of_template
            (match distribution with
             | None => _get_default_distribution db subject_id total_score
             | Some d => d
             end)
            (_get_difficulty_target level)) ss.
Proof.
  assert (Ha := WeaknessProofs.analyze_student_weaknesses_eq
                  db student_id (Some subject_id)).
  set (ws := Py.sort by_mastery _) in Ha.
  set (weak := map Weakness.knowledge_point_id (firstn 15 ws)).
  destruct (template_slots db subject_id focus weak
              (_get_difficulty_target level)
              (match distribution with
               | None => _get_default_distribution db subject_id total_score
               | Some d => d
               end) ([], []) w) as (ss & E & C & L & F).
  destruct (generate_from_selection db student_id subject_id total_score
              focus level distribution w _ ws _ Ha E) as (exam & R & A).
  rewrite finish_sel_picks in A. simpl in A.
  exists ws, ss, exam. fold weak.
  split; [exact Ha|]. split; [exact R|]. split; [exact A|].
  split; [exact C|]. split; [exact L | exact F].
Qed.

Lemma difficulty_target_values (level : string) :
  _get_difficulty_target level = 0.3%Q
  \/ _get_difficulty_target level = 0.5%Q
  \/ _get_difficulty_target level = 0.7%Q.
Proof.
  unfold _get_difficulty_target.
  destruct (String.eqb level "easy"); [now left|].
  destruct (String.eqb level "medium"); [now right; left|].
  destruct (String.eqb level "hard"); [now right; right | now right; left].
Qed.

Lemma In_range (i n : Z) : In i (range n) <-> 0 <= i < n.
Proof.
  unfold range. rewrite in_map_iff. split.
  - intros [k [<- Hk]]. apply in_seq in Hk. lia.
  - intro H. exists (Z.to_nat i). split; [lia|]. apply in_seq. lia.
Qed.

Lemma difficulty_target_between (base : Q) (i n : Z) (t : Q) :
  (-0.1 <= base)%Q -> (base <= 1.1)%Q -> In i (range n) ->
  _get_question_difficulty_target i n base = Ok t ->
  (Qmax 0.1 (base - 0.2) <= t)%Q /\ (t <= Qmin 0.9 (base + 0.2))%Q.
Proof.
  intros L U Hi Ht. apply In_range in Hi.
  rewrite difficulty_target_eq in Ht by lia. injection Ht as <-.
  assert (G := gradient_span base L U).
  set (lo := Qmax 0.1 (base - 0.2)) in *.
  set (hi := Qmin 0.9 (base + 0.2)) in *.
  assert (P0 : (0 <= inject_Z i / inject_Z n)%Q).
  { apply Qle_shift_div_l.
    - change 0%Q with (inject_Z 0). rewrite <- Zlt_Qlt. lia.
    - rewrite Qmult_0_l. change 0%Q with (inject_Z 0). rewrite <- Zle_Qle.
      lia. }
  assert (P1 : (inject_Z i / inject_Z n <= 1)%Q).
  { apply Qle_shift_div_r.
    - change 0%Q with (inject_Z 0). rewrite <- Zlt_Qlt. lia.
    - rewrite Qmult_1_l. rewrite <- Zle_Qle. lia. }
  set (p := (inject_Z i / inject_Z n)%Q) in *.
  assert (M0 : (0 <= (hi - lo) * p)%Q) by (apply Qmult_le_0_compat; lra).
  assert (M1 : ((hi - lo) * p <= (hi - lo) * 1)%Q).
  { rewrite !(Qmult_comm (hi - lo)). apply Qmult_le_compat_r; lra. }
  split; lra.
Qed.

(** X5.  When the search restricted to the target knowledge points has
    candidates, [_select_question] issues that search only, draws once, and
    returns one of its candidates, a question linked to a target knowledge
    point. *)
Theorem select_question_prefers_weak (db : DatabaseManager.t)
        (subject_id : Z) (question_type : string) (range : Q * Q)
        (exclude_ids : option (list Z)) (ids : list Z) (w : World.t) :
  ids <> [] ->
  let f := base_filters subject_id question_type range exclude_ids in
  DatabaseManager.search_questions db (with_kps f ids) <> [] ->
  exists x,
    _select_question db subject_id question_type (Some ids) range
                     exclude_ids w
    = Ok (Some x, World.advance (logged w [with_kps f ids]))
    /\ In x (DatabaseManager.search_questions db (with_kps f ids))
    /\ linked db x ids.
Proof.
  intros Hids f Hsome.
  assert (R := select_restricted db subject_id question_type range
                 exclude_ids ids w Hids).
  cbv zeta in R. fold f in R.
  destruct (DatabaseManager.search_questions db (with_kps f ids))
    as [|c cs] eqn:E; [contradiction|].
  destruct R as [x [Hx R]]. exists x. split; [exact R|].
  split; [exact Hx|].
  apply search_questions_linked with (with_kps f ids);
    [reflexivity | assumption | now rewrite E].
Qed.

Lemma select_question_prefers_weak_witness :
  let f := base_filters 1 "选择题" (0.2, 0.6)%Q (Some []) in
  exists x,
    _select_question Scenarios.school 1 "选择题" (Some [1]) (0.2, 0.6)%Q
                     (Some []) Scenarios.world0
    = Ok (Some x, World.advance (logged Scenarios.world0 [with_kps f [1]]))
    /\ In x (DatabaseManager.search_questions Scenarios.school
               (with_kps f [1]))
    /\ linked Scenarios.school x [1].
Proof.
  apply (select_question_prefers_weak Scenarios.school 1 "选择题"
           (0.2, 0.6)%Q (Some []) [1] Scenarios.world0).
  - discriminate.
  - vm_compute. discriminate.
Defined.

(** X6.  [actual_count] is the length of the list of questions, and it
    never exceeds the number of slots of the template (the sum of the
    positive counts): a slot adds at most one question. *)
Theorem exam_size_bounded (db : DatabaseManager.t)
        (student_id subject_id total_score : Z) (focus_on_weaknesses : bool)
        (difficulty_level : string)
        (question_distribution : option (list (string * TypeConfig.t)))
        (w : World.t) :
  exists exam w',
    generate_targeted_exam db student_id subject_id total_score
      focus_on_weaknesses difficulty_level question_distribution w
    = Ok (exam, w')
    /\ GeneratedExam.actual_count exam
       = len (GeneratedExam.questions exam)
    /\ GeneratedExam.actual_count exam
       <= Z.of_nat
            (slot_count
               (match question_distribution with
                | None => _get_default_distribution db subject_id total_score
                | Some d => d
                end)).
Proof.
  destruct (generate_slots db student_id subject_id total_score
              focus_on_weaknesses difficulty_level question_distribution w)
    as (ws & ss & exam & Ha & R & A & C & L & F).
  eexists. eexists. split; [exact R|].
  rewrite (assembled_questions A), (assembled_count A). simpl fst.
  split; [reflexivity|]. unfold len. rewrite <- L.
  apply inj_le, picks_length.
Qed.

(** X7.  A run leaves the earlier queries in place and issues at least one
    and at most two searches per slot; it consumes at most two random
    draws per slot and does not alter the random source. *)
Theorem query_and_draw_budget (db : DatabaseManager.t)
        (student_id subject_id total_score : Z) (focus_on_weaknesses : bool)
        (difficulty_level : string)
        (question_distribution : option (list (string * TypeConfig.t)))
        (w : World.t) :
  let slots :=
    slot_count
      (match question_distribution with
       | None => _get_default_distribution db subject_id total_score
       | Some d => d
       end) in
  exists exam w' qs,
    generate_targeted_exam db student_id subject_id total_score
      focus_on_weaknesses difficulty_level question_distribution w
    = Ok (exam, w')
    /\ World.tape w' = World.tape w
    /\ World.queries w' = World.queries w ++ qs
    /\ (slots <= List.length qs <= 2 * slots)%nat
    /\ (World.cursor w <= World.cursor w' <= World.cursor w + 2 * slots)%nat.
Proof.
  intro slots.
  destruct (generate_slots db student_id subject_id total_score
              focus_on_weaknesses difficulty_level question_distribution w)
    as (ws & ss & exam & Ha & R & A & C & L & F).
  rewrite finish_world_eq in R. fold slots in L.
  eexists. eexists. eexists. split; [exact R|].
  cbn [World.tape World.cursor World.queries].
  split; [reflexivity|]. split; [reflexivity|]. rewrite <- L.
  split; [apply queries_length|].
  assert (P := picks_length ss).
  destruct (Run.drawn focus_on_weaknesses _); lia.
Qed.

Lemma unrestricted_queries (db : DatabaseManager.t) (subject_id : Z)
      (weak : list Z) (ss : list Slot.t) :
  Forall (fun s => Slot.use_weakness s = false) ss ->
  flat_map (Run.queries db subject_id weak) ss
  = map (Run.filters subject_id) ss.
Proof.
  induction 1 as [|s ss Hs _ IH]; simpl; [reflexivity|].
  rewrite IH. unfold Run.queries. now rewrite Hs.
Qed.

(** X8.  Without focus on weaknesses, or when the ranking is empty, a run
    issues exactly one search per slot, none of them restricted to
    knowledge points, and the random source is consulted once per selected
    question and not otherwise. *)
Theorem unfocused_run (db : DatabaseManager.t)
        (student_id subject_id total_score : Z) (focus_on_weaknesses : bool)
        (difficulty_level : string)
        (question_distribution : option (list (string * TypeConfig.t)))
        (w : World.t) :
  exists weaknesses exam w' qs,
    analyze_student_weaknesses db student_id (Some subject_id)
    = Ok weaknesses
    /\ generate_targeted_exam db student_id subject_id total_score
         focus_on_weaknesses difficulty_level question_distribution w
       = Ok (exam, w')
    /\ World.queries w' = World.queries w ++ qs
    /\ (focus_on_weaknesses = false \/ weaknesses = [] ->
        List.length qs
        = slot_count
            (match question_distribution with
             | None => _get_default_distribution db subject_id total_score
             | Some d => d
             end)
        /\ Forall (fun f => Filters.knowledge_point_ids f = None) qs
        /\ World.cursor w'
           = (World.cursor w
              + List.length (GeneratedExam.questions exam))%nat).
Proof.
  destruct (generate_slots db student_id subject_id total_score
              focus_on_weaknesses difficulty_level question_distribution w)
    as (ws & ss & exam & Ha & R & A & C & L & F).
  rewrite finish_world_eq in R.
  exists ws. eexists. eexists. eexists. split; [exact Ha|].
  split; [exact R|]. cbn [World.tape World.cursor World.queries].
  split; [reflexivity|]. intro H.
  assert (D : Run.drawn focus_on_weaknesses
                (map Weakness.knowledge_point_id (firstn 15 ws)) = false).
  { unfold Run.drawn. destruct H as [-> | ->]; [reflexivity|].
    simpl. apply andb_false_r. }
  assert (U : Forall (fun s => Slot.use_weakness s = false) ss).
  { apply chained_valid in C. eapply Forall_impl; [|exact C].
    intros s [V _]. destruct (Slot.use_weakness s); [|reflexivity].
    rewrite D in V. now specialize (V eq_refl). }
  rewrite (unrestricted_queries _ _ _ _ U), D.
  rewrite length_map, (assembled_questions A). simpl fst.
  split; [exact L|]. split; [|lia].
  apply Forall_map. apply Forall_forall. intros s _. reflexivity.
Qed.

Lemma candidates_search (db : DatabaseManager.t) (subject_id : Z)
      (weak : list Z) (s : Slot.t) (x : Question.t) :
  In x (Run.candidates db subject_id weak s) ->
  exists f,
    In x (DatabaseManager.search_questions db f)
    /\ Filters.subject_id f = Some subject_id
    /\ Filters.question_type f = Some (Slot.q_type s)
    /\ Filters.min_difficulty f = Some (Slot.target s - 0.15)%Q
    /\ Filters.max_difficulty f = Some (Slot.target s + 0.15)%Q.
Proof.
  unfold Run.candidates. intro H.
  destruct (Slot.use_weakness s).
  - destruct (DatabaseManager.search_questions db
                (with_kps (Run.filters subject_id s) weak)) as [|c cs] eqn:E.
    + exists (Run.filters subject_id s). now repeat split.
    + exists (with_kps (Run.filters subject_id s) weak).
      rewrite E. now repeat split.
  - exists (Run.filters subject_id s). now repeat split.
Qed.

(** X9.  Every question of a generated exam is a row of the bank, belongs
    to the requested subject (when non-zero), has the type of an entry of
    the template (when that type is non-empty), and has a difficulty
    between [max(0.1, base - 0.2) - 0.15] and [min(0.9, base + 0.2) + 0.15],
    where [base] is the target of the difficulty level. *)
Theorem selected_questions_fit (db : DatabaseManager.t)
        (student_id subject_id total_score : Z) (focus_on_weaknesses : bool)
        (difficulty_level : string)
        (question_distribution : option (list (string * TypeConfig.t)))
        (w : World.t) :
  let base := _get_difficulty_target difficulty_level in
  exists exam w',
    generate_targeted_exam db student_id subject_id total_score
      focus_on_weaknesses difficulty_level question_distribution w
    = Ok (exam, w')
    /\ Forall
         (fun q =>
            In q (DatabaseManager.questions db)
            /\ (subject_id <> 0 -> Question.subject_id q = subject_id)
            /\ (exists ty config,
                   In (ty, config)
                      (match question_distribution with
                       | None =>
                           _get_default_distribution db subject_id
                                                     total_score
                       | Some d => d
                       end)
                   /\ (ty <> "" -> Question.question_type q = ty))
            /\ (Qmax 0.1 (base - 0.2) - 0.15 <= Question.difficulty q)%Q
            /\ (Question.difficulty q <= Qmin 0.9 (base + 0.2) + 0.15)%Q)
         (GeneratedExam.questions exam).
Proof.
  intro base.
  destruct (generate_slots db student_id subject_id total_score
              focus_on_weaknesses difficulty_level question_distribution w)
    as (ws & ss & exam & Ha & R & A & C & L & F).
  eexists. eexists. split; [exact R|].
  rewrite (assembled_questions A). simpl fst.
  apply chained_valid in C. apply Forall_forall. intros x Hx.
  unfold Run.picks in Hx. apply in_flat_map in Hx.
  destruct Hx as (s & Hs & Hx).
  rewrite Forall_forall in C, F. specialize (C s Hs). specialize (F s Hs).
  destruct C as [_ V]. destruct (Slot.pick s) as [y|]; [|destruct Hx].
  destruct Hx as [<-|[]].
  apply candidates_search in V.
  destruct V as (f & Hf & F1 & F2 & F3 & F4).
  apply search_questions_In in Hf. destruct Hf as [Hr Hw].
  apply In_from_rows in Hr. destruct Hr as [Hq _].
  apply where_question_meets in Hw. destruct Hw as (M1 & M2 & M3 & M4 & _).
  destruct F as (config & i & Hc & Hi & Ht).
  assert (B : (-0.1 <= base /\ base <= 1.1)%Q).
  { unfold base.
    destruct (difficulty_target_values difficulty_level) as [E|[E|E]];
      rewrite E; split; lra. }
  destruct B as [B1 B2].
  destruct (difficulty_target_between base i _ _ B1 B2 Hi Ht) as [T1 T2].
  specialize (M3 _ F3). specialize (M4 _ F4).
  split; [assumption|]. split; [intro N; now apply (M1 _ F1)|].
  split; [|split; lra].
  exists (Slot.q_type s), config. split; [assumption|].
  intro N. now apply (M2 _ F2).
Qed.

(** *** A bank without candidates *)

(** A slot all of whose searches return no row selects nothing, and
    conversely. *)
Lemma slot_without_candidates (db : DatabaseManager.t) (subject_id : Z)
      (focus : bool) (weak : list Z) (s : Slot.t) :
  Run.valid db subject_id focus weak s ->
  (Forall (fun f => DatabaseManager.search_questions db f = [])
          (Run.queries db subject_id weak s)
   <-> Slot.pick s = None).
Proof.
  intros [_ V]. unfold Run.queries, Run.candidates in *.
  destruct (Slot.use_weakness s).
  - destruct (DatabaseManager.search_questions db
                (with_kps (Run.filters subject_id s) weak))
      as [|c cs] eqn:E.
    + split.
      * intro F. inversion F as [|f1 l1 _ F1]; subst.
        inversion F1 as [|f2 l2 E2 _]; subst.
        destruct (Slot.pick s) as [x|]; [|reflexivity].
        rewrite E2 in V. destruct V.
      * intro P. rewrite P in V. repeat constructor; assumption.
    + split.
      * intro F. inversion F as [|f1 l1 E1 _]; subst.
        rewrite E in E1. discriminate E1.
      * intro P. rewrite P in V. discriminate V.
  - split.
    + intro F. inversion F as [|f1 l1 E1 _]; subst.
      destruct (Slot.pick s) as [x|]; [|reflexivity].
      rewrite E1 in V. destruct V.
    + intro P. rewrite P in V. repeat constructor. assumption.
Qed.

Lemma run_without_candidates (db : DatabaseManager.t) (subject_id : Z)
      (focus : bool) (weak : list Z) (ss : list Slot.t) :
  Forall (Run.valid db subject_id focus weak) ss ->
  (Forall (fun f => DatabaseManager.search_questions db f = [])
          (flat_map (Run.queries db subject_id weak) ss)
   <-> Run.picks ss = []).
Proof.
  induction 1 as [|s ss V _ IH]; simpl.
  - split; [reflexivity | constructor].
  - rewrite Forall_app, IH,
      (slot_without_candidates db subject_id focus weak s V).
    unfold Run.picks. simpl. destruct (Slot.pick s) as [x|]; simpl.
    + split; [now intros [P _] | discriminate].
    + tauto.
Qed.

(** C6.  Every run returns normally, and when each search it issued (the
    searches logged in the trace of the world during the run) returned no
    candidate, the exam has an empty list of questions, a count and an
    actual total score of 0, and a recommendation list that consists of
    the message flagging the bank as insufficient.  Conversely an exam
    without questions is only returned when every issued search was
    empty. *)
Theorem C6_empty_bank (db : DatabaseManager.t)
        (student_id subject_id total_score : Z) (focus_on_weaknesses : bool)
        (difficulty_level : string)
        (question_distribution : option (list (string * TypeConfig.t)))
        (w : World.t) :
  exists exam w' issued,
    generate_targeted_exam db student_id subject_id total_score
      focus_on_weaknesses difficulty_level question_distribution w
    = Ok (exam, w')
    /\ World.queries w' = World.queries w ++ issued
    /\ (Forall (fun f => DatabaseManager.search_questions db f = []) issued ->
        GeneratedExam.questions exam = []
        /\ GeneratedExam.actual_count exam = 0
        /\ (GeneratedExam.total_score exam == 0)%Q
        /\ GeneratedExam.recommendations exam = [insufficient]
        /\ GeneratedExam.recommendations exam <> [])
    /\ (GeneratedExam.questions exam = [] ->
        Forall (fun f => DatabaseManager.search_questions db f = []) issued).
Proof.
  destruct (generate_slots db student_id subject_id total_score
              focus_on_weaknesses difficulty_level question_distribution w)
    as (ws & ss & exam & Ha & R & A & C & L & F).
  rewrite finish_world_eq in R. apply chained_valid in C.
  assert (E := run_without_candidates db subject_id focus_on_weaknesses
                 _ ss C).
  eexists. eexists. eexists. split; [exact R|].
  cbn [World.queries]. split; [reflexivity|]. split.
  - intro Hq. apply E in Hq.
    rewrite (assembled_questions A), (assembled_count A),
      (assembled_total A). cbn [fst].
    rewrite (assembled_insufficient A Hq), Hq.
    repeat split; try reflexivity. discriminate.
  - rewrite (assembled_questions A). cbn [fst]. intro Hq. now apply E.
Qed.

Lemma C6_empty_bank_witness :
  exists exam w',
    generate_targeted_exam Scenarios.bank_true_false 1 1 150 true "medium"
                           None Scenarios.world0
    = Ok (exam, w')
    /\ List.length (World.queries w') = 44%nat
    /\ GeneratedExam.questions exam = []
    /\ GeneratedExam.actual_count exam = 0
    /\ (GeneratedExam.total_score exam == 0)%Q
    /\ GeneratedExam.recommendations exam = [insufficient]
    /\ GeneratedExam.recommendations exam <> [].
Proof.
  destruct (C6_empty_bank Scenarios.bank_true_false 1 1 150 true "medium"
                          None Scenarios.world0)
    as (exam & w' & issued & R & Q & H & _).
  exists exam, w'. split; [exact R|].
  assert (R' := R). vm_compute in R'. injection R' as _ Ew.
  rewrite <- Ew in Q. unfold Scenarios.world0 in Q.
  cbn [World.queries app] in Q. subst issued.
  split; [now rewrite <- Ew|]. apply H.
  repeat (constructor; [vm_compute; reflexivity|]). constructor.
Defined.

End RunProofs.

(* ================================================================== *)
(** ** What the weakness analysis counts *)

Module TallyProofs.
Import WeaknessAnalysisService WeaknessFacts TallyFacts PyFacts.
Import GeneratorProofs.

Lemma In_update {V} (d : list (Z * V)) (k0 : Z) (f : V -> V) (k : Z)
      (v' : V) :
  In (k, v') (update d k0 f) <->
  exists v, In (k, v) d /\ v' = if k =? k0 then f v else v.
Proof.
  unfold update. rewrite in_map_iff. split.
  - intros [[k1 v1] [E H]]. simpl in E.
    destruct (k1 =? k0) eqn:B; injection E as <- <-;
      exists v1; rewrite B; auto.
  - intros [v [H ->]]. exists (k, v). simpl. split; [|assumption].
    now destruct (k =? k0).
Qed.

Lemma attempted_app (k : Z) (l m : list (Z * bool)) :
  attempted k (l ++ m) = attempted k l + attempted k m.
Proof.
  unfold attempted, len. rewrite filter_app, length_app. lia.
Qed.

Lemma succeeded_app (k : Z) (l m : list (Z * bool)) :
  succeeded k (l ++ m) = succeeded k l + succeeded k m.
Proof.
  unfold succeeded, len. rewrite filter_app, length_app. lia.
Qed.

Lemma attempted_none (k : Z) (l : list (Z * bool)) :
  ~ In k (map fst l) -> attempted k l = 0 /\ succeeded k l = 0.
Proof.
  intro N. unfold attempted, succeeded.
  rewrite !filter_none; [now split | |]; intros e He.
  - destruct (Z.eqb_spec (fst e) k) as [E|E]; [|reflexivity].
    exfalso. apply N. rewrite <- E. now apply in_map.
  - destruct (Z.eqb_spec (fst e) k) as [E|E]; [|reflexivity].
    exfalso. apply N. rewrite <- E. now apply in_map.
Qed.

Lemma attempted_some (k : Z) (l : list (Z * bool)) :
  In k (map fst l) -> 1 <= attempted k l.
Proof.
  intro H. apply in_map_iff in H. destruct H as [e [E He]].
  unfold attempted, len.
  assert (I : In e (filter (fun e => fst e =? k) l)).
  { apply filter_In. split; [assumption|]. now apply Z.eqb_eq. }
  destruct (filter (fun e => fst e =? k) l); [destruct I | simpl; lia].
Qed.

Lemma succeeded_le (k : Z) (l : list (Z * bool)) :
  0 <= succeeded k l <= attempted k l.
Proof.
  unfold succeeded, attempted, len.
  induction l as [|e l IH]; simpl; [lia|].
  destruct (fst e =? k); simpl; [|lia]. destruct (snd e); simpl; lia.
Qed.

Lemma tally_counted (subject_id : option Z) (answer : StudentAnswer.t)
      (perf : list (Z * KpData.t)) (kp : KnowledgePoint.t)
      (seen : list (Z * bool)) :
  counted perf seen ->
  counted (tally subject_id answer perf kp)
          (seen ++
           if negb (given subject_id && other_subject subject_id kp)
           then [(KnowledgePoint.id kp, StudentAnswer.is_correct answer)]
           else []).
Proof.
  intros [C K]. unfold tally.
  destruct (given subject_id && other_subject subject_id kp); simpl negb;
    cbv iota; [rewrite app_nil_r; now split|].
  set (k0 := KnowledgePoint.id kp).
  set (c := StudentAnswer.is_correct answer).
  set (init := KpData.mk k0 (KnowledgePoint.name kp)
                 (KnowledgePoint.subject_id kp) (KnowledgePoint.level kp)
                 0 0).
  set (p1 := if negb (contains perf k0) then setitem perf k0 init else perf).
  assert (P1 : forall k d, In (k, d) p1 ->
             KpData.total_attempts d = attempted k seen
             /\ KpData.correct_attempts d = succeeded k seen).
  { intros k d H. unfold p1, setitem in H.
    destruct (contains perf k0) eqn:B; simpl in H; [now apply C|].
    apply in_app_iff in H. destruct H as [H|[[= <- <-]|[]]]; [now apply C|].
    rewrite contains_keys in B. apply in_list_false in B.
    rewrite K in B. destruct (attempted_none k0 seen B) as [-> ->].
    now split. }
  assert (K1 : forall k, In k (map fst p1) <-> In k (map fst perf) \/ k = k0).
  { intro k. unfold p1, setitem. rewrite contains_keys.
    destruct (in_list k0 (map fst perf)) eqn:B; simpl.
    - apply in_list_iff in B. split; [now left|]. intros [H| ->]; assumption.
    - rewrite map_app, in_app_iff. simpl. intuition. }
  assert (Fin : counted
    (if c then update (update p1 k0 add_attempt) k0 add_correct
     else update p1 k0 add_attempt) (seen ++ [(k0, c)])).
  { split.
    - intros k d H. rewrite attempted_app, succeeded_app.
      unfold attempted at 2, succeeded at 2. simpl.
      rewrite (Z.eqb_sym k0 k).
      destruct c.
      + apply In_update in H. destruct H as [d2 [H ->]].
        apply In_update in H. destruct H as [d1 [H ->]].
        destruct (P1 k d1 H) as [<- <-].
        destruct (k =? k0); simpl; unfold len; simpl; split; lia.
      + apply In_update in H. destruct H as [d1 [H ->]].
        destruct (P1 k d1 H) as [<- <-].
        destruct (k =? k0); simpl; unfold len; simpl; split; lia.
    - intro k. rewrite map_app, in_app_iff. simpl.
      destruct c; rewrite ?keys_update, K1, K; intuition. }
  exact Fin.
Qed.

Lemma tally_loop_counted (subject_id : option Z) (answer : StudentAnswer.t)
      (kps : list KnowledgePoint.t) (perf : list (Z * KpData.t))
      (seen : list (Z * bool)) :
  counted perf seen ->
  counted (fold_left (tally subject_id answer) kps perf)
          (seen ++
           map (fun kp =>
                  (KnowledgePoint.id kp, StudentAnswer.is_correct answer))
               (filter
                  (fun kp =>
                     negb (given subject_id && other_subject subject_id kp))
                  kps)).
Proof.
  revert perf seen. induction kps as [|kp kps IH]; intros perf seen H; simpl.
  - now rewrite app_nil_r.
  - apply (tally_counted subject_id answer perf kp) in H.
    apply IH in H.
    destruct (negb (given subject_id && other_subject subject_id kp));
      simpl; [now rewrite <- app_assoc in H | now rewrite app_nil_r in H].
Qed.

Lemma performance_counted_from (db : DatabaseManager.t)
      (subject_id : option Z) (answers : list StudentAnswer.t)
      (perf : list (Z * KpData.t)) (seen : list (Z * bool)) :
  counted perf seen ->
  counted
    (fold_left
       (fun perf answer =>
          fold_left (tally subject_id answer)
            (DatabaseManager.get_question_knowledge_points db
               (StudentAnswer.question_id answer))
            perf)
       answers perf)
    (seen ++ attempts_of db subject_id answers).
Proof.
  revert perf seen. induction answers as [|a l IH]; intros perf seen H; simpl.
  - now rewrite app_nil_r.
  - apply (tally_loop_counted subject_id a
             (DatabaseManager.get_question_knowledge_points db
                (StudentAnswer.question_id a))) in H.
    apply IH in H. now rewrite <- app_assoc in H.
Qed.

(** The counters of [kp_performance] are the numbers of tallied attempts. *)
Lemma performance_counted (db : DatabaseManager.t) (subject_id : option Z)
      (answers : list StudentAnswer.t) :
  counted (performance db subject_id answers)
          (attempts_of db subject_id answers).
Proof.
  apply (performance_counted_from db subject_id answers [] []).
  split; [intros k d [] | intro k; reflexivity].
Qed.

Lemma encounters_attempts (db : DatabaseManager.t) (student_id : Z)
      (subject_id : option Z) :
  encounters db student_id subject_id
  = map fst (attempts db student_id subject_id).
Proof.
  unfold encounters, attempts, attempts_of.
  induction (DatabaseManager.get_student_all_answers db student_id)
    as [|a l IH]; simpl; [reflexivity|].
  rewrite map_app, IH, map_map. reflexivity.
Qed.

Lemma set_add_loop_NoDup (l acc : list Z) :
  NoDup acc -> NoDup (fold_left set_add l acc).
Proof.
  revert acc. induction l as [|x l IH]; intros acc H; simpl; [assumption|].
  now apply IH, NoDup_set_add.
Qed.

Lemma performance_keyed (db : DatabaseManager.t) (subject_id : option Z)
      (answers : list StudentAnswer.t) :
  Forall keyed (performance db subject_id answers).
Proof.
  unfold performance.
  destruct (WeaknessProofs.performance_loop db subject_id answers [])
    as [K _].
  apply K. constructor.
Qed.

(** A property of the initial entries that counting keeps holds for every
    entry of [kp_performance]. *)
Lemma performance_entries (db : DatabaseManager.t) (subject_id : option Z)
      (P : KpData.t -> Prop) (answers : list StudentAnswer.t) :
  (forall d, P d -> P (add_attempt d) /\ P (add_correct d)) ->
  (forall kp,
      given subject_id && other_subject subject_id kp = false ->
      P (KpData.mk (KnowledgePoint.id kp) (KnowledgePoint.name kp)
                   (KnowledgePoint.subject_id kp) (KnowledgePoint.level kp)
                   0 0)) ->
  Forall (fun e => P (snd e)) (performance db subject_id answers).
Proof.
  intros Hstep Hinit. unfold performance.
  assert (U : forall d k f, (forall v, P v -> P (f v)) ->
                Forall (fun e : Z * KpData.t => P (snd e)) d ->
                Forall (fun e => P (snd e)) (update d k f)).
  { intros d k f Hf H. unfold update. apply Forall_map.
    eapply Forall_impl; [|exact H]. intros e He.
    destruct (fst e =? k); [simpl; now apply Hf | assumption]. }
  assert (T : forall a kp perf,
                Forall (fun e => P (snd e)) perf ->
                Forall (fun e => P (snd e)) (tally subject_id a perf kp)).
  { intros a kp perf H. unfold tally.
    destruct (given subject_id && other_subject subject_id kp) eqn:G;
      [assumption|].
    assert (H1 : Forall (fun e => P (snd e))
      (if negb (contains perf (KnowledgePoint.id kp))
       then setitem perf (KnowledgePoint.id kp)
              (KpData.mk (KnowledgePoint.id kp) (KnowledgePoint.name kp)
                 (KnowledgePoint.subject_id kp) (KnowledgePoint.level kp)
                 0 0)
       else perf)).
    { unfold setitem. destruct (contains perf (KnowledgePoint.id kp));
        simpl; [assumption|].
      apply Forall_app. split; [assumption|]. constructor; [|constructor].
      now apply Hinit. }
    destruct (StudentAnswer.is_correct a); repeat apply U;
      try assumption; intros v Hv; now apply Hstep. }
  assert (L : forall a kps perf,
                Forall (fun e => P (snd e)) perf ->
                Forall (fun e => P (snd e))
                       (fold_left (tally subject_id a) kps perf)).
  { intros a kps. induction kps as [|kp kps IH]; intros perf H; simpl;
      [assumption|]. now apply IH, T. }
  generalize (@nil (Z * KpData.t)) (Forall_nil (fun e : Z * KpData.t => P (snd e))).
  induction answers as [|a l IH]; intros perf H; simpl; [assumption|].
  now apply IH, L.
Qed.

(** Membership in the ranking, read off [kp_performance]. *)
Lemma In_weaknesses (db : DatabaseManager.t) (student_id : Z)
      (subject_id : option Z) (w : Weakness.t) :
  In w (Py.sort by_mastery
          (flat_map (weak_of db)
             (values (performance db subject_id
                (DatabaseManager.get_student_all_answers db student_id)))))
  <-> exists d,
        In (KpData.knowledge_point_id d, d)
           (performance db subject_id
              (DatabaseManager.get_student_all_answers db student_id))
        /\ weak_of db d = [w].
Proof.
  rewrite (In_sort _ Weakness.mastery_rate), in_flat_map.
  unfold values. split.
  - intros [d [Hd Hw]]. exists d. apply in_map_iff in Hd.
    destruct Hd as [[k d'] [E He]]. simpl in E. subst d'.
    assert (K := performance_keyed db subject_id
                   (DatabaseManager.get_student_all_answers db student_id)).
    rewrite Forall_forall in K. specialize (K _ He). unfold keyed in K.
    simpl in K. subst k. split; [assumption|].
    destruct (WeaknessProofs.weak_of_cases db d) as [E | [w' [E _]]];
      rewrite E in Hw |- *; [destruct Hw|]. destruct Hw as [->|[]].
    reflexivity.
  - intros [d [Hd E]]. exists d. split.
    + apply in_map_iff. now exists (KpData.knowledge_point_id d, d).
    + rewrite E. now left.
Qed.

Lemma insert_Permutation {A} (leb : A -> A -> bool) (x : A) (l : list A) :
  Permutation (Py.insert leb x l) (x :: l).
Proof.
  induction l as [|y l IH]; simpl; [reflexivity|].
  destruct (leb x y); [reflexivity|].
  rewrite IH. apply perm_swap.
Qed.

Lemma sort_Permutation {A} (leb : A -> A -> bool) (l : list A) :
  Permutation (Py.sort leb l) l.
Proof.
  induction l as [|x l IH]; simpl; [reflexivity|].
  rewrite insert_Permutation. now constructor.
Qed.

Lemma weak_ids_NoDup (db : DatabaseManager.t) (l : list KpData.t) :
  NoDup (map KpData.knowledge_point_id l) ->
  NoDup (map Weakness.knowledge_point_id (flat_map (weak_of db) l)).
Proof.
  induction l as [|d l IH]; simpl; intro H; [constructor|].
  inversion H as [|k m Hn Hm]; subst.
  destruct (WeaknessProofs.weak_of_cases db d) as [E | [w [E [I _]]]];
    rewrite E; simpl; [now apply IH|].
  constructor; [|now apply IH]. intro C. apply Hn.
  apply in_map_iff in C. destruct C as [w' [E' Hw']].
  apply in_flat_map in Hw'. destruct Hw' as [d' [Hd' Hw']].
  apply in_map_iff. exists d'. split; [|assumption].
  destruct (WeaknessProofs.weak_of_cases db d') as [F | [w'' [F [I' _]]]];
    rewrite F in Hw'; [destruct Hw'|]. destruct Hw' as [->|[]]. congruence.
Qed.

(** X11.  The ranking lists no knowledge point twice; every entry has at
    least one attempt, between 0 and [total_attempts] correct attempts, a
    [mastery_rate] equal to their quotient, and, when a subject is given,
    the subject of the entry is that subject. *)
Theorem weaknesses_well_formed (db : DatabaseManager.t) (student_id : Z)
        (subject_id : option Z) :
  exists weaknesses,
    analyze_student_weaknesses db student_id subject_id = Ok weaknesses
    /\ NoDup (map Weakness.knowledge_point_id weaknesses)
    /\ Forall
         (fun w =>
            1 <= Weakness.total_attempts w
            /\ 0 <= Weakness.correct_attempts w <= Weakness.total_attempts w
            /\ Weakness.mastery_rate w
               = (inject_Z (Weakness.correct_attempts w)
                  / inject_Z (Weakness.total_attempts w))%Q
            /\ (0 <= Weakness.mastery_rate w)%Q
            /\ (forall s, subject_id = Some s -> s <> 0 ->
                          Weakness.subject_id w = s))
         weaknesses.
Proof.
  eexists. split; [apply WeaknessProofs.analyze_student_weaknesses_eq|].
  set (answers := DatabaseManager.get_student_all_answers db student_id).
  split.
  - eapply Permutation_NoDup.
    + apply Permutation_map. symmetry. apply sort_Permutation.
    + apply weak_ids_NoDup. unfold answers.
      rewrite WeaknessProofs.performance_keys.
      apply set_add_loop_NoDup. constructor.
  - apply Forall_forall. intros w Hw. apply In_weaknesses in Hw.
    destruct Hw as [d [Hd E]]. fold answers in Hd.
    destruct (performance_counted db subject_id answers) as [C K].
    destruct (C _ _ Hd) as [Ct Cc].
    assert (S := succeeded_le (KpData.knowledge_point_id d)
                   (attempts_of db subject_id answers)).
    assert (P : Forall
                  (fun e : Z * KpData.t =>
                     forall s, subject_id = Some s -> s <> 0 ->
                               KpData.subject_id (snd e) = s)
                  (performance db subject_id answers)).
    { apply (performance_entries db subject_id
               (fun d => forall s, subject_id = Some s -> s <> 0 ->
                                   KpData.subject_id d = s)).
      - intros d0 H0. split; exact H0.
      - intros kp G s -> Hs. simpl in *.
        assert (Gs : (s =? 0) = false) by (now apply Z.eqb_neq).
        rewrite Gs in G. simpl in G. apply negb_false_iff in G.
        now apply Z.eqb_eq. }
    rewrite Forall_forall in P.
    unfold weak_of in E.
    destruct (KpData.total_attempts d =? 0) eqn:Z0; [discriminate|].
    apply Z.eqb_neq in Z0.
    destruct (Qlt_bool _ 0.65); [|discriminate]. injection E as <-.
    simpl. split; [lia|]. split; [lia|]. split; [reflexivity|]. split.
    + apply Qle_shift_div_l.
      * change 0%Q with (inject_Z 0). rewrite <- Zlt_Qlt. lia.
      * rewrite Qmult_0_l. change 0%Q with (inject_Z 0).
        rewrite <- Zle_Qle. lia.
    + exact (P (KpData.knowledge_point_id d, d) Hd).
Qed.

(** X12.  The counters of an entry of the ranking are the number of times
    its knowledge point was tallied and the number of times it was tallied
    with a correct answer; and a knowledge point is listed exactly when it
    was tallied at least once and its ratio of correct attempts is below
    0.65. *)
Theorem weaknesses_counted (db : DatabaseManager.t) (student_id : Z)
        (subject_id : option Z) :
  let seen := attempts db student_id subject_id in
  exists weaknesses,
    analyze_student_weaknesses db student_id subject_id = Ok weaknesses
    /\ (forall w,
           In w weaknesses ->
           Weakness.total_attempts w
           = attempted (Weakness.knowledge_point_id w) seen
           /\ Weakness.correct_attempts w
              = succeeded (Weakness.knowledge_point_id w) seen)
    /\ (forall k,
           (exists w, In w weaknesses /\ Weakness.knowledge_point_id w = k)
           <-> 1 <= attempted k seen
               /\ (inject_Z (succeeded k seen) / inject_Z (attempted k seen)
                   < 0.65)%Q).
Proof.
  intro seen. eexists.
  split; [apply WeaknessProofs.analyze_student_weaknesses_eq|].
  assert (CK := performance_counted db subject_id
                  (DatabaseManager.get_student_all_answers db student_id)).
  change (attempts_of db subject_id
            (DatabaseManager.get_student_all_answers db student_id))
    with seen in CK.
  set (answers := DatabaseManager.get_student_all_answers db student_id)
    in *.
  destruct CK as [C K].
  assert (W : forall w d,
             In (KpData.knowledge_point_id d, d)
                (performance db subject_id answers) ->
             weak_of db d = [w] ->
             Weakness.knowledge_point_id w = KpData.knowledge_point_id d
             /\ Weakness.total_attempts w
                = attempted (KpData.knowledge_point_id d) seen
             /\ Weakness.correct_attempts w
                = succeeded (KpData.knowledge_point_id d) seen
             /\ 1 <= attempted (KpData.knowledge_point_id d) seen
             /\ (inject_Z (succeeded (KpData.knowledge_point_id d) seen)
                 / inject_Z (attempted (KpData.knowledge_point_id d) seen)
                 < 0.65)%Q).
  { intros w d Hd E. destruct (C _ _ Hd) as [Ct Cc].
    assert (S := succeeded_le (KpData.knowledge_point_id d) seen).
    unfold weak_of in E.
    destruct (KpData.total_attempts d =? 0) eqn:Z0; [discriminate|].
    apply Z.eqb_neq in Z0.
    destruct (Qlt_bool _ 0.65) eqn:B; [|discriminate]. injection E as <-.
    apply Qlt_bool_iff in B. rewrite Ct, Cc in B.
    cbn [Weakness.knowledge_point_id Weakness.total_attempts
         Weakness.correct_attempts].
    split; [reflexivity|]. split; [exact Ct|]. split; [exact Cc|].
    split; [lia | exact B]. }
  split.
  - intros w Hw. apply In_weaknesses in Hw. destruct Hw as [d [Hd E]].
    destruct (W w d Hd E) as (I & T & S & _). rewrite I. now split.
  - intro k. split.
    + intros [w [Hw <-]]. apply In_weaknesses in Hw.
      destruct Hw as [d [Hd E]].
      destruct (W w d Hd E) as (I & _ & _ & A & B). rewrite I. now split.
    + intros [A B].
      assert (Hk : In k (map fst (performance db subject_id answers))).
      { apply K. destruct (in_dec Z.eq_dec k (map fst seen)) as [I|I];
          [assumption|].
        apply attempted_none in I. lia. }
      apply in_map_iff in Hk. destruct Hk as [[k' d] [E Hd]]. simpl in E.
      subst k'.
      assert (Kd := performance_keyed db subject_id answers).
      rewrite Forall_forall in Kd. specialize (Kd _ Hd). unfold keyed in Kd.
      simpl in Kd. subst k.
      destruct (C _ _ Hd) as [Ct Cc].
      assert (E : exists w, weak_of db d = [w]
                            /\ Weakness.knowledge_point_id w
                               = KpData.knowledge_point_id d).
      { unfold weak_of.
        assert (Z0 : (KpData.total_attempts d =? 0) = false)
          by (apply Z.eqb_neq; lia).
        rewrite Z0. rewrite Ct, Cc.
        apply Qlt_bool_iff in B. rewrite B. eexists. split; reflexivity. }
      destruct E as [w [E I]]. exists w. split; [|assumption].
      apply In_weaknesses. now exists d.
Qed.

Lemma stats_keys (d : list (Z * KpData.t)) :
  map fst (map stats_of d) = map fst d.
Proof. rewrite map_map. reflexivity. Qed.

Lemma update_stats (d : list (Z * KpData.t)) (k : Z)
      (f : KpData.t -> KpData.t) (g : Stats.t -> Stats.t) :
  (forall e, snd (stats_of (fst e, f (snd e))) = g (snd (stats_of e))) ->
  map stats_of (update d k f) = update (map stats_of d) k g.
Proof.
  intro H. unfold update. rewrite !map_map. apply map_ext. intro e.
  simpl. destruct (fst e =? k); [|reflexivity].
  unfold stats_of at 1. simpl. f_equal. apply (H e).
Qed.

Lemma tally_stats (answer : StudentAnswer.t) (perf : list (Z * KpData.t))
      (kp : KnowledgePoint.t) :
  map stats_of (tally None answer perf kp)
  = count_attempt answer (map stats_of perf) kp.
Proof.
  unfold tally, count_attempt. simpl andb. cbv iota.
  rewrite !contains_keys, stats_keys.
  assert (E : map stats_of
    (if negb (in_list (KnowledgePoint.id kp) (map fst perf))
     then setitem perf (KnowledgePoint.id kp)
            (KpData.mk (KnowledgePoint.id kp) (KnowledgePoint.name kp)
               (KnowledgePoint.subject_id kp) (KnowledgePoint.level kp) 0 0)
     else perf)
    = if negb (in_list (KnowledgePoint.id kp) (map fst perf))
      then setitem (map stats_of perf) (KnowledgePoint.id kp) (Stats.mk 0 0)
      else map stats_of perf).
  { unfold setitem. rewrite !contains_keys, stats_keys.
    destruct (in_list (KnowledgePoint.id kp) (map fst perf)); simpl;
      [reflexivity|]. now rewrite map_app. }
  destruct (StudentAnswer.is_correct answer).
  - rewrite (update_stats _ _ add_correct
               (fun s => Stats.mk (Stats.correct s + 1) (Stats.total s)))
      by reflexivity.
    rewrite (update_stats _ _ add_attempt
               (fun s => Stats.mk (Stats.correct s) (Stats.total s + 1)))
      by reflexivity.
    now rewrite E.
  - rewrite (update_stats _ _ add_attempt
               (fun s => Stats.mk (Stats.correct s) (Stats.total s + 1)))
      by reflexivity.
    now rewrite E.
Qed.

Lemma kp_stats_performance (db : DatabaseManager.t)
      (answers : list StudentAnswer.t) (perf : list (Z * KpData.t)) :
  fold_left
    (fun stats answer =>
       fold_left (count_attempt answer)
         (DatabaseManager.get_question_knowledge_points db
            (StudentAnswer.question_id answer))
         stats)
    answers (map stats_of perf)
  = map stats_of
      (fold_left
         (fun perf answer =>
            fold_left (tally None answer)
              (DatabaseManager.get_question_knowledge_points db
                 (StudentAnswer.question_id answer))
              perf)
         answers perf).
Proof.
  revert perf. induction answers as [|a l IH]; intro perf; simpl;
    [reflexivity|].
  rewrite <- IH. f_equal.
  generalize (DatabaseManager.get_question_knowledge_points db
                (StudentAnswer.question_id a)).
  intro kps. revert perf. induction kps as [|kp kps IHk]; intro perf; simpl;
    [reflexivity|].
  now rewrite <- tally_stats, IHk.
Qed.

Lemma ratio_loop (perf : list (Z * KpData.t)) (mastery : list (Z * Q)) :
  NoDup (map fst perf) ->
  (forall k, In k (map fst perf) -> ~ In k (map fst mastery)) ->
  Forall (fun e => 1 <= KpData.total_attempts (snd e)) perf ->
  foldM ratio (map stats_of perf) mastery
  = Ok (mastery ++ map mastery_of perf).
Proof.
  revert mastery. induction perf as [|e perf IH]; intros mastery N D T;
    simpl.
  - now rewrite app_nil_r.
  - inversion N as [|k m Hn Hm]; subst. inversion T as [|e' m Te Tm]; subst.
    assert (P : (0 <? KpData.total_attempts (snd e)) = true)
      by (apply Z.ltb_lt; lia).
    rewrite P. rewrite truediv_int by lia. simpl bind.
    assert (S : setitem mastery (fst e)
                  (inject_Z (KpData.correct_attempts (snd e))
                   / inject_Z (KpData.total_attempts (snd e)))%Q
                = mastery ++ [mastery_of e]).
    { unfold setitem. rewrite contains_keys.
      assert (B : in_list (fst e) (map fst mastery) = false).
      { apply in_list_false. apply D. now left. }
      now rewrite B. }
    rewrite S, IH; [now rewrite <- app_assoc | assumption | | assumption].
    intros k Hk. rewrite map_app, in_app_iff. simpl.
    intros [C | [<- | []]]; [|contradiction].
    apply (D k); [now right | assumption].
Qed.

(** The mastery dict, read off [kp_performance] without subject filter. *)
Lemma get_knowledge_point_mastery_eq (db : DatabaseManager.t)
      (student_id : Z) :
  get_knowledge_point_mastery db student_id
  = Ok (map mastery_of
          (performance db None
             (DatabaseManager.get_student_all_answers db student_id))).
Proof.
  unfold get_knowledge_point_mastery.
  set (answers := DatabaseManager.get_student_all_answers db student_id).
  change (@nil (Z * Stats.t)) with (map stats_of []).
  rewrite kp_stats_performance. fold (performance db None answers).
  rewrite ratio_loop; [reflexivity | | intros k _ [] |].
  - assert (K := WeaknessProofs.performance_keys db student_id None).
    assert (Kd := performance_keyed db None answers). fold answers in K.
    unfold values in K. rewrite map_map in K.
    rewrite (map_ext_in fst (fun e => KpData.knowledge_point_id (snd e))).
    + rewrite K. apply set_add_loop_NoDup. constructor.
    + intros e He. rewrite Forall_forall in Kd. symmetry. now apply Kd.
  - destruct (performance_counted db None answers) as [C K].
    apply Forall_forall. intros [k d] He. simpl.
    destruct (C _ _ He) as [-> _]. apply attempted_some, K.
    apply in_map_iff. now exists (k, d).
Qed.

(** X14.  The mastery dict has one key for every knowledge point that was
    tallied at least once and no other key; its value is the number of
    correct attempts divided by the number of attempts, a number between
    0 and 1 (the default 0.5 of the source is never stored). *)
Theorem mastery_counted (db : DatabaseManager.t) (student_id : Z) :
  let seen := attempts db student_id None in
  exists mastery,
    get_knowledge_point_mastery db student_id = Ok mastery
    /\ NoDup (map fst mastery)
    /\ (forall k r,
           In (k, r) mastery
           <-> 1 <= attempted k seen
               /\ r = (inject_Z (succeeded k seen)
                       / inject_Z (attempted k seen))%Q)
    /\ (forall k r, In (k, r) mastery -> (0 <= r)%Q /\ (r <= 1)%Q).
Proof.
  intro seen. eexists. split; [apply get_knowledge_point_mastery_eq|].
  assert (CK := performance_counted db None
                  (DatabaseManager.get_student_all_answers db student_id)).
  change (attempts_of db None
            (DatabaseManager.get_student_all_answers db student_id))
    with seen in CK.
  assert (K0 := WeaknessProofs.performance_keys db student_id None).
  set (answers := DatabaseManager.get_student_all_answers db student_id)
    in *.
  destruct CK as [C K].
  assert (Kd := performance_keyed db None answers).
  assert (N : NoDup (map fst (performance db None answers))).
  { unfold values in K0. rewrite map_map in K0.
    rewrite (map_ext_in fst (fun e => KpData.knowledge_point_id (snd e))).
    - rewrite K0. apply set_add_loop_NoDup. constructor.
    - intros e He. rewrite Forall_forall in Kd. symmetry. now apply Kd. }
  assert (M : forall k r,
             In (k, r) (map mastery_of (performance db None answers))
             <-> 1 <= attempted k seen
                 /\ r = (inject_Z (succeeded k seen)
                         / inject_Z (attempted k seen))%Q).
  { intros k r. rewrite in_map_iff. split.
    - intros [[k' d] [E He]]. unfold mastery_of in E. simpl in E.
      injection E as -> <-. destruct (C _ _ He) as [-> ->].
      split; [|reflexivity]. apply attempted_some, K.
      apply in_map_iff. now exists (k, d).
    - intros [A ->].
      assert (Hk : In k (map fst (performance db None answers))).
      { apply K. destruct (in_dec Z.eq_dec k (map fst seen)) as [I|I];
          [assumption|]. apply attempted_none in I. lia. }
      apply in_map_iff in Hk. destruct Hk as [[k' d] [E He]]. simpl in E.
      subst k'. exists (k, d). split; [|assumption].
      unfold mastery_of. simpl. destruct (C _ _ He) as [-> ->].
      reflexivity. }
  split; [|split; [exact M|]].
  - rewrite map_map. exact N.
  - intros k r H. apply M in H. destruct H as [A ->].
    assert (S := succeeded_le k seen).
    assert (P : (0 < inject_Z (attempted k seen))%Q).
    { change 0%Q with (inject_Z 0). rewrite <- Zlt_Qlt. lia. }
    split.
    + apply Qle_shift_div_l; [assumption|]. rewrite Qmult_0_l.
      change 0%Q with (inject_Z 0). rewrite <- Zle_Qle. lia.
    + apply Qle_shift_div_r; [assumption|]. rewrite Qmult_1_l.
      rewrite <- Zle_Qle. lia.
Qed.

(** X13.  Without subject filter the ranking and the mastery dict agree:
    every entry of the ranking is in the dict with the same rate, and
    every knowledge point of the dict whose rate is below 0.65 is in the
    ranking with that rate. *)
Theorem ranking_agrees_with_mastery (db : DatabaseManager.t)
        (student_id : Z) :
  exists weaknesses mastery,
    analyze_student_weaknesses db student_id None = Ok weaknesses
    /\ get_knowledge_point_mastery db student_id = Ok mastery
    /\ (forall w,
           In w weaknesses ->
           In (Weakness.knowledge_point_id w, Weakness.mastery_rate w)
              mastery)
    /\ (forall k r,
           In (k, r) mastery -> (r < 0.65)%Q ->
           exists w,
             In w weaknesses
             /\ Weakness.knowledge_point_id w = k
             /\ Weakness.mastery_rate w = r).
Proof.
  eexists. eexists.
  split; [apply WeaknessProofs.analyze_student_weaknesses_eq|].
  split; [apply get_knowledge_point_mastery_eq|].
  set (answers := DatabaseManager.get_student_all_answers db student_id).
  destruct (performance_counted db None answers) as [C K].
  split.
  - intros w Hw. apply In_weaknesses in Hw. destruct Hw as [d [Hd E]].
    fold answers in Hd. apply in_map_iff.
    exists (KpData.knowledge_point_id d, d). split; [|assumption].
    unfold weak_of in E.
    destruct (KpData.total_attempts d =? 0); [discriminate|].
    destruct (Qlt_bool _ 0.65); [|discriminate]. injection E as <-.
    reflexivity.
  - intros k r H B. apply in_map_iff in H.
    destruct H as [[k' d] [E He]]. unfold mastery_of in E. simpl in E.
    injection E as -> <-.
    assert (Kd := performance_keyed db None answers).
    rewrite Forall_forall in Kd. assert (Kk := Kd _ He). unfold keyed in Kk.
    simpl in Kk. subst k.
    assert (T : 1 <= KpData.total_attempts d).
    { destruct (C _ _ He) as [-> _]. apply attempted_some, K.
      apply in_map_iff. now exists (KpData.knowledge_point_id d, d). }
    assert (E : exists w, weak_of db d = [w]
                  /\ Weakness.knowledge_point_id w
                     = KpData.knowledge_point_id d
                  /\ Weakness.mastery_rate w
                     = (inject_Z (KpData.correct_attempts d)
                        / inject_Z (KpData.total_attempts d))%Q).
    { unfold weak_of.
      assert (Z0 : (KpData.total_attempts d =? 0) = false)
        by (apply Z.eqb_neq; lia).
      rewrite Z0. apply Qlt_bool_iff in B. rewrite B.
      eexists. repeat split. }
    destruct E as (w & E & I & R). exists w.
    split; [|now split]. apply In_weaknesses. now exists d.
Qed.

End TallyProofs.

(* ================================================================== *)
(** ** The statistics of an exam *)

Module StatsProofs.
Import WeaknessAnalysisService IntelligentExamGenerator GeneratorFacts.
Import StatsFacts PyFacts GeneratorProofs TallyProofs.

Lemma buckets_partition (l : list Q) :
  count_if (fun d => Qlt_bool d 0.4) l
  + count_if (fun d => Qle_bool 0.4 d && Qlt_bool d 0.7) l
  + count_if (fun d => Qle_bool 0.7 d) l
  = len l.
Proof.
  unfold count_if, len. induction l as [|d l IH]; [reflexivity|].
  cbn [filter].
  assert (E : (Qlt_bool d 0.4 = true /\ Qle_bool 0.4 d = false
               /\ Qle_bool 0.7 d = false)
              \/ (Qlt_bool d 0.4 = false /\ Qle_bool 0.4 d = true
                  /\ Qlt_bool d 0.7 = true /\ Qle_bool 0.7 d = false)
              \/ (Qlt_bool d 0.4 = false /\ Qle_bool 0.4 d = true
                  /\ Qlt_bool d 0.7 = false /\ Qle_bool 0.7 d = true)).
  { unfold Qlt_bool.
    destruct (Qle_bool 0.4 d) eqn:A, (Qle_bool 0.7 d) eqn:B; simpl.
    - right. right. repeat split.
    - right. left. repeat split.
    - exfalso. apply Qle_bool_iff in B.
      assert (C : (0.4 <= d)%Q) by lra. apply Qle_bool_iff in C.
      congruence.
    - left. repeat split. }
  destruct E as [(-> & -> & ->) | [(-> & -> & -> & ->) | (-> & -> & -> & ->)]];
    cbn [andb List.length]; lia.
Qed.

(** X10.  The difficulty statistics of an empty list of questions have
    average 0 and a distribution without any key, so that every look-up
    in it raises [KeyError]; those of a non-empty list have exactly the
    keys 简单, 中等 and 困难, in this order, and the three counts are
    non-negative and add up to the number of questions. *)
Theorem difficulty_stats_shape (questions : list Question.t) :
  exists stats,
    _calculate_difficulty_stats questions = Ok stats
    /\ (questions = [] ->
        DifficultyStats.distribution stats = []
        /\ DifficultyStats.average stats = 0%Q
        /\ forall key,
             getitem (DifficultyStats.distribution stats) key
             = Raise KeyError)
    /\ (questions <> [] ->
        exists easy medium hard,
          DifficultyStats.distribution stats
          = [("简单", easy); ("中等", medium); ("困难", hard)]
          /\ 0 <= easy /\ 0 <= medium /\ 0 <= hard
          /\ easy + medium + hard = len questions).
Proof.
  destruct questions as [|q qs].
  - eexists. split; [reflexivity|]. split; [|intro N; now contradiction N].
    intros _. repeat split.
  - unfold _calculate_difficulty_stats.
    assert (P : 0 < len (map Question.difficulty (q :: qs)))
      by (simpl map; apply len_pos).
    unfold truediv. rewrite inject_Z_nonzero by lia. simpl bind.
    eexists. split; [reflexivity|]. split; [discriminate|]. intros _.
    do 3 eexists. split; [reflexivity|].
    assert (B := buckets_partition (map Question.difficulty (q :: qs))).
    assert (L : len (map Question.difficulty (q :: qs)) = len (q :: qs))
      by (unfold len; now rewrite length_map).
    rewrite L in B.
    unfold count_if, len in *. repeat split; try lia; exact B.
Qed.


(** *** Coverage of the weak points *)

Lemma touched_step (weak : list Z) (kps : list KnowledgePoint.t)
      (covered : list Z) (k : Z) :
  In k (fold_left
          (fun covered kp =>
             if in_list (KnowledgePoint.id kp) weak
             then set_add covered (KnowledgePoint.id kp)
             else covered)
          kps covered)
  <-> In k covered
      \/ (In k weak /\ exists kp, In kp kps /\ KnowledgePoint.id kp = k).
Proof.
  revert covered. induction kps as [|kp kps IH]; intro covered; simpl.
  - split; [now left|]. intros [H|(_ & kp & [] & _)]. exact H.
  - rewrite IH. destruct (in_list (KnowledgePoint.id kp) weak) eqn:E.
    + apply in_list_iff in E. rewrite In_set_add. split.
      * intros [[H|H]|(W & kp' & I & K)].
        -- now left.
        -- right. subst k. split; [exact E|]. exists kp. now split; [left|].
        -- right. split; [exact W|]. exists kp'. now split; [right|].
      * intros [H|(W & kp' & [I|I] & K)].
        -- left. now left.
        -- left. right. subst kp'. now symmetry.
        -- right. split; [exact W|]. now exists kp'.
    + apply in_list_false in E. split.
      * intros [H|(W & kp' & I & K)]; [now left|].
        right. split; [exact W|]. exists kp'. now split; [right|].
      * intros [H|(W & kp' & [I|I] & K)]; [now left | |].
        -- subst kp'. subst k. contradiction.
        -- right. split; [exact W|]. now exists kp'.
Qed.

Lemma touched_loop (db : DatabaseManager.t) (weak : list Z)
      (questions : list Question.t) (covered : list Z) (k : Z) :
  In k (fold_left
          (fun covered q =>
             fold_left
               (fun covered kp =>
                  if in_list (KnowledgePoint.id kp) weak
                  then set_add covered (KnowledgePoint.id kp)
                  else covered)
               (DatabaseManager.get_question_knowledge_points db
                  (Question.id q))
               covered)
          questions covered)
  <-> In k covered \/ (In k weak /\ touched db questions k).
Proof.
  revert covered. induction questions as [|q qs IH]; intro covered; simpl.
  - split; [now left|]. intros [H|(_ & q & kp & [] & _)]. exact H.
  - rewrite IH, touched_step. unfold touched. split.
    + intros [[H|(W & kp & I & K)]|(W & q' & kp & I & J & K)].
      * now left.
      * right. split; [exact W|]. exists q, kp. now split; [left|].
      * right. split; [exact W|]. exists q', kp. now split; [right|].
    + intros [H|(W & q' & kp & [I|I] & J & K)].
      * left. now left.
      * subst q'. left. right. split; [exact W|]. now exists kp.
      * right. split; [exact W|]. now exists q', kp.
Qed.

Lemma covered_weak_kps_spec (db : DatabaseManager.t)
      (questions : list Question.t) (weak : list Z) (k : Z) :
  In k (covered_weak_kps db questions weak)
  <-> In k weak /\ touched db questions k.
Proof.
  unfold covered_weak_kps. rewrite touched_loop. split.
  - now intros [[]|H].
  - intro H. now right.
Qed.

(** X16.  The coverage statistics never raise.  [covered_count] is the
    number of distinct weak knowledge points that are linked to one of
    the questions, [total_count] is the length of the list of weak points,
    [covered_count] lies between 0 and [total_count], and for a non-empty
    list the rate is their quotient rounded to two decimals. *)
Theorem weakness_coverage_counts (db : DatabaseManager.t)
        (questions : list Question.t) (weak_kp_ids : list Z) :
  exists coverage covered,
    _calculate_weakness_coverage db questions weak_kp_ids = Ok coverage
    /\ NoDup covered
    /\ (forall k, In k covered
                  <-> In k weak_kp_ids /\ touched db questions k)
    /\ Coverage.covered_count coverage = len covered
    /\ Coverage.total_count coverage = len weak_kp_ids
    /\ 0 <= Coverage.covered_count coverage
    /\ Coverage.covered_count coverage <= Coverage.total_count coverage
    /\ (weak_kp_ids <> [] ->
        Coverage.coverage_rate coverage
        = round2 (inject_Z (Coverage.covered_count coverage)
                  / inject_Z (Coverage.total_count coverage))).
Proof.
  unfold _calculate_weakness_coverage. destruct weak_kp_ids as [|k0 ks].
  - exists (Coverage.mk 0 0 0), []. split; [reflexivity|].
    split; [constructor|]. split.
    + intro k. split; [intros [] | now intros [[] _]].
    + cbn. repeat split; try lia. intro N. now contradiction N.
  - assert (P := len_pos k0 ks). rewrite truediv_int by lia. simpl bind.
    eexists. exists (covered_weak_kps db questions (k0 :: ks)).
    split; [reflexivity|].
    destruct (covered_loop db (k0 :: ks) questions []
                (conj (NoDup_nil _) (incl_nil_l _))) as [N _].
    split; [exact N|]. split; [intro k; apply covered_weak_kps_spec|].
    cbn [Coverage.covered_count Coverage.total_count Coverage.coverage_rate].
    split; [reflexivity|]. split; [reflexivity|].
    split; [unfold len; lia|]. split; [apply covered_le|]. reflexivity.
Qed.

(** *** The recommendations *)

Lemma note_low_differs (a b : Z) (s : string) :
  ("💡 试卷仅覆盖了" ++ str a ++ "/" ++ str b ++ s)%string <> insufficient.
Proof.
  intro E. apply (f_equal (substring 0 1)) in E. discriminate E.
Qed.

Lemma note_high_differs (a : Z) (s : string) :
  ("✅ 试卷已覆盖" ++ str a ++ s)%string <> insufficient.
Proof.
  intro E. apply (f_equal (substring 1 1)) in E. discriminate E.
Qed.

(** X15.  The recommendations never raise and hold at most two messages.
    For an empty list of questions they are the single message that the
    bank is insufficient, and this message occurs in no other case.  For
    a student without weak points and a coverage rate below 0.7, no
    message on the coverage is produced: the result is empty or one of
    the two remarks on the difficulty. *)
Theorem recommendations_shape (questions : list Question.t)
        (weaknesses : list Weakness.t) (coverage : Coverage.t) :
  exists recs,
    _generate_recommendations questions weaknesses coverage = Ok recs
    /\ (List.length recs <= 2)%nat
    /\ (questions = [] -> recs = [insufficient])
    /\ (In insufficient recs -> questions = [])
    /\ (weaknesses = [] ->
        (Coverage.coverage_rate coverage < 0.7)%Q ->
        recs = [insufficient] \/ recs = [] \/ recs = [too_easy]
        \/ recs = [too_hard]).
Proof.
  unfold _generate_recommendations. destruct questions as [|q qs].
  - eexists. split; [reflexivity|]. split; [simpl; lia|].
    split; [reflexivity|]. split; [reflexivity|]. intros _ _. now left.
  - assert (P := len_pos q qs).
    assert (E : (len (q :: qs) =? 0) = false) by (apply Z.eqb_neq; lia).
    rewrite E.
    destruct (difficulty_stats_total q qs) as [avg [e [m [h S]]]].
    rewrite S. cbn [bind DifficultyStats.distribution].
    assert (G1 : forall e m h : Z,
               getitem [("简单", e); ("中等", m); ("困难", h)] "简单" = Ok e)
      by reflexivity.
    assert (G2 : forall e m h : Z,
               getitem [("简单", e); ("中等", m); ("困难", h)] "困难" = Ok h)
      by reflexivity.
    rewrite G1, G2. cbn [bind].
    set (r1 := if Qlt_bool (Coverage.coverage_rate coverage) 0.5 && _
               then _ else _).
    assert (R1 : (List.length r1 <= 1)%nat /\ ~ In insufficient r1
                 /\ (weaknesses = [] ->
                     (Coverage.coverage_rate coverage < 0.7)%Q -> r1 = [])).
    { unfold r1.
      destruct (Qlt_bool (Coverage.coverage_rate coverage) 0.5
                && match weaknesses with [] => false | _ => true end) eqn:A.
      - split; [simpl; lia|]. split.
        + intros [H|[]]. exact (note_low_differs _ _ _ H).
        + intros -> _. now rewrite andb_false_r in A.
      - destruct (Qle_bool 0.7 (Coverage.coverage_rate coverage)) eqn:B.
        + split; [simpl; lia|]. split.
          * intros [H|[]]. exact (note_high_differs _ _ H).
          * intros _ L. apply Qle_bool_iff in B. lra.
        + split; [simpl; lia|]. split; [intros []|]. reflexivity. }
    clearbody r1. destruct R1 as (L1 & N1 & Z1).
    assert (T : forall tail : list string,
               (List.length tail <= 1)%nat ->
               ~ In insufficient tail ->
               tail = [] \/ tail = [too_easy] \/ tail = [too_hard] ->
               (List.length (r1 ++ tail) <= 2)%nat
               /\ (q :: qs = [] -> r1 ++ tail = [insufficient])
               /\ (In insufficient (r1 ++ tail) -> q :: qs = [])
               /\ (weaknesses = [] ->
                   (Coverage.coverage_rate coverage < 0.7)%Q ->
                   r1 ++ tail = [insufficient] \/ r1 ++ tail = []
                   \/ r1 ++ tail = [too_easy] \/ r1 ++ tail = [too_hard])).
    { intros tail Lt Nt Ct. split; [rewrite length_app; lia|].
      split; [discriminate|]. split.
      - intro I. apply in_app_or in I. tauto.
      - intros W C. rewrite (Z1 W C). simpl. tauto. }
    destruct (Qlt_bool _ (inject_Z e)).
    + eexists. split; [reflexivity|]. apply T.
      * simpl; lia.
      * intros [H|[]]. discriminate H.
      * right. now left.
    + destruct (Qlt_bool _ (inject_Z h)).
      * eexists. split; [reflexivity|]. apply T.
        -- simpl; lia.
        -- intros [H|[]]. discriminate H.
        -- right. now right.
      * eexists. split; [reflexivity|]. rewrite <- (app_nil_r r1). apply T.
        -- simpl; lia.
        -- intros [].
        -- now left.
Qed.


(** *** The report of a run *)

Lemma In_prefix (n : nat) (ws : list Weakness.t) (y : Weakness.t) :
  In y (firstn n ws) -> In y ws.
Proof.
  revert n. induction ws as [|x ws IH]; intros n H.
  - now rewrite firstn_nil in H.
  - destruct n as [|n]; [destruct H|]. destruct H as [H|H]; [now left|].
    right. exact (IH n H).
Qed.

Lemma prefix_ids_NoDup (n : nat) (ws : list Weakness.t) :
  NoDup (map Weakness.knowledge_point_id ws) ->
  NoDup (map Weakness.knowledge_point_id (firstn n ws)).
Proof.
  revert n. induction ws as [|x ws IH]; intros n H.
  - rewrite firstn_nil. constructor.
  - destruct n as [|n]; [constructor|]. simpl in *.
    inversion H as [|k m Hn Hm]; subst. constructor; [|now apply IH].
    intro C. apply Hn. apply in_map_iff in C. destruct C as [y [E I]].
    apply in_map_iff. exists y. split; [exact E|].
    exact (In_prefix n ws y I).
Qed.

Lemma prefix_len (n : nat) (ws : list Weakness.t) :
  len (map Weakness.knowledge_point_id (firstn n ws))
  = Z.min (Z.of_nat n) (len ws).
Proof.
  unfold len. rewrite length_map, length_firstn. lia.
Qed.

(** X17.  Every run returns a report that is computed from the questions
    it selected: the count is their number, the total score the sum of
    their scores, and the difficulty statistics, the coverage and the
    recommendations are those of the selected questions.  The coverage
    refers to the first 15 entries of the ranking, whose knowledge points
    are pairwise distinct, and the report lists its first 10 entries. *)
Theorem exam_report_consistent (db : DatabaseManager.t)
        (student_id subject_id total_score : Z) (focus_on_weaknesses : bool)
        (difficulty_level : string)
        (question_distribution : option (list (string * TypeConfig.t)))
        (w : World.t) :
  exists weaknesses exam w',
    analyze_student_weaknesses db student_id (Some subject_id)
    = Ok weaknesses
    /\ generate_targeted_exam db student_id subject_id total_score
         focus_on_weaknesses difficulty_level question_distribution w
       = Ok (exam, w')
    /\ let questions := GeneratedExam.questions exam in
       let weak_kp_ids :=
         map Weakness.knowledge_point_id (firstn 15 weaknesses) in
       GeneratedExam.actual_count exam = len questions
       /\ GeneratedExam.total_score exam
          = Py.sum (map Question.score questions)
       /\ _calculate_difficulty_stats questions
          = Ok (GeneratedExam.difficulty_stats exam)
       /\ _calculate_weakness_coverage db questions weak_kp_ids
          = Ok (GeneratedExam.weakness_coverage exam)
       /\ _generate_recommendations questions weaknesses
            (GeneratedExam.weakness_coverage exam)
          = Ok (GeneratedExam.recommendations exam)
       /\ GeneratedExam.weaknesses_analyzed exam = firstn 10 weaknesses
       /\ NoDup weak_kp_ids
       /\ len weak_kp_ids = Z.min 15 (len weaknesses).
Proof.
  assert (Ha := WeaknessProofs.analyze_student_weaknesses_eq
                  db student_id (Some subject_id)).
  set (ws := Py.sort by_mastery _) in Ha.
  set (weak := map Weakness.knowledge_point_id (firstn 15 ws)).
  destruct (selection_invariant db subject_id focus_on_weaknesses weak
              (_get_difficulty_target difficulty_level) (fun _ => True)
              (fun _ _ _ _ _ _ _ _ => I)
              (match question_distribution with
               | None => _get_default_distribution db subject_id total_score
               | Some d => d
               end) ([], []) w I) as (sel & w' & Hs & _).
  destruct (difficulty_stats_ok (fst sel)) as [stats Hd].
  destruct (weakness_coverage_total db (fst sel) weak) as (cov & Hc & _).
  destruct (recommendations_total (fst sel) ws cov) as (recs & Hr & _).
  exists ws.
  exists (GeneratedExam.mk (fst sel) (Py.sum (map Question.score (fst sel)))
            (len (fst sel)) stats cov recs (firstn 10 ws)).
  exists w'. split; [exact Ha|]. split.
  - unfold generate_targeted_exam, World.bind, World.lift.
    rewrite Ha. fold weak. rewrite Hs, Hd, Hc, Hr. reflexivity.
  - cbn [GeneratedExam.questions GeneratedExam.actual_count
         GeneratedExam.total_score GeneratedExam.difficulty_stats
         GeneratedExam.weakness_coverage GeneratedExam.recommendations
         GeneratedExam.weaknesses_analyzed].
    split; [reflexivity|]. split; [reflexivity|]. split; [exact Hd|].
    split; [exact Hc|]. split; [exact Hr|]. split; [reflexivity|]. split.
    + apply prefix_ids_NoDup. unfold ws.
      eapply Permutation_NoDup.
      * apply Permutation_map. symmetry. apply sort_Permutation.
      * apply weak_ids_NoDup. rewrite WeaknessProofs.performance_keys.
        apply set_add_loop_NoDup. constructor.
    + apply (prefix_len 15).
Qed.

End StatsProofs.

(* ================================================================== *)
(** ** The coverage analyzer *)

Module CoverageProofs.
Import WeaknessAnalysisService IntelligentExamGenerator GeneratorFacts.
Import TallyFacts StatsFacts PyFacts GeneratorProofs TallyProofs.
Import KnowledgePointCoverageAnalyzer.

Lemma In_set_add_loop (l acc : list Z) (k : Z) :
  In k (fold_left set_add l acc) <-> In k acc \/ In k l.
Proof.
  revert acc. induction l as [|x l IH]; intro acc; simpl.
  - tauto.
  - rewrite IH, In_set_add. intuition.
Qed.

Lemma all_covered_step (kps : list KnowledgePoint.t) (covered : list Z)
      (k : Z) :
  In k (fold_left (fun covered kp => set_add covered (KnowledgePoint.id kp))
          kps covered)
  <-> In k covered \/ exists kp, In kp kps /\ KnowledgePoint.id kp = k.
Proof.
  revert covered. induction kps as [|kp kps IH]; intro covered; simpl.
  - split; [now left|]. intros [H|(kp & [] & _)]. exact H.
  - rewrite IH, In_set_add. split.
    + intros [[H|H]|(kp' & I & K)].
      * now left.
      * right. exists kp. split; [now left | now symmetry].
      * right. exists kp'. split; [now right | assumption].
    + intros [H|(kp' & [I|I] & K)].
      * left. now left.
      * left. right. subst kp'. now symmetry.
      * right. now exists kp'.
Qed.

Lemma all_covered_step_NoDup (kps : list KnowledgePoint.t)
      (covered : list Z) :
  NoDup covered ->
  NoDup (fold_left (fun covered kp => set_add covered (KnowledgePoint.id kp))
           kps covered).
Proof.
  revert covered. induction kps as [|kp kps IH]; intros covered H; simpl;
    [assumption|]. now apply IH, NoDup_set_add.
Qed.

Lemma all_covered_loop (db : DatabaseManager.t) (questions : list Question.t)
      (covered : list Z) :
  let covered' :=
    fold_left
      (fun covered q =>
         fold_left
           (fun covered kp => set_add covered (KnowledgePoint.id kp))
           (DatabaseManager.get_question_knowledge_points db (Question.id q))
           covered)
      questions covered in
  (NoDup covered -> NoDup covered')
  /\ forall k, In k covered' <-> In k covered \/ touched db questions k.
Proof.
  revert covered. induction questions as [|q qs IH]; intro covered; simpl.
  - split; [tauto|]. intro k. split; [now left|].
    intros [H|(q & kp & [] & _)]. exact H.
  - destruct (IH (fold_left
                    (fun covered kp =>
                       set_add covered (KnowledgePoint.id kp))
                    (DatabaseManager.get_question_knowledge_points db
                       (Question.id q))
                    covered)) as [N M].
    split.
    + intro H. apply N. now apply all_covered_step_NoDup.
    + intro k. rewrite M, all_covered_step. unfold touched. split.
      * intros [[H|(kp & I & K)]|(q' & kp & I & J & K)].
        -- now left.
        -- right. exists q, kp. now split; [left|].
        -- right. exists q', kp. now split; [right|].
      * intros [H|(q' & kp & [I|I] & J & K)].
        -- left. now left.
        -- subst q'. left. right. now exists kp.
        -- right. now exists q', kp.
Qed.

Lemma split_length (p : Z -> bool) (l : list Z) :
  (List.length (filter p l) + List.length (filter (fun k => negb (p k)) l)
   = List.length l)%nat.
Proof.
  induction l as [|x l IH]; simpl; [reflexivity|].
  destruct (p x); simpl; lia.
Qed.

Lemma covered_inside (covered all : list Z) :
  NoDup covered -> NoDup all -> incl covered all ->
  List.length (filter (fun k => in_list k covered) all)
  = List.length covered.
Proof.
  intros Nc Na I. apply Nat.le_antisymm.
  - apply NoDup_incl_length; [now apply NoDup_filter|].
    intros k H. apply filter_In in H. now apply in_list_iff.
  - apply NoDup_incl_length; [assumption|].
    intros k H. apply filter_In. split; [now apply I|].
    now apply in_list_iff.
Qed.

(** X18.  [calculate_coverage] never raises and splits the knowledge
    points into two duplicate-free lists without a common element: the
    covered ones are those linked to one of the questions, the uncovered
    ones those of [all_kps] that are not.  The rate is never negative and
    is 0 for an empty [all_kps].  The two counts add up to [total_count]
    exactly when every linked knowledge point belongs to [all_kps], and
    in that case the rate is at most 1 (the covered set is not restricted
    to [all_kps], so the rate can exceed 1 otherwise). *)
Theorem calculate_coverage_partition (db : DatabaseManager.t)
        (questions : list Question.t) (all_kps : list KnowledgePoint.t) :
  exists report,
    calculate_coverage db questions all_kps = Ok report
    /\ NoDup (Report.covered_kps report)
    /\ NoDup (Report.uncovered_kps report)
    /\ (forall k, In k (Report.covered_kps report)
                  <-> touched db questions k)
    /\ (forall k, In k (Report.uncovered_kps report)
                  <-> In k (map KnowledgePoint.id all_kps)
                      /\ ~ touched db questions k)
    /\ Report.covered_count report = len (Report.covered_kps report)
    /\ (NoDup (map KnowledgePoint.id all_kps) ->
        Report.total_count report = len all_kps)
    /\ (0 <= Report.coverage_rate report)%Q
    /\ (all_kps = [] -> Report.coverage_rate report = 0%Q)
    /\ (Report.covered_count report + len (Report.uncovered_kps report)
        = Report.total_count report
        <-> forall k, touched db questions k ->
                      In k (map KnowledgePoint.id all_kps))
    /\ ((forall k, touched db questions k ->
                   In k (map KnowledgePoint.id all_kps)) ->
        (Report.coverage_rate report <= 1)%Q).
Proof.
  unfold calculate_coverage.
  destruct (all_covered_loop db questions []) as [Nc Mc].
  cbv zeta in Nc, Mc. specialize (Nc (NoDup_nil _)).
  set (covered := fold_left _ questions []) in *.
  assert (Na : NoDup (fold_left set_add (map KnowledgePoint.id all_kps) []))
    by (apply set_add_loop_NoDup; constructor).
  assert (Ma : forall k,
             In k (fold_left set_add (map KnowledgePoint.id all_kps) [])
             <-> In k (map KnowledgePoint.id all_kps)).
  { intro k. rewrite In_set_add_loop. split; [now intros [[]|H] | now right]. }
  set (all := fold_left set_add (map KnowledgePoint.id all_kps) []) in *.
  assert (Mc' : forall k, In k covered <-> touched db questions k).
  { intro k. rewrite Mc. split; [now intros [[]|H] | now right]. }
  assert (R : exists rate,
             match all with
             | _ :: _ => truediv (inject_Z (len covered)) (inject_Z (len all))
             | [] => Ok 0%Q
             end = Ok rate
             /\ (0 <= rate)%Q
             /\ (all = [] -> rate = 0%Q)
             /\ (len covered <= len all -> (rate <= 1)%Q)).
  { destruct all as [|a l] eqn:Ea.
    - exists 0%Q. repeat split; lra.
    - assert (P := len_pos a l). rewrite truediv_int by lia.
      assert (Pq : (0 < inject_Z (len (a :: l)))%Q).
      { change 0%Q with (inject_Z 0). now rewrite <- Zlt_Qlt. }
      eexists. split; [reflexivity|]. split; [|split; [discriminate|]].
      + apply Qle_shift_div_l; [assumption|]. rewrite Qmult_0_l.
        change 0%Q with (inject_Z 0). rewrite <- Zle_Qle. unfold len. lia.
      + intro L. apply Qle_shift_div_r; [assumption|]. rewrite Qmult_1_l.
        now rewrite <- Zle_Qle. }
  destruct R as (rate & -> & R0 & RE & R1). simpl bind.
  eexists. split; [reflexivity|].
  cbn [Report.covered_kps Report.uncovered_kps Report.covered_count
       Report.total_count Report.coverage_rate].
  split; [exact Nc|]. split; [now apply NoDup_filter|].
  split; [exact Mc'|]. split.
  { intro k. rewrite filter_In, Ma, negb_true_iff, in_list_false, Mc'.
    reflexivity. }
  split; [reflexivity|]. split.
  { intro N. unfold all, len.
    assert (E : forall l acc,
               NoDup (acc ++ l) -> fold_left set_add l acc = acc ++ l).
    { induction l as [|x l IH]; intros acc H; simpl.
      - now rewrite app_nil_r.
      - assert (B : in_list x acc = false).
        { apply in_list_false. intro C.
          apply NoDup_remove_2 in H. apply H. apply in_or_app. now left. }
        unfold set_add at 2. rewrite B.
        rewrite IH; rewrite <- app_assoc; [reflexivity | exact H]. }
    rewrite (E _ [] N). simpl. now rewrite length_map. }
  split; [exact R0|]. split.
  { intros ->. apply RE. reflexivity. }
  assert (L := split_length (fun k => in_list k covered) all).
  cbv beta in L.
  assert (Inside : (forall k, touched db questions k ->
                              In k (map KnowledgePoint.id all_kps)) ->
                   List.length (filter (fun k => in_list k covered) all)
                   = List.length covered).
  { intro Sub. apply covered_inside; [assumption | assumption |].
    intros k H. apply Ma, Sub, Mc'. exact H. }
  split; [split|].
  - intro E.
    assert (N : NoDup (filter (fun k => in_list k covered) all))
      by now apply NoDup_filter.
    assert (I : incl (filter (fun k => in_list k covered) all) covered).
    { intros k H. apply filter_In in H. now apply in_list_iff. }
    assert (Le : (List.length covered
                  <= List.length (filter (fun k => in_list k covered) all))%nat)
      by (unfold len in E; lia).
    intros k T. apply Ma. apply Mc' in T.
    assert (J := NoDup_length_incl N Le I k T).
    apply filter_In in J. tauto.
  - intro Sub. specialize (Inside Sub). unfold len. lia.
  - intro Sub. specialize (Inside Sub). apply R1. unfold len. lia.
Qed.

End CoverageProofs.

(* ================================================================== *)
(** ** Writing to the database *)

Module StoreProofs.
Import WeaknessAnalysisService IntelligentExamGenerator GeneratorFacts.
Import TallyFacts StatsFacts PyFacts GeneratorProofs TallyProofs.

Lemma In_question_knowledge_points (db : DatabaseManager.t) (q : Z)
      (kp : KnowledgePoint.t) :
  In kp (DatabaseManager.get_question_knowledge_points db q)
  <-> In kp (DatabaseManager.knowledge_points db)
      /\ exists qk,
           In qk (DatabaseManager.question_knowledge db)
           /\ QuestionKnowledge.knowledge_point_id qk = KnowledgePoint.id kp
           /\ QuestionKnowledge.question_id qk = q.
Proof.
  unfold DatabaseManager.get_question_knowledge_points.
  rewrite in_flat_map. split.
  - intros (kp' & I & H). apply in_flat_map in H. destruct H as (qk & J & H).
    destruct ((KnowledgePoint.id kp'
               =? QuestionKnowledge.knowledge_point_id qk)
              && (QuestionKnowledge.question_id qk =? q)) eqn:E;
      [|destruct H].
    destruct H as [<-|[]]. apply andb_true_iff in E. destruct E as [E1 E2].
    apply Z.eqb_eq in E1. apply Z.eqb_eq in E2.
    split; [exact I|]. exists qk. now repeat split.
  - intros (I & qk & J & E1 & E2). exists kp. split; [exact I|].
    apply in_flat_map. exists qk. split; [exact J|].
    rewrite E1, E2, !Z.eqb_refl. now left.
Qed.

Lemma joined_elsewhere (kp : KnowledgePoint.t) (q k q' : Z)
      (links extra : list QuestionKnowledge.t) :
  q' <> q ->
  Forall (fun qk => QuestionKnowledge.question_id qk = q) extra ->
  flat_map
    (fun qk =>
       if (KnowledgePoint.id kp =? QuestionKnowledge.knowledge_point_id qk)
          && (QuestionKnowledge.question_id qk =? q')
       then [kp] else [])
    (filter
       (fun qk =>
          negb ((QuestionKnowledge.question_id qk =? q)
                && (QuestionKnowledge.knowledge_point_id qk =? k)))
       links ++ extra)
  = flat_map
      (fun qk =>
         if (KnowledgePoint.id kp =? QuestionKnowledge.knowledge_point_id qk)
            && (QuestionKnowledge.question_id qk =? q')
         then [kp] else [])
      links.
Proof.
  intros N F. rewrite flat_map_app.
  assert (E : flat_map
                (fun qk =>
                   if (KnowledgePoint.id kp
                       =? QuestionKnowledge.knowledge_point_id qk)
                      && (QuestionKnowledge.question_id qk =? q')
                   then [kp] else [])
                extra = []).
  { induction F as [|qk extra Hq F IH]; simpl; [reflexivity|].
    rewrite IH, Hq.
    assert (B : (q =? q') = false) by (apply Z.eqb_neq; congruence).
    now rewrite B, andb_false_r. }
  rewrite E, app_nil_r. clear E F.
  induction links as [|qk links IH]; simpl; [reflexivity|].
  destruct (Z.eqb_spec (QuestionKnowledge.question_id qk) q) as [Eq|Eq];
    simpl.
  - assert (B : (QuestionKnowledge.question_id qk =? q') = false)
      by (apply Z.eqb_neq; congruence).
    rewrite B, andb_false_r. simpl.
    destruct (QuestionKnowledge.knowledge_point_id qk =? k); simpl;
      [exact IH|]. rewrite B, andb_false_r. exact IH.
  - now rewrite IH.
Qed.

Lemma keys_kept (q k : Z) (links : list QuestionKnowledge.t) :
  NoDup (map (fun qk => (QuestionKnowledge.question_id qk,
                         QuestionKnowledge.knowledge_point_id qk)) links) ->
  NoDup (map (fun qk => (QuestionKnowledge.question_id qk,
                         QuestionKnowledge.knowledge_point_id qk))
           (filter
              (fun qk =>
                 negb ((QuestionKnowledge.question_id qk =? q)
                       && (QuestionKnowledge.knowledge_point_id qk =? k)))
              links)).
Proof.
  induction links as [|qk links IH]; simpl; intro H; [constructor|].
  inversion H as [|x m Hn Hm]; subst.
  destruct (negb _); [|now apply IH].
  simpl. constructor; [|now apply IH]. intro C. apply Hn.
  apply in_map_iff in C. destruct C as (qk' & E & I).
  apply filter_In in I. apply in_map_iff. exists qk'. now split.
Qed.

(** X19.  After [link_question_to_knowledge] the knowledge points of the
    question are those it had before and the newly linked one when it is
    in the table of knowledge points; the knowledge points of every other
    question are unchanged.  The new row is in the table and every row
    that holds the given pair of identifiers is this row, with the given
    weight (an older row is replaced); a table without two rows for the
    same pair stays so. *)
Theorem link_question_to_knowledge_replaces (db : DatabaseManager.t)
        (question_id knowledge_point_id : Z) (weight : Q) :
  let db' :=
    DatabaseManager.link_question_to_knowledge db question_id knowledge_point_id weight in
  let key := fun qk => (QuestionKnowledge.question_id qk,
                        QuestionKnowledge.knowledge_point_id qk) in
  (forall kp,
      In kp (DatabaseManager.get_question_knowledge_points db' question_id)
      <-> In kp (DatabaseManager.get_question_knowledge_points db
                   question_id)
          \/ (In kp (DatabaseManager.knowledge_points db)
              /\ KnowledgePoint.id kp = knowledge_point_id))
  /\ (forall q, q <> question_id ->
                DatabaseManager.get_question_knowledge_points db' q
                = DatabaseManager.get_question_knowledge_points db q)
  /\ (forall row,
         In row (DatabaseManager.question_knowledge db') ->
         key row = (question_id, knowledge_point_id) ->
         row = QuestionKnowledge.mk question_id knowledge_point_id weight)
  /\ In (QuestionKnowledge.mk question_id knowledge_point_id weight)
        (DatabaseManager.question_knowledge db')
  /\ (NoDup (map key (DatabaseManager.question_knowledge db)) ->
      NoDup (map key (DatabaseManager.question_knowledge db'))).
Proof.
  intros db' key. split; [|split; [|split; [|split]]].
  - intro kp. rewrite !In_question_knowledge_points.
    unfold db', DatabaseManager.link_question_to_knowledge.
    cbn [DatabaseManager.knowledge_points DatabaseManager.question_knowledge].
    split.
    + intros (I & qk & J & E1 & E2). apply in_app_or in J.
      destruct J as [J|[<-|[]]].
      * apply filter_In in J. left. split; [exact I|]. exists qk.
        now repeat split.
      * right. split; [exact I|]. now symmetry.
    + intros [(I & qk & J & E1 & E2)|(I & E)].
      * split; [exact I|].
        destruct (Z.eqb_spec (QuestionKnowledge.knowledge_point_id qk)
                    knowledge_point_id) as [Ek|Ek].
        -- exists (QuestionKnowledge.mk question_id knowledge_point_id
                     weight).
           split; [apply in_or_app; right; now left|].
           split; [simpl; congruence | reflexivity].
        -- exists qk. split; [|now split]. apply in_or_app. left.
           apply filter_In. split; [exact J|].
           apply negb_true_iff, andb_false_iff. right.
           now apply Z.eqb_neq.
      * split; [exact I|].
        exists (QuestionKnowledge.mk question_id knowledge_point_id weight).
        split; [apply in_or_app; right; now left|].
        split; [simpl; congruence | reflexivity].
  - intros q N. unfold db', DatabaseManager.link_question_to_knowledge.
    unfold DatabaseManager.get_question_knowledge_points.
    cbn [DatabaseManager.knowledge_points DatabaseManager.question_knowledge].
    apply flat_map_ext. intro kp.
    apply joined_elsewhere; [exact N|]. now repeat constructor.
  - intros row I E. unfold db', DatabaseManager.link_question_to_knowledge in I.
    cbn [DatabaseManager.question_knowledge] in I.
    apply in_app_or in I. destruct I as [I|[<-|[]]]; [|reflexivity].
    apply filter_In in I. destruct I as [_ B]. unfold key in E.
    injection E as E1 E2. rewrite E1, E2, !Z.eqb_refl in B. discriminate B.
  - unfold db', DatabaseManager.link_question_to_knowledge.
    cbn [DatabaseManager.question_knowledge]. apply in_or_app. right.
    now left.
  - intro N. unfold db', DatabaseManager.link_question_to_knowledge.
    cbn [DatabaseManager.question_knowledge]. rewrite map_app.
    apply NoDup_app.
    + now apply keys_kept.
    + repeat constructor. intros [].
    + intros x Hx [<-|[]]. apply in_map_iff in Hx.
      destruct Hx as (qk & E & I). apply filter_In in I.
      destruct I as [_ B]. unfold key in E. injection E as E1 E2.
      rewrite E1, E2, !Z.eqb_refl in B. discriminate B.
Qed.


(** *** Recording an answer *)

Lemma answers_of_other (db : DatabaseManager.t) (answer : StudentAnswer.t)
      (rowid student_id : Z) :
  student_id <> StudentAnswer.student_id answer ->
  DatabaseManager.get_student_all_answers
    (snd (DatabaseManager.add_student_answer db answer rowid)) student_id
  = DatabaseManager.get_student_all_answers db student_id.
Proof.
  intro N. unfold DatabaseManager.get_student_all_answers, DatabaseManager.add_student_answer.
  cbn [snd DatabaseManager.student_answers]. rewrite filter_app. simpl.
  assert (B : (StudentAnswer.student_id answer =? student_id) = false)
    by (apply Z.eqb_neq; congruence).
  now rewrite B, app_nil_r.
Qed.

(** X20.  Recording an answer of one student changes nothing for another
    student: the stored answers, the ranking of weak points for any
    subject, the mastery dict and every generated exam (for the same
    random draws) are the same as before. *)
Theorem add_student_answer_frame (db : DatabaseManager.t)
        (answer : StudentAnswer.t) (rowid student_id : Z) :
  student_id <> StudentAnswer.student_id answer ->
  let db' := snd (DatabaseManager.add_student_answer db answer rowid) in
  DatabaseManager.get_student_all_answers db' student_id
  = DatabaseManager.get_student_all_answers db student_id
  /\ (forall subject_id,
         analyze_student_weaknesses db' student_id subject_id
         = analyze_student_weaknesses db student_id subject_id)
  /\ get_knowledge_point_mastery db' student_id
     = get_knowledge_point_mastery db student_id
  /\ (forall subject_id total_score focus_on_weaknesses difficulty_level
             question_distribution w,
         generate_targeted_exam db' student_id subject_id total_score
           focus_on_weaknesses difficulty_level question_distribution w
         = generate_targeted_exam db student_id subject_id total_score
             focus_on_weaknesses difficulty_level question_distribution w).
Proof.
  intros N db'. assert (A := answers_of_other db answer rowid student_id N).
  fold db' in A.
  assert (W : forall subject_id,
             analyze_student_weaknesses db' student_id subject_id
             = analyze_student_weaknesses db student_id subject_id).
  { intro subject_id. unfold analyze_student_weaknesses. rewrite A.
    reflexivity. }
  split; [exact A|]. split; [exact W|]. split.
  - unfold get_knowledge_point_mastery. rewrite A. reflexivity.
  - intros. unfold generate_targeted_exam, World.bind, World.lift.
    rewrite W. reflexivity.
Qed.

Lemma add_student_answer_frame_witness :
  get_knowledge_point_mastery
    (snd (DatabaseManager.add_student_answer Scenarios.school
            (StudentAnswer.mk 0 2 1 1 "A" 4 true) 100)) 1
  = get_knowledge_point_mastery Scenarios.school 1.
Proof.
  apply (add_student_answer_frame Scenarios.school
           (StudentAnswer.mk 0 2 1 1 "A" 4 true) 100 1).
  discriminate.
Defined.

Lemma mastery_entries (db : DatabaseManager.t) (student_id k : Z) (r : Q) :
  In (k, r)
     (map mastery_of
        (performance db None
           (DatabaseManager.get_student_all_answers db student_id)))
  <-> 1 <= attempted k (attempts db student_id None)
      /\ r = (inject_Z (succeeded k (attempts db student_id None))
              / inject_Z (attempted k (attempts db student_id None)))%Q.
Proof.
  unfold attempts.
  set (answers := DatabaseManager.get_student_all_answers db student_id).
  destruct (performance_counted db None answers) as [C K].
  rewrite in_map_iff. split.
  - intros [[k' d] [E He]]. unfold mastery_of in E. simpl in E.
    injection E as -> <-. destruct (C _ _ He) as [-> ->].
    split; [|reflexivity]. apply attempted_some, K.
    apply in_map_iff. now exists (k, d).
  - intros [A ->].
    assert (Hk : In k (map fst (performance db None answers))).
    { apply K.
      destruct (in_dec Z.eq_dec k
                  (map fst (attempts_of db None answers))) as [I|I];
        [assumption|]. apply attempted_none in I. lia. }
    apply in_map_iff in Hk. destruct Hk as [[k' d] [E He]]. simpl in E.
    subst k'. exists (k, d). split; [|assumption].
    unfold mastery_of. simpl. destruct (C _ _ He) as [-> ->].
    reflexivity.
Qed.

Lemma attempts_recorded (db : DatabaseManager.t) (answer : StudentAnswer.t)
      (rowid : Z) :
  attempts (snd (DatabaseManager.add_student_answer db answer rowid))
           (StudentAnswer.student_id answer) None
  = attempts db (StudentAnswer.student_id answer) None
    ++ map (fun kp => (KnowledgePoint.id kp,
                       StudentAnswer.is_correct answer))
         (DatabaseManager.get_question_knowledge_points db
            (StudentAnswer.question_id answer)).
Proof.
  unfold attempts, attempts_of, DatabaseManager.get_student_all_answers,
    DatabaseManager.add_student_answer.
  cbn [snd DatabaseManager.student_answers]. rewrite filter_app.
  cbn [filter StudentAnswer.student_id]. rewrite Z.eqb_refl.
  rewrite flat_map_app. f_equal. cbn [flat_map]. rewrite app_nil_r.
  cbn [StudentAnswer.question_id StudentAnswer.is_correct given andb negb].
  f_equal. apply forallb_filter_id. now apply forallb_forall.
Qed.

Lemma new_attempts (k : Z) (c : bool) (kps : list KnowledgePoint.t) :
  let new := map (fun kp => (KnowledgePoint.id kp, c)) kps in
  0 <= attempted k new
  /\ succeeded k new = (if c then attempted k new else 0)
  /\ ((forall kp, In kp kps -> KnowledgePoint.id kp <> k) ->
      attempted k new = 0)
  /\ (1 <= attempted k new ->
      exists kp, In kp kps /\ KnowledgePoint.id kp = k).
Proof.
  intro new. unfold new, attempted, succeeded, len.
  induction kps as [|kp kps IH]; simpl.
  - repeat split; try lia. now destruct c.
  - destruct IH as (I0 & I1 & I2 & I3).
    destruct (Z.eqb_spec (KnowledgePoint.id kp) k) as [E|E]; simpl.
    + split; [lia|]. split; [|split].
      * destruct c; simpl; lia.
      * intro H. exfalso. apply (H kp); [now left | exact E].
      * intros _. exists kp. split; [now left | exact E].
    + split; [exact I0|]. split; [exact I1|]. split.
      * intro H. apply I2. intros kp' Hk. apply H. now right.
      * intro H. destruct (I3 H) as (kp' & Hk & Ek). exists kp'.
        split; [now right | exact Ek].
Qed.

Lemma quotient_le (x y x' y' : Z) :
  0 < y -> 0 < y' -> x * y' <= x' * y ->
  (inject_Z x / inject_Z y <= inject_Z x' / inject_Z y')%Q.
Proof.
  intros Py Py' H.
  assert (Qy : (0 < inject_Z y)%Q)
    by (change 0%Q with (inject_Z 0); now rewrite <- Zlt_Qlt).
  assert (Qy' : (0 < inject_Z y')%Q)
    by (change 0%Q with (inject_Z 0); now rewrite <- Zlt_Qlt).
  apply Qle_shift_div_l; [exact Qy'|].
  unfold Qdiv. rewrite <- Qmult_assoc, (Qmult_comm (/ inject_Z y)),
    Qmult_assoc.
  apply Qle_shift_div_r; [exact Qy|].
  rewrite <- !inject_Z_mult, <- Zle_Qle. lia.
Qed.

(** X21.  Recording an answer moves the mastery of the student in one
    direction: every knowledge point of the dict stays in it, and its
    rate does not decrease after a correct answer, does not increase
    after a wrong one, and is unchanged when the knowledge point is not
    linked to the question.
    A key that is new in the dict is a knowledge point of the question,
    with rate 1 after a correct answer and 0 after a wrong one. *)
Theorem add_student_answer_moves_mastery (db : DatabaseManager.t)
        (answer : StudentAnswer.t) (rowid : Z) :
  let student_id := StudentAnswer.student_id answer in
  let db' := snd (DatabaseManager.add_student_answer db answer rowid) in
  let kps :=
    DatabaseManager.get_question_knowledge_points db
      (StudentAnswer.question_id answer) in
  exists before after,
    get_knowledge_point_mastery db student_id = Ok before
    /\ get_knowledge_point_mastery db' student_id = Ok after
    /\ (forall k r,
           In (k, r) before ->
           exists r',
             In (k, r') after
             /\ (StudentAnswer.is_correct answer = true -> (r <= r')%Q)
             /\ (StudentAnswer.is_correct answer = false -> (r' <= r)%Q)
             /\ ((forall kp, In kp kps -> KnowledgePoint.id kp <> k) ->
                 r' = r))
    /\ (forall k r',
           In (k, r') after ->
           In k (map fst before)
           \/ ((exists kp, In kp kps /\ KnowledgePoint.id kp = k)
               /\ (r' == if StudentAnswer.is_correct answer then 1 else 0)%Q)).
Proof.
  intros student_id db' kps. eexists. eexists.
  split; [apply get_knowledge_point_mastery_eq|].
  split; [apply get_knowledge_point_mastery_eq|].
  assert (R := attempts_recorded db answer rowid).
  fold student_id db' kps in R.
  assert (E1 := mastery_entries db student_id).
  assert (E2 := mastery_entries db' student_id). rewrite R in E2.
  assert (J := fun k =>
                 new_attempts k (StudentAnswer.is_correct answer) kps).
  cbv zeta in J.
  set (seen := attempts db student_id None) in *.
  set (c := StudentAnswer.is_correct answer) in *.
  set (new := map (fun kp => (KnowledgePoint.id kp, c)) kps) in *.
  clearbody new c seen. clear R.
  split.
  - intros k r H. apply E1 in H. destruct H as [A ->].
    destruct (J k) as (J0 & J1 & J2 & _).
    assert (S := succeeded_le k seen).
    exists (inject_Z (succeeded k (seen ++ new))
            / inject_Z (attempted k (seen ++ new)))%Q.
    split; [|split; [|split]].
    + apply E2. split; [|reflexivity]. rewrite attempted_app. lia.
    + intro C. rewrite attempted_app, succeeded_app, J1, C.
      apply quotient_le; nia.
    + intro C. rewrite attempted_app, succeeded_app, J1, C.
      apply quotient_le; nia.
    + intro F. rewrite attempted_app, succeeded_app, J1, (J2 F).
      destruct c; now rewrite !Z.add_0_r.
  - intros k r' H. apply E2 in H. destruct H as [A ->].
    destruct (J k) as (J0 & J1 & _ & J3).
    destruct (in_dec Z.eq_dec k (map fst seen)) as [I|I].
    + left. apply attempted_some in I.
      apply in_map_iff.
      exists (k, (inject_Z (succeeded k seen)
                  / inject_Z (attempted k seen))%Q).
      split; [reflexivity|]. apply E1. now split.
    + right. apply attempted_none in I. destruct I as [I1 I2].
      rewrite attempted_app, succeeded_app, I1, I2, J1 in *.
      rewrite !Z.add_0_l in *. split; [now apply J3|].
      assert (P : ~ (inject_Z (attempted k new) == 0)%Q).
      { intro E. unfold Qeq in E. simpl in E. lia. }
      destruct c.
      * now apply Qmult_inv_r.
      * unfold Qdiv. now rewrite Qmult_0_l.
Qed.

End StoreProofs.

(* ================================================================== *)
(** ** The improvement suggestions *)

Module SuggestionProofs.
Import WeaknessAnalysisService PyFacts.

Lemma slice_to_length {A} (l : list A) (n : Z) :
  len (slice_to l n)
  = if 0 <=? n then Z.min n (len l) else Z.max 0 (len l + n).
Proof.
  unfold slice_to, len. destruct (Z.leb_spec 0 n) as [H|H];
    rewrite length_firstn; lia.
Qed.

Lemma slice_to_nth {A} (l : list A) (n : Z) (i : nat) (x : A) :
  nth_error (slice_to l n) i = Some x -> nth_error l i = Some x.
Proof.
  unfold slice_to.
  assert (F : forall m (l : list A) i,
             nth_error (firstn m l) i = Some x -> nth_error l i = Some x).
  { induction m as [|m IH]; intros l0 j H.
    - now destruct j.
    - destruct l0 as [|y l0]; [now destruct j|].
      destruct j as [|j]; [exact H|]. simpl in *. now apply IH. }
  destruct (0 <=? n); apply F.
Qed.

Lemma suggestions_loop (l : list Weakness.t) (start : Z)
      (acc : list string) :
  fold_left
    (fun suggestions item =>
       suggestions ++ [suggestion (fst item) (snd item)])
    (enumerate l start) acc
  = acc ++ map (fun item => suggestion (fst item) (snd item))
             (enumerate l start).
Proof.
  revert start acc. induction l as [|x l IH]; intros start acc; simpl.
  - now rewrite app_nil_r.
  - rewrite IH, <- app_assoc. reflexivity.
Qed.

Lemma enumerate_nth {A} (l : list A) (start : Z) (i : nat) :
  nth_error (enumerate l start) i
  = option_map (fun x => (start + Z.of_nat i, x)) (nth_error l i).
Proof.
  revert start i. induction l as [|x l IH]; intros start i.
  - now destruct i.
  - destruct i as [|i]; simpl.
    + now rewrite Z.add_0_r.
    + rewrite IH. destruct (nth_error l i); simpl; [|reflexivity].
      do 2 f_equal. lia.
Qed.

Lemma enumerate_length {A} (l : list A) (start : Z) :
  List.length (enumerate l start) = List.length l.
Proof.
  revert start. induction l as [|x l IH]; intro start; simpl;
    [reflexivity|]. now rewrite IH.
Qed.

(** X22.  [get_improvement_suggestions] never raises.  For [top_n >= 0]
    it returns [min(top_n, n)] suggestions, [n] being the length of the
    ranking over all subjects; for a negative [top_n] the slice drops the
    last [-top_n] entries, so [max(0, n + top_n)] suggestions are
    returned.  The suggestion at position [i] is numbered [i + 1] and is
    about the entry at position [i] of the ranking. *)
Theorem improvement_suggestions_count (db : DatabaseManager.t)
        (student_id top_n : Z) :
  exists weaknesses suggestions,
    analyze_student_weaknesses db student_id None = Ok weaknesses
    /\ get_improvement_suggestions db student_id top_n = Ok suggestions
    /\ len suggestions
       = (if 0 <=? top_n then Z.min top_n (len weaknesses)
          else Z.max 0 (len weaknesses + top_n))
    /\ (forall i s,
           nth_error suggestions i = Some s ->
           exists weak,
             nth_error weaknesses i = Some weak
             /\ s = suggestion (Z.of_nat i + 1) weak).
Proof.
  assert (Ha := WeaknessProofs.analyze_student_weaknesses_eq
                  db student_id None).
  set (ws := Py.sort by_mastery _) in Ha.
  exists ws. eexists. split; [exact Ha|]. split.
  - unfold get_improvement_suggestions. rewrite Ha. simpl bind.
    rewrite suggestions_loop. reflexivity.
  - cbn [app]. split.
    + rewrite <- slice_to_length. unfold len.
      now rewrite length_map, enumerate_length.
    + intros i s H. rewrite nth_error_map, enumerate_nth in H.
      destruct (nth_error (slice_to ws top_n) i) as [weak|] eqn:E;
        [|discriminate]. simpl in H. injection H as <-.
      exists weak. split; [exact (slice_to_nth _ _ _ _ E)|].
      cbn [fst snd]. now rewrite Z.add_comm.
Qed.

End SuggestionProofs.

(* ================================================================== *)
(** ** The default template *)

Module TemplateProofs.
Import WeaknessAnalysisService IntelligentExamGenerator GeneratorFacts.
Import RunFacts TemplateFacts GeneratorProofs RunProofs.

(** X23.  The default template depends on the requested total score
    alone, not on the subject or the database.  The score it promises
    equals the request exactly for the requests 100 and 115: for a
    request of 150 it has 22 slots worth 158 points, for 100 it has 15
    slots, and for any other request 20 slots worth 115 points.  A run
    without a custom template therefore never selects more than 22
    questions. *)
Theorem default_distribution_nominal (db : DatabaseManager.t)
        (subject_id total_score : Z) :
  let template := _get_default_distribution db subject_id total_score in
  (forall db' subject_id',
      _get_default_distribution db' subject_id' total_score = template)
  /\ (nominal_score template = total_score
      <-> total_score = 100 \/ total_score = 115)
  /\ (total_score = 150 ->
      nominal_score template = 158 /\ slot_count template = 22%nat)
  /\ (total_score = 100 -> slot_count template = 15%nat)
  /\ (total_score <> 150 -> total_score <> 100 ->
      nominal_score template = 115 /\ slot_count template = 20%nat)
  /\ (forall student_id focus_on_weaknesses difficulty_level w,
         exists exam w',
           generate_targeted_exam db student_id subject_id total_score
             focus_on_weaknesses difficulty_level None w
           = Ok (exam, w')
           /\ GeneratedExam.actual_count exam
              <= Z.of_nat (slot_count template)
           /\ Z.of_nat (slot_count template) <= 22).
Proof.
  intro template.
  assert (T : (total_score = 150 /\ nominal_score template = 158
               /\ slot_count template = 22%nat)
              \/ (total_score = 100 /\ nominal_score template = 100
                  /\ slot_count template = 15%nat)
              \/ (total_score <> 150 /\ total_score <> 100
                  /\ nominal_score template = 115
                  /\ slot_count template = 20%nat)).
  { unfold template, _get_default_distribution. cbv zeta.
    destruct (Z.eqb_spec total_score 150) as [E|E];
      [left; now repeat split|].
    destruct (Z.eqb_spec total_score 100) as [F|F];
      [right; left; now repeat split|].
    right. right. now repeat split. }
  split; [reflexivity|]. split; [|split; [|split; [|split]]].
  - destruct T as [(E & N & _)|[(E & N & _)|(E & F & N & _)]];
      rewrite N; lia.
  - intro E. destruct T as [(_ & N & S)|[(F & _)|(F & _)]];
      [now split | lia | lia].
  - intro E. destruct T as [(F & _)|[(_ & _ & S)|(_ & F & _)]];
      [lia | exact S | lia].
  - intros E F. destruct T as [(G & _)|[(G & _)|(_ & _ & N & S)]];
      [lia | lia | now split].
  - intros student_id focus_on_weaknesses difficulty_level w.
    destruct (generate_slots db student_id subject_id total_score
                focus_on_weaknesses difficulty_level None w)
      as (ws & ss & exam & Ha & R & A & C & L & F).
    fold template in L.
    eexists. eexists. split; [exact R|].
    rewrite (assembled_count A). cbn [fst]. split.
    + unfold len. rewrite <- L. apply inj_le, picks_length.
    + destruct T as [(_ & _ & S)|[(_ & _ & S)|(_ & _ & _ & S)]];
        rewrite S; lia.
Qed.

End TemplateProofs.

(* ================================================================== *)
(** ** The mastery estimator reads the history only *)

Module HistoryProofs.
Import WeaknessAnalysisService TallyFacts HistoryFacts PyFacts.
Import TallyProofs.

Lemma attempts_history (db : DatabaseManager.t) (student_id : Z) :
  attempts db student_id None
  = flat_map (fun e => map (fun k => (k, snd e)) (linked_ids db (fst e)))
      (history db student_id).
Proof.
  unfold attempts, attempts_of, history, linked_ids.
  induction (DatabaseManager.get_student_all_answers db student_id)
    as [|a l IH]; [reflexivity|].
  cbn [flat_map map fst snd]. f_equal; [|exact IH]. rewrite map_map.
  rewrite forallb_filter_id; [reflexivity|]. now apply forallb_forall.
Qed.

Lemma tallies_permuted (h : list (Z * bool)) (ids ids' : Z -> list Z) :
  (forall q c, In (q, c) h -> Permutation (ids q) (ids' q)) ->
  Permutation
    (flat_map (fun e => map (fun k => (k, snd e)) (ids (fst e))) h)
    (flat_map (fun e => map (fun k => (k, snd e)) (ids' (fst e))) h).
Proof.
  induction h as [|[q c] h IH]; intro H; simpl; [constructor|].
  apply Permutation_app.
  - apply Permutation_map. apply (H q c). now left.
  - apply IH. intros q' c' I. apply (H q' c'). now right.
Qed.

Lemma count_permuted (p : Z * bool -> bool) (l l' : list (Z * bool)) :
  Permutation l l' -> len (filter p l) = len (filter p l').
Proof.
  unfold len. induction 1 as [|x l l' _ IH|x y l|l l' l'' _ IH1 _ IH2];
    simpl.
  - reflexivity.
  - destruct (p x); simpl; lia.
  - destruct (p x), (p y); reflexivity.
  - lia.
Qed.

Lemma mastery_keys_NoDup (db : DatabaseManager.t) (student_id : Z) :
  NoDup (map fst
           (map mastery_of
              (performance db None
                 (DatabaseManager.get_student_all_answers db student_id)))).
Proof.
  set (answers := DatabaseManager.get_student_all_answers db student_id).
  assert (K0 := WeaknessProofs.performance_keys db student_id None).
  fold answers in K0.
  assert (Kd := performance_keyed db None answers).
  rewrite map_map. unfold values in K0. rewrite map_map in K0.
  rewrite (map_ext_in (fun e => fst (mastery_of e))
             (fun e => KpData.knowledge_point_id (snd e))).
  - rewrite K0. apply set_add_loop_NoDup. constructor.
  - intros e He. rewrite Forall_forall in Kd. symmetry. now apply Kd.
Qed.

(** C9.  The mastery dict is determined by the stored attempt history of
    the student: two databases that hold the same attempts of the student
    (the same questions with the same correctness, in any row order and
    under any row keys) and link the questions of these attempts to the
    same knowledge points (in any order) yield, without raising, dicts
    with the same keys and the same ratio under every key.  Nothing else
    that is stored, and nothing computed before, has an influence. *)
Theorem C9_mastery_deterministic (db1 db2 : DatabaseManager.t)
        (student_id : Z) :
  Permutation (history db1 student_id) (history db2 student_id) ->
  (forall q c,
      In (q, c) (history db1 student_id) ->
      Permutation (linked_ids db1 q) (linked_ids db2 q)) ->
  exists mastery1 mastery2,
    get_knowledge_point_mastery db1 student_id = Ok mastery1
    /\ get_knowledge_point_mastery db2 student_id = Ok mastery2
    /\ NoDup (map fst mastery1)
    /\ NoDup (map fst mastery2)
    /\ (forall k r, In (k, r) mastery1 <-> In (k, r) mastery2).
Proof.
  intros Hh Hk. eexists. eexists.
  split; [apply get_knowledge_point_mastery_eq|].
  split; [apply get_knowledge_point_mastery_eq|].
  split; [apply mastery_keys_NoDup|]. split; [apply mastery_keys_NoDup|].
  assert (P : Permutation (attempts db1 student_id None)
                          (attempts db2 student_id None)).
  { rewrite !attempts_history.
    eapply Permutation_trans.
    - apply (tallies_permuted _ (linked_ids db1) (linked_ids db2)). exact Hk.
    - apply Permutation_flat_map. exact Hh. }
  assert (A : forall k, attempted k (attempts db1 student_id None)
                        = attempted k (attempts db2 student_id None)).
  { intro k. unfold attempted. now apply count_permuted. }
  assert (S : forall k, succeeded k (attempts db1 student_id None)
                        = succeeded k (attempts db2 student_id None)).
  { intro k. unfold succeeded. now apply count_permuted. }
  intros k r. rewrite !StoreProofs.mastery_entries, (A k), (S k).
  reflexivity.
Qed.

Lemma C9_mastery_deterministic_witness :
  get_knowledge_point_mastery Scenarios.school 1
  <> get_knowledge_point_mastery Scenarios.school_shuffled 1
  /\ exists mastery1 mastery2,
       get_knowledge_point_mastery Scenarios.school 1 = Ok mastery1
       /\ get_knowledge_point_mastery Scenarios.school_shuffled 1
          = Ok mastery2
       /\ NoDup (map fst mastery1)
       /\ NoDup (map fst mastery2)
       /\ (forall k r, In (k, r) mastery1 <-> In (k, r) mastery2).
Proof.
  split; [vm_compute; discriminate|].
  apply (C9_mastery_deterministic Scenarios.school
           Scenarios.school_shuffled 1).
  - vm_compute. apply perm_swap.
  - intros q c H. vm_compute in H.
    repeat (destruct H as [H|H];
            [injection H as <- <-; vm_compute;
             first [apply Permutation_refl | apply perm_swap]|]).
    destruct H.
Defined.

End HistoryProofs.
